(** * DogStatsd client (datadog/dogstatsd/base.py): buffering, transport,
      telemetry and serialisation, embedded and verified.

    The client object is a record of its attributes; every method is a
    function in a small state-and-exception monad over the pair of the object
    and the outside world (network, clock, random source, effect trace).
    Python 3 semantics are assumed throughout ([is_p3k()] holds). *)

From Stdlib Require Import ZArith NArith QArith List String Ascii Bool Lia.
From Stdlib Require Import DecimalString.
Import ListNotations.

Local Open Scope Z_scope.

(* ------------------------------------------------------------------ *)
(** ** Text

    A Python 3 [str] is a sequence of Unicode code points: [len] counts code
    points, while the socket receives the UTF-8 encoding. *)

Definition codepoint := N.
Definition str := list codepoint.

(** [u "..."] is a literal whose characters are the bytes of the Rocq string
    (ASCII / Latin-1 code points). *)
Definition u (s : string) : str := map N_of_ascii (list_ascii_of_string s).

Definition LF : codepoint := 10%N.          (* "\n" *)
Definition BACKSLASH : codepoint := 92%N.   (* "\\" *)

(** [len(s)] *)
Definition len (s : str) : Z := Z.of_nat (List.length s).

(** [bool(s)] for a string, and for an optional string ([None] is falsy). *)
Definition truthy_str (s : str) : bool :=
  match s with [] => false | _ => true end.

Definition truthy_opt (o : option str) : bool :=
  match o with Some s => truthy_str s | None => false end.

(** [sep.join(parts)] *)
Fixpoint join (sep : str) (parts : list str) : str :=
  match parts with
  | [] => []
  | [p] => p
  | p :: rest => p ++ sep ++ join sep rest
  end.

(** [str(n)] / ["%s" % n] / ["%d" % n] for an integer. *)
Definition str_of_Z (z : Z) : str := u (NilZero.string_of_int (Z.to_int z)).

Definition codepoint_eqb (a b : codepoint) : bool := N.eqb a b.

Fixpoint str_eqb (a b : str) : bool :=
  match a, b with
  | [], [] => true
  | x :: a', y :: b' => codepoint_eqb x y && str_eqb a' b'
  | _, _ => false
  end.

(** [s.startswith(p)], with what is left of [s] after the prefix. *)
Fixpoint strip_prefix (p s : str) : option str :=
  match p, s with
  | [], _ => Some s
  | x :: p', y :: s' => if codepoint_eqb x y then strip_prefix p' s' else None
  | _ :: _, [] => None
  end.

(** [s.replace(old, new)] for a non-empty [old]: scan from the left; where
    [old] starts, emit [new] and resume after the occurrence (occurrences are
    therefore non-overlapping); elsewhere copy one character.  The recursion
    runs on a fuel equal to the length of the string. *)
Fixpoint replace_fuel (fuel : nat) (old new s : str) : str :=
  match fuel with
  | O => s
  | S fuel' =>
      match s with
      | [] => []
      | c :: s' =>
          match strip_prefix old s with
          | Some rest => new ++ replace_fuel fuel' old new rest
          | None => c :: replace_fuel fuel' old new s'
          end
      end
  end.

Definition replace (old new s : str) : str := replace_fuel (List.length s) old new s.

(** *** UTF-8

    Number of bytes of one code point; lone surrogates have no UTF-8 form. *)
Definition is_surrogate (c : codepoint) : bool :=
  (N.leb 55296 c && N.leb c 57343)%N.

Definition utf8_width (c : codepoint) : Z :=
  if N.ltb c 128 then 1
  else if N.ltb c 2048 then 2
  else if N.ltb c 65536 then 3
  else 4.

(** [len(s.encode('utf8', 'replace'))]: a surrogate becomes ["?"]. *)
Definition utf8_len_replace (s : str) : Z :=
  fold_right (fun c acc => (if is_surrogate c then 1 else utf8_width c) + acc) 0 s.

(** [len(s.encode('utf-8'))] under the strict handler: [None] stands for
    [UnicodeEncodeError]. *)
Definition utf8_len (s : str) : option Z :=
  if existsb is_surrogate s then None else Some (utf8_len_replace s).

Definition is_ascii (s : str) : bool := forallb (fun c => N.ltb c 128) s.

(* ------------------------------------------------------------------ *)
(** ** Numbers

    Metric values and sample rates are Python numbers.  An [int] is an
    integer; a [float] is kept as the rational it denotes together with the
    text [str()] prints for it (rounding is not modelled). *)

Inductive pynum :=
| PyInt (z : Z)
| PyFloat (q : Q) (shown : str).

Definition num_value (n : pynum) : Q :=
  match n with PyInt z => inject_Z z | PyFloat q _ => q end.

(** [str(n)], what ["%s"] and [text()] print. *)
Definition text (n : pynum) : str :=
  match n with PyInt z => str_of_Z z | PyFloat _ shown => shown end.

(** [bool(n)] *)
Definition truthy_num (n : pynum) : bool := negb (Qeq_bool (num_value n) 0).

(** [-n]; the text of a float changes sign with it. *)
Definition neg_num (n : pynum) : pynum :=
  match n with
  | PyInt z => PyInt (- z)
  | PyFloat q shown =>
      PyFloat (- q)
        (match shown with
         | 45%N :: rest => rest
         | _ => 45%N :: shown
         end)
  end.

(** [n != 1] *)
Definition num_ne_1 (n : pynum) : bool := negb (Qeq_bool (num_value n) 1).

(** A metric value: a number, or a text (as [set] accepts). *)
Inductive pyvalue :=
| VNum (n : pynum)
| VText (s : str).

Definition fmt_s (v : pyvalue) : str :=
  match v with VNum n => text n | VText s => s end.

Definition Qlt_bool (a b : Q) : bool := negb (Qle_bool b a).

(* ------------------------------------------------------------------ *)
(** ** Exceptions

    The exception classes the client raises or catches.  All of them derive
    from [Exception]; [socket.error] is [OSError], of which [socket.timeout],
    [socket.herror] and [socket.gaierror] are the subclasses the client tells
    apart. *)

Inductive errno :=
| EAGAIN
| ENOBUFS
| EMSGSIZE
| errno_other (code : Z).

Inductive exn :=
| socket_timeout
| socket_herror
| socket_gaierror
| socket_error (e : errno)
| UnicodeEncodeError
| ValueError (msg : str)
| AttributeError (attr : str)
| OtherException.

Inductive outcome (A : Type) :=
| Return (a : A)
| Raise (e : exn).

Arguments Return {A} a.
Arguments Raise {A} e.

(* ------------------------------------------------------------------ *)
(** ** The client object *)

Inductive endpoint :=
| UDS (path : str)
| UDP (host : option str) (port : option Z).

(** An open, connected datagram socket. *)
Record sock := { fd : nat; peer : endpoint }.

(** [self._send] is bound to one of two methods. *)
Inductive send_path := via_buffer | via_server.

(** [self._flush_thread]: the attribute is only assigned by
    [_start_flush_thread] (a thread) and [_stop_flush_thread] ([None]);
    [__init__] does not create it. *)
Inductive flush_thread_attr :=
| attr_missing
| attr_None
| attr_Thread (interval : Q).

(** Attributes fixed by [__init__]. *)
Record Config := {
  _enabled : bool;
  _max_payload_size : Z;
  socket_path : option str;
  host : option str;
  port : option Z;
  telemetry_socket_path : option str;
  telemetry_host : option str;
  telemetry_port : option Z;
  constant_tags : list str;
  namespace : option str;
  default_sample_rate : pynum;
  _container_id : option str;
  _client_tags : list str;
  _telemetry_flush_interval : Q;
  _telemetry : bool;
  _flush_interval : Q
}.

Record Telemetry := {
  metrics_count : Z;
  events_count : Z;
  service_checks_count : Z;
  bytes_sent : Z;
  bytes_dropped : Z;
  packets_sent : Z;
  packets_dropped : Z;
  _last_flush_time : Q
}.

Record Buffer := {
  _buffer : list str;
  _current_buffer_total_size : Z
}.

Record Transport := {
  socket : option sock;
  telemetry_socket : option sock
}.

Record Toggle := {
  _disable_buffering : bool;
  _send : send_path;
  _flush_thread : flush_thread_attr;
  _flush_thread_stop : bool          (* threading.Event: is it set? *)
}.

Record DogStatsd := {
  cfg : Config;
  tele : Telemetry;
  buf : Buffer;
  conn : Transport;
  mode : Toggle
}.

(** *** Attribute assignment *)

Definition with_tele (t : Telemetry) (o : DogStatsd) : DogStatsd :=
  {| cfg := cfg o; tele := t; buf := buf o; conn := conn o; mode := mode o |}.

Definition with_buf (b : Buffer) (o : DogStatsd) : DogStatsd :=
  {| cfg := cfg o; tele := tele o; buf := b; conn := conn o; mode := mode o |}.

Definition with_conn (c : Transport) (o : DogStatsd) : DogStatsd :=
  {| cfg := cfg o; tele := tele o; buf := buf o; conn := c; mode := mode o |}.

Definition with_mode (m : Toggle) (o : DogStatsd) : DogStatsd :=
  {| cfg := cfg o; tele := tele o; buf := buf o; conn := conn o; mode := m |}.

Definition with_cfg (c : Config) (o : DogStatsd) : DogStatsd :=
  {| cfg := c; tele := tele o; buf := buf o; conn := conn o; mode := mode o |}.

(** [_telemetry] is the one attribute of the configuration with methods
    that assign it later ([enable_telemetry], [disable_telemetry]). *)
Definition set_telemetry (v : bool) (c : Config) : Config :=
  {| _enabled := _enabled c;
     _max_payload_size := _max_payload_size c;
     socket_path := socket_path c;
     host := host c;
     port := port c;
     telemetry_socket_path := telemetry_socket_path c;
     telemetry_host := telemetry_host c;
     telemetry_port := telemetry_port c;
     constant_tags := constant_tags c;
     namespace := namespace c;
     default_sample_rate := default_sample_rate c;
     _container_id := _container_id c;
     _client_tags := _client_tags c;
     _telemetry_flush_interval := _telemetry_flush_interval c;
     _telemetry := v;
     _flush_interval := _flush_interval c |}.

Definition set_metrics_count (v : Z) (t : Telemetry) : Telemetry :=
  {| metrics_count := v; events_count := events_count t;
     service_checks_count := service_checks_count t;
     bytes_sent := bytes_sent t; bytes_dropped := bytes_dropped t;
     packets_sent := packets_sent t; packets_dropped := packets_dropped t;
     _last_flush_time := _last_flush_time t |}.

Definition set_events_count (v : Z) (t : Telemetry) : Telemetry :=
  {| metrics_count := metrics_count t; events_count := v;
     service_checks_count := service_checks_count t;
     bytes_sent := bytes_sent t; bytes_dropped := bytes_dropped t;
     packets_sent := packets_sent t; packets_dropped := packets_dropped t;
     _last_flush_time := _last_flush_time t |}.

Definition set_service_checks_count (v : Z) (t : Telemetry) : Telemetry :=
  {| metrics_count := metrics_count t; events_count := events_count t;
     service_checks_count := v;
     bytes_sent := bytes_sent t; bytes_dropped := bytes_dropped t;
     packets_sent := packets_sent t; packets_dropped := packets_dropped t;
     _last_flush_time := _last_flush_time t |}.

Definition set_bytes_sent (v : Z) (t : Telemetry) : Telemetry :=
  {| metrics_count := metrics_count t; events_count := events_count t;
     service_checks_count := service_checks_count t;
     bytes_sent := v; bytes_dropped := bytes_dropped t;
     packets_sent := packets_sent t; packets_dropped := packets_dropped t;
     _last_flush_time := _last_flush_time t |}.

Definition set_bytes_dropped (v : Z) (t : Telemetry) : Telemetry :=
  {| metrics_count := metrics_count t; events_count := events_count t;
     service_checks_count := service_checks_count t;
     bytes_sent := bytes_sent t; bytes_dropped := v;
     packets_sent := packets_sent t; packets_dropped := packets_dropped t;
     _last_flush_time := _last_flush_time t |}.

Definition set_packets_sent (v : Z) (t : Telemetry) : Telemetry :=
  {| metrics_count := metrics_count t; events_count := events_count t;
     service_checks_count := service_checks_count t;
     bytes_sent := bytes_sent t; bytes_dropped := bytes_dropped t;
     packets_sent := v; packets_dropped := packets_dropped t;
     _last_flush_time := _last_flush_time t |}.

Definition set_packets_dropped (v : Z) (t : Telemetry) : Telemetry :=
  {| metrics_count := metrics_count t; events_count := events_count t;
     service_checks_count := service_checks_count t;
     bytes_sent := bytes_sent t; bytes_dropped := bytes_dropped t;
     packets_sent := packets_sent t; packets_dropped := v;
     _last_flush_time := _last_flush_time t |}.

Definition set_last_flush_time (v : Q) (t : Telemetry) : Telemetry :=
  {| metrics_count := metrics_count t; events_count := events_count t;
     service_checks_count := service_checks_count t;
     bytes_sent := bytes_sent t; bytes_dropped := bytes_dropped t;
     packets_sent := packets_sent t; packets_dropped := packets_dropped t;
     _last_flush_time := v |}.

Definition set_socket (v : option sock) (c : Transport) : Transport :=
  {| socket := v; telemetry_socket := telemetry_socket c |}.

Definition set_telemetry_socket (v : option sock) (c : Transport) : Transport :=
  {| socket := socket c; telemetry_socket := v |}.

Definition set_disable_buffering (v : bool) (m : Toggle) : Toggle :=
  {| _disable_buffering := v; _send := _send m;
     _flush_thread := _flush_thread m; _flush_thread_stop := _flush_thread_stop m |}.

Definition set_send (v : send_path) (m : Toggle) : Toggle :=
  {| _disable_buffering := _disable_buffering m; _send := v;
     _flush_thread := _flush_thread m; _flush_thread_stop := _flush_thread_stop m |}.

Definition set_flush_thread (v : flush_thread_attr) (m : Toggle) : Toggle :=
  {| _disable_buffering := _disable_buffering m; _send := _send m;
     _flush_thread := v; _flush_thread_stop := _flush_thread_stop m |}.

Definition set_flush_thread_stop (v : bool) (m : Toggle) : Toggle :=
  {| _disable_buffering := _disable_buffering m; _send := _send m;
     _flush_thread := _flush_thread m; _flush_thread_stop := v |}.

(* ------------------------------------------------------------------ *)
(** ** The outside world

    What the client cannot decide by itself is scripted: the result of each
    coming socket operation ([None]: it succeeds), the coming readings of
    [time.time()] and the coming draws of [random()].  An exhausted script
    answers success, time 0 and draw 0.  Every effect on the outside is
    appended to [trace]. *)

Inductive lock := _socket_lock | _buffer_lock | _buffering_toggle_lock.

Inductive effect :=
| Acquire (l : lock)
| Release (l : lock)
| Connect (e : endpoint) (r : option exn)   (* socket(), setblocking, connect *)
| Send (s : sock) (data : str) (r : option exn)   (* s.send(data.encode()) *)
| Close (s : sock)
| ThreadStart (interval : Q)
| ThreadJoin
| EventSet
| EventClear.

Record World := {
  net : list (option exn);
  clock : list Q;
  dice : list Q;
  next_fd : nat;
  trace : list effect
}.

Record Sys := { self : DogStatsd; world : World }.

(* ------------------------------------------------------------------ *)
(** ** The monad of methods: state, and exceptions that keep the state *)

Definition Py (A : Type) : Type := Sys -> outcome A * Sys.

Definition ret {A} (a : A) : Py A := fun s => (Return a, s).

Definition raise {A} (e : exn) : Py A := fun s => (Raise e, s).

Definition bind {A B} (m : Py A) (k : A -> Py B) : Py B :=
  fun s =>
    match m s with
    | (Return a, s') => k a s'
    | (Raise e, s') => (Raise e, s')
    end.

Notation "x <- m ;; k" := (bind m (fun x => k))
  (at level 61, m at next level, right associativity).
Notation "m ;; k" := (bind m (fun _ => k))
  (at level 61, right associativity).

(** [try: m  except Exception as e: h e] *)
Definition try_except {A} (m : Py A) (h : exn -> Py A) : Py A :=
  fun s =>
    match m s with
    | (Return a, s') => (Return a, s')
    | (Raise e, s') => h e s'
    end.

(** [try: m  finally: f]: [f] runs on every way out of [m]; an exception of
    [f] replaces the outcome of [m]. *)
Definition try_finally {A} (m : Py A) (f : Py unit) : Py A :=
  fun s =>
    match m s with
    | (r, s1) =>
        match f s1 with
        | (Return _, s2) => (r, s2)
        | (Raise e, s2) => (Raise e, s2)
        end
    end.

(** Reading and assigning attributes. *)
Definition attr {A} (f : DogStatsd -> A) : Py A := fun s => (Return (f (self s)), s).

Definition assign (f : DogStatsd -> DogStatsd) : Py unit :=
  fun s => (Return tt, {| self := f (self s); world := world s |}).

Definition emit (e : effect) : Py unit :=
  fun s =>
    let w := world s in
    (Return tt,
     {| self := self s;
        world := {| net := net w; clock := clock w; dice := dice w;
                    next_fd := next_fd w; trace := trace w ++ [e] |} |}).

(** [with l: m], the lock is released on every way out. *)
Definition with_lock {A} (l : lock) (m : Py A) : Py A :=
  fun s =>
    match emit (Acquire l) s with
    | (_, s1) =>
        match m s1 with
        | (r, s2) => (r, snd (emit (Release l) s2))
        end
    end.

(** [time.time()] *)
Definition time_time : Py Q :=
  fun s =>
    let w := world s in
    (Return (hd 0%Q (clock w)),
     {| self := self s;
        world := {| net := net w; clock := tl (clock w); dice := dice w;
                    next_fd := next_fd w; trace := trace w |} |}).

(** [random()] *)
Definition random : Py Q :=
  fun s =>
    let w := world s in
    (Return (hd 0%Q (dice w)),
     {| self := self s;
        world := {| net := net w; clock := clock w; dice := tl (dice w);
                    next_fd := next_fd w; trace := trace w |} |}).

(** Creating and connecting a socket ([_get_uds_socket], [_get_udp_socket]):
    the next scripted result decides whether it raises. *)
Definition open_socket (e : endpoint) : Py sock :=
  fun s =>
    let w := world s in
    match hd None (net w) with
    | None =>
        let k := {| fd := next_fd w; peer := e |} in
        (Return k,
         {| self := self s;
            world := {| net := tl (net w); clock := clock w; dice := dice w;
                        next_fd := S (next_fd w);
                        trace := trace w ++ [Connect e None] |} |})
    | Some x =>
        (Raise x,
         {| self := self s;
            world := {| net := tl (net w); clock := clock w; dice := dice w;
                        next_fd := next_fd w;
                        trace := trace w ++ [Connect e (Some x)] |} |})
    end.

(** [mysocket.send(packet.encode(self.encoding))]: the strict UTF-8 encoder
    refuses lone surrogates before anything reaches the socket. *)
Definition socket_send (k : sock) (packet : str) : Py unit :=
  fun s =>
    match utf8_len packet with
    | None => (Raise UnicodeEncodeError, s)
    | Some _ =>
        let w := world s in
        let r := hd None (net w) in
        (match r with None => Return tt | Some x => Raise x end,
         {| self := self s;
            world := {| net := tl (net w); clock := clock w; dice := dice w;
                        next_fd := next_fd w;
                        trace := trace w ++ [Send k packet r] |} |})
    end.

(* ------------------------------------------------------------------ *)
(** ** Methods of [DogStatsd] *)

Definition MIN_FLUSH_INTERVAL : Q := 1 # 10000.
Definition UDP_OPTIMAL_PAYLOAD_LENGTH : Z := 1432.
Definition UDS_OPTIMAL_PAYLOAD_LENGTH : Z := 8192.

(** *** Telemetry counters *)

Definition incr_metrics_count : Py unit :=
  assign (fun o => with_tele (set_metrics_count (metrics_count (tele o) + 1) (tele o)) o).

Definition incr_events_count : Py unit :=
  assign (fun o => with_tele (set_events_count (events_count (tele o) + 1) (tele o)) o).

Definition incr_service_checks_count : Py unit :=
  assign (fun o =>
    with_tele (set_service_checks_count (service_checks_count (tele o) + 1) (tele o)) o).

Definition add_bytes_sent (n : Z) : Py unit :=
  assign (fun o => with_tele (set_bytes_sent (bytes_sent (tele o) + n) (tele o)) o).

Definition add_packets_sent (n : Z) : Py unit :=
  assign (fun o => with_tele (set_packets_sent (packets_sent (tele o) + n) (tele o)) o).

Definition add_bytes_dropped (n : Z) : Py unit :=
  assign (fun o => with_tele (set_bytes_dropped (bytes_dropped (tele o) + n) (tele o)) o).

Definition add_packets_dropped (n : Z) : Py unit :=
  assign (fun o => with_tele (set_packets_dropped (packets_dropped (tele o) + n) (tele o)) o).

Definition _reset_telemetry : Py unit :=
  now <- time_time ;;
  assign (with_tele
    {| metrics_count := 0; events_count := 0; service_checks_count := 0;
       bytes_sent := 0; bytes_dropped := 0;
       packets_sent := 0; packets_dropped := 0;
       _last_flush_time := now |}).

Definition disable_telemetry : Py unit :=
  assign (fun o => with_cfg (set_telemetry false (cfg o)) o).

Definition enable_telemetry : Py unit :=
  assign (fun o => with_cfg (set_telemetry true (cfg o)) o).

(** *** Tags and serialisation (pure readers of the object) *)

(** Truth value of an optional list ([None] and [[]] are falsy). *)
Definition truthy_tags (tags : option (list str)) : bool :=
  match tags with Some (_ :: _) => true | _ => false end.

Definition _add_constant_tags (o : DogStatsd) (tags : option (list str))
  : option (list str) :=
  match constant_tags (cfg o) with
  | _ :: _ =>
      match tags with
      | Some (t :: ts) => Some ((t :: ts) ++ constant_tags (cfg o))
      | _ => Some (constant_tags (cfg o))
      end
  | [] => tags
  end.

Definition TELEMETRY_NAMES : list str :=
  [ u "datadog.dogstatsd.client.metrics";
    u "datadog.dogstatsd.client.events";
    u "datadog.dogstatsd.client.service_checks";
    u "datadog.dogstatsd.client.bytes_sent";
    u "datadog.dogstatsd.client.bytes_dropped";
    u "datadog.dogstatsd.client.packets_sent";
    u "datadog.dogstatsd.client.packets_dropped" ].

(** [TELEMETRY_FORMATTING_STR % (...)]: one line ["name:%s|c|#%s"] per
    counter, joined by newlines, with a final newline. *)
Definition _flush_telemetry (o : DogStatsd) : str :=
  let telemetry_tags :=
    join (u ",")
      (match _add_constant_tags o (Some (_client_tags (cfg o))) with
       | Some l => l
       | None => []
       end) in
  let t := tele o in
  let line name count := name ++ u ":" ++ str_of_Z count ++ u "|c|#" ++ telemetry_tags in
  join [LF]
    (map (fun nc => line (fst nc) (snd nc))
       (combine TELEMETRY_NAMES
          [ metrics_count t; events_count t; service_checks_count t;
            bytes_sent t; bytes_dropped t; packets_sent t; packets_dropped t ]))
  ++ [LF].

Definition _is_telemetry_flush_time : Py bool :=
  tel <- attr (fun o => _telemetry (cfg o)) ;;
  if tel then
    last <- attr (fun o => _last_flush_time (tele o)) ;;
    interval <- attr (fun o => _telemetry_flush_interval (cfg o)) ;;
    now <- time_time ;;
    ret (Qlt_bool (last + interval) now)
  else ret false.

Definition _dedicated_telemetry_destination (o : DogStatsd) : bool :=
  truthy_opt (telemetry_socket_path (cfg o)) || truthy_opt (telemetry_host (cfg o)).

(** *** Sockets *)

Definition _get_uds_socket (path : str) : Py sock := open_socket (UDS path).

Definition _get_udp_socket (h : option str) (p : option Z) : Py sock :=
  open_socket (UDP h p).

Definition get_socket (telemetry : bool) : Py sock :=
  with_lock _socket_lock
    (dedicated <- attr _dedicated_telemetry_destination ;;
     if telemetry && dedicated then
       ts <- attr (fun o => telemetry_socket (conn o)) ;;
       match ts with
       | Some k => ret k
       | None =>
           path <- attr (fun o => telemetry_socket_path (cfg o)) ;;
           h <- attr (fun o => telemetry_host (cfg o)) ;;
           p <- attr (fun o => telemetry_port (cfg o)) ;;
           k <- match path with
                | Some sp => _get_uds_socket sp
                | None => _get_udp_socket h p
                end ;;
           assign (fun o => with_conn (set_telemetry_socket (Some k) (conn o)) o) ;;
           ret k
       end
     else
       ms <- attr (fun o => socket (conn o)) ;;
       match ms with
       | Some k => ret k
       | None =>
           path <- attr (fun o => socket_path (cfg o)) ;;
           h <- attr (fun o => host (cfg o)) ;;
           p <- attr (fun o => port (cfg o)) ;;
           k <- match path with
                | Some sp => _get_uds_socket sp
                | None => _get_udp_socket h p
                end ;;
           assign (fun o => with_conn (set_socket (Some k) (conn o)) o) ;;
           ret k
       end).

(** [close()] may raise [OSError], which is logged; the attribute is cleared
    either way. *)
Definition close_socket : Py unit :=
  with_lock _socket_lock
    (ms <- attr (fun o => socket (conn o)) ;;
     match ms with
     | Some k =>
         emit (Close k) ;;
         assign (fun o => with_conn (set_socket None (conn o)) o)
     | None => ret tt
     end ;;
     ts <- attr (fun o => telemetry_socket (conn o)) ;;
     match ts with
     | Some k =>
         emit (Close k) ;;
         assign (fun o => with_conn (set_telemetry_socket None (conn o)) o)
     | None => ret tt
     end).

(** *** Transmission *)

(** What each [except] clause of [_xmit_packet] does with the connection.
    The clauses only log besides.  The debug line of the [EMSGSIZE] clause
    formats [len(packet.encode(self.encoding))]: [EMSGSIZE] is an error of
    [send], raised after the packet was encoded, so that this second
    encoding succeeds. *)
Definition on_send_error (e : exn) : Py bool :=
  match e with
  | socket_timeout => ret false
  | socket_herror | socket_gaierror => close_socket ;; ret false
  | socket_error EAGAIN => ret false
  | socket_error ENOBUFS => ret false
  | socket_error EMSGSIZE => ret false
  | socket_error (errno_other _) => close_socket ;; ret false
  | _ => ret false
  end.

Definition _xmit_packet (packet : str) (is_telemetry : bool) : Py bool :=
  sent <- try_except
    (dedicated <- attr _dedicated_telemetry_destination ;;
     mysocket <-
       (if is_telemetry && dedicated then
          ts <- attr (fun o => telemetry_socket (conn o)) ;;
          match ts with Some k => ret k | None => get_socket true end
        else
          ms <- attr (fun o => socket (conn o)) ;;
          match ms with Some k => ret k | None => get_socket false end) ;;
     socket_send mysocket packet ;;
     tel <- attr (fun o => _telemetry (cfg o)) ;;
     (if negb is_telemetry && tel then
        add_packets_sent 1 ;; add_bytes_sent (len packet)
      else ret tt) ;;
     ret true)
    on_send_error ;;
  if sent then ret true
  else
    tel <- attr (fun o => _telemetry (cfg o)) ;;
    (if negb is_telemetry && tel then
       add_bytes_dropped (len packet) ;; add_packets_dropped 1
     else ret tt) ;;
    ret false.

Definition _send_to_server (packet : str) : Py unit :=
  _xmit_packet (packet ++ [LF]) false ;;
  due <- _is_telemetry_flush_time ;;
  if due then
    telemetry <- attr _flush_telemetry ;;
    ok <- _xmit_packet telemetry true ;;
    if ok then
      _reset_telemetry ;;
      add_packets_sent 1 ;;
      add_bytes_sent (len telemetry)
    else
      now <- time_time ;;
      assign (fun o => with_tele (set_last_flush_time now (tele o)) o) ;;
      add_bytes_dropped (len telemetry) ;;
      add_packets_dropped 1
  else ret tt.

(** *** The buffer *)

Definition _reset_buffer : Py unit :=
  with_lock _buffer_lock
    (assign (with_buf {| _buffer := []; _current_buffer_total_size := 0 |})).

Definition flush : Py unit :=
  with_lock _buffer_lock
    (b <- attr (fun o => _buffer (buf o)) ;;
     match b with
     | [] => ret tt
     | _ :: _ => _send_to_server (join [LF] b) ;; _reset_buffer
     end).

Definition _should_flush (o : DogStatsd) (length_to_be_added : Z) : bool :=
  _max_payload_size (cfg o) <? _current_buffer_total_size (buf o) + length_to_be_added + 1.

Definition _send_to_buffer (packet : str) : Py unit :=
  with_lock _buffer_lock
    (full <- attr (fun o => _should_flush o (len packet)) ;;
     (if full then flush else ret tt) ;;
     assign (fun o =>
       with_buf {| _buffer := _buffer (buf o) ++ [packet];
                   _current_buffer_total_size :=
                     _current_buffer_total_size (buf o) + (len packet + 1) |} o)).

(** [self._send(packet)] *)
Definition send (packet : str) : Py unit :=
  path <- attr (fun o => _send (mode o)) ;;
  match path with
  | via_buffer => _send_to_buffer packet
  | via_server => _send_to_server packet
  end.

(** *** The flush thread and the buffering toggle

    The model follows one calling thread.  Starting and joining the
    background thread are effects in the trace; the thread's own periodic
    [flush] calls are calls of [flush] above, made between two calls of the
    caller. *)

Definition _start_flush_thread (flush_interval : Q) : Py unit :=
  disabled <- attr (fun o => _disable_buffering (mode o)) ;;
  interval <- attr (fun o => _flush_interval (cfg o)) ;;
  if disabled || Qle_bool interval MIN_FLUSH_INTERVAL then ret tt
  else
    assign (fun o => with_mode (set_flush_thread (attr_Thread flush_interval) (mode o)) o) ;;
    emit (ThreadStart flush_interval).

Definition _stop_flush_thread : Py unit :=
  t <- attr (fun o => _flush_thread (mode o)) ;;
  match t with
  | attr_missing => raise (AttributeError (u "_flush_thread"))
  | attr_None => ret tt
  | attr_Thread _ =>
      flush ;;
      assign (fun o => with_mode (set_flush_thread_stop true (mode o)) o) ;;
      emit EventSet ;;
      emit ThreadJoin ;;
      assign (fun o => with_mode (set_flush_thread attr_None (mode o)) o) ;;
      assign (fun o => with_mode (set_flush_thread_stop false (mode o)) o) ;;
      emit EventClear
  end.

(** The [disable_buffering] property: getter and setter. *)
Definition get_disable_buffering : Py bool :=
  with_lock _buffering_toggle_lock (attr (fun o => _disable_buffering (mode o))).

Definition set_disable_buffering_property (is_disabled : bool) : Py unit :=
  with_lock _buffering_toggle_lock
    (current <- attr (fun o => _disable_buffering (mode o)) ;;
     if Bool.eqb current is_disabled then ret tt
     else
       assign (fun o => with_mode (set_disable_buffering is_disabled (mode o)) o) ;;
       if is_disabled then
         assign (fun o => with_mode (set_send via_server (mode o)) o) ;;
         _stop_flush_thread
       else
         assign (fun o => with_mode (set_send via_buffer (mode o)) o) ;;
         interval <- attr (fun o => _flush_interval (cfg o)) ;;
         _start_flush_thread interval).

(** *** Batches: [open_buffer], [close_buffer] and the context manager

    [open_buffer] takes the toggle lock and keeps it; [close_buffer] gives
    it back.  The deprecated [max_buffer_size] argument is only logged. *)

Definition open_buffer (max_buffer_size : option Z) : Py unit :=
  emit (Acquire _buffering_toggle_lock) ;;
  assign (fun o => with_mode (set_send via_buffer (mode o)) o) ;;
  _reset_buffer.

Definition close_buffer : Py unit :=
  try_finally flush
    (disabled <- attr (fun o => _disable_buffering (mode o)) ;;
     (if disabled
      then assign (fun o => with_mode (set_send via_server (mode o)) o)
      else ret tt) ;;
     emit (Release _buffering_toggle_lock)).

Definition __enter__ : Py unit := open_buffer None.

Definition __exit__ : Py unit := close_buffer.

(** [with statsd: body] *)
Definition with_statement {A} (body : Py A) : Py A :=
  __enter__ ;; try_finally body __exit__.

(** *** Construction

    [__init__] after its reading of arguments and environment variables
    (which yields the configuration [c]): telemetry and buffer are reset, the
    send path is chosen, and the flush thread is started when it applies.
    [payload_size] is the choice of [_max_payload_size]. *)

Definition payload_size (max_buffer_len : Z) (uds_path : option str) : Z :=
  if max_buffer_len =? 0 then
    match uds_path with
    | Some _ => UDS_OPTIMAL_PAYLOAD_LENGTH
    | None => UDP_OPTIMAL_PAYLOAD_LENGTH
    end
  else max_buffer_len.

Definition blank (c : Config) (disable_buffering : bool) : DogStatsd :=
  {| cfg := c;
     tele := {| metrics_count := 0; events_count := 0; service_checks_count := 0;
                bytes_sent := 0; bytes_dropped := 0;
                packets_sent := 0; packets_dropped := 0;
                _last_flush_time := 0%Q |};
     buf := {| _buffer := []; _current_buffer_total_size := 0 |};
     conn := {| socket := None; telemetry_socket := None |};
     mode := {| _disable_buffering := disable_buffering;
                _send := if disable_buffering then via_server else via_buffer;
                _flush_thread := attr_missing;
                _flush_thread_stop := false |} |}.

Definition __init__ (c : Config) (disable_buffering : bool) (w : World)
  : outcome unit * Sys :=
  (_reset_telemetry ;;
   now <- time_time ;;
   assign (fun o => with_tele (set_last_flush_time now (tele o)) o) ;;
   _reset_buffer ;;
   _start_flush_thread (_flush_interval c))
    {| self := blank c disable_buffering; world := w |}.

(* ------------------------------------------------------------------ *)
(** ** Metrics *)

Section Reporting.

(** [datadog.util.format.normalize_tags] is imported from a module of the
    package that is not part of this file; the client only passes it the
    tag list and joins what it returns. *)
Variable normalize_tags : list str -> list str.

Definition _serialize_metric (o : DogStatsd) (metric metric_type : str)
    (value : pyvalue) (tags : option (list str)) (sample_rate : pynum) : str :=
  (if truthy_opt (namespace (cfg o))
   then match namespace (cfg o) with Some ns => ns ++ u "." | None => [] end
   else [])
  ++ metric ++ u ":" ++ fmt_s value ++ u "|" ++ metric_type
  ++ (if num_ne_1 sample_rate then u "|@" ++ text sample_rate else [])
  ++ (if truthy_tags tags
      then u "|#" ++ join (u ",")
                       (normalize_tags (match tags with Some l => l | None => [] end))
      else [])
  ++ (if truthy_opt (_container_id (cfg o))
      then match _container_id (cfg o) with Some c => u "|c:" ++ c | None => [] end
      else []).

Definition _report (metric metric_type : str) (value : option pyvalue)
    (tags : option (list str)) (sample_rate : option pynum) : Py unit :=
  match value with
  | None => ret tt
  | Some v =>
      enabled <- attr (fun o => _enabled (cfg o)) ;;
      if negb enabled then ret tt
      else
        tel <- attr (fun o => _telemetry (cfg o)) ;;
        (if tel then incr_metrics_count else ret tt) ;;
        dflt <- attr (fun o => default_sample_rate (cfg o)) ;;
        let rate := match sample_rate with Some r => r | None => dflt end in
        dropped <-
          (if num_ne_1 rate then
             draw <- random ;; ret (Qlt_bool (num_value rate) draw)
           else ret false) ;;
        if dropped then ret tt
        else
          o <- attr (fun o => o) ;;
          let all_tags := _add_constant_tags o tags in
          let payload := _serialize_metric o metric metric_type v all_tags rate in
          send payload
  end.

Definition gauge (metric : str) (value : option pyvalue)
    (tags : option (list str)) (sample_rate : option pynum) : Py unit :=
  _report metric (u "g") value tags sample_rate.

Definition increment (metric : str) (value : option pyvalue)
    (tags : option (list str)) (sample_rate : option pynum) : Py unit :=
  _report metric (u "c") value tags sample_rate.

(** [metric_value = -value if value else value]; the value is a number
    (the parameter is annotated [float]). *)
Definition decrement (metric : str) (value : option pynum)
    (tags : option (list str)) (sample_rate : option pynum) : Py unit :=
  let metric_value :=
    match value with
    | Some n => Some (VNum (if truthy_num n then neg_num n else n))
    | None => None
    end in
  _report metric (u "c") metric_value tags sample_rate.

Definition histogram (metric : str) (value : option pyvalue)
    (tags : option (list str)) (sample_rate : option pynum) : Py unit :=
  _report metric (u "h") value tags sample_rate.

Definition distribution (metric : str) (value : option pyvalue)
    (tags : option (list str)) (sample_rate : option pynum) : Py unit :=
  _report metric (u "d") value tags sample_rate.

Definition timing (metric : str) (value : option pyvalue)
    (tags : option (list str)) (sample_rate : option pynum) : Py unit :=
  _report metric (u "ms") value tags sample_rate.

Definition set (metric : str) (value : option pyvalue)
    (tags : option (list str)) (sample_rate : option pynum) : Py unit :=
  _report metric (u "s") value tags sample_rate.

End Reporting.

(* ------------------------------------------------------------------ *)
(** ** Events and service checks *)

Definition _escape_event_content (s : str) : str :=
  replace [LF] [BACKSLASH; 110%N] s.

Definition _escape_service_check_message (s : str) : str :=
  replace (u "m:") [109%N; BACKSLASH; 58%N] (replace [LF] [BACKSLASH; 110%N] s).

Definition QUOTE : codepoint := 34%N.

(** Appending an optional ["|x:%s"] field when its value is truthy. *)
Definition opt_field (key : str) (v : option str) (s : str) : str :=
  if truthy_opt v
  then match v with Some x => s ++ key ++ x | None => s end
  else s.

Definition opt_int_field (key : str) (v : option Z) (s : str) : str :=
  match v with
  | Some n => if n =? 0 then s else s ++ key ++ str_of_Z n
  | None => s
  end.

Definition tags_field (tags : option (list str)) (s : str) : str :=
  match tags with
  | Some (t :: ts) => s ++ u "|#" ++ join (u ",") (t :: ts)
  | _ => s
  end.

(** The payload [event] builds before it checks its size. *)
Definition event_payload (o : DogStatsd) (title message : str)
    (alert_type aggregation_key source_type_name : option str)
    (date_happened : option Z) (priority : option str)
    (tags : option (list str)) (hostname : option str) : str :=
  let title := _escape_event_content title in
  let message := _escape_event_content message in
  let tags := _add_constant_tags o tags in
  let s := u "_e{" ++ str_of_Z (utf8_len_replace title) ++ u ","
             ++ str_of_Z (utf8_len_replace message) ++ u "}:"
             ++ title ++ u "|" ++ message in
  let s := opt_int_field (u "|d:") date_happened s in
  let s := opt_field (u "|h:") hostname s in
  let s := opt_field (u "|k:") aggregation_key s in
  let s := opt_field (u "|p:") priority s in
  let s := opt_field (u "|s:") source_type_name s in
  let s := opt_field (u "|t:") alert_type s in
  let s := tags_field tags s in
  opt_field (u "|c:") (_container_id (cfg o)) s.

Definition event (title message : str)
    (alert_type aggregation_key source_type_name : option str)
    (date_happened : option Z) (priority : option str)
    (tags : option (list str)) (hostname : option str) : Py unit :=
  o <- attr (fun o => o) ;;
  let s := event_payload o title message alert_type aggregation_key
             source_type_name date_happened priority tags hostname in
  if 8 * 1024 <? len s then
    raise (ValueError
             (u "Event " ++ [QUOTE] ++ _escape_event_content title ++ [QUOTE]
                ++ u " payload is too big (>=8KB). Event discarded"))
  else
    tel <- attr (fun o => _telemetry (cfg o)) ;;
    (if tel then incr_events_count else ret tt) ;;
    send s.

Definition service_check_payload (o : DogStatsd) (check_name : str) (status : Z)
    (tags : option (list str)) (timestamp : option Z)
    (hostname message : option str) : str :=
  let message :=
    match message with
    | Some m => _escape_service_check_message m
    | None => []
    end in
  let s := u "_sc|" ++ check_name ++ u "|" ++ str_of_Z status in
  let tags := _add_constant_tags o tags in
  let s := opt_int_field (u "|d:") timestamp s in
  let s := opt_field (u "|h:") hostname s in
  let s := tags_field tags s in
  let s := opt_field (u "|m:") (Some message) s in
  opt_field (u "|c:") (_container_id (cfg o)) s.

Definition service_check (check_name : str) (status : Z)
    (tags : option (list str)) (timestamp : option Z)
    (hostname message : option str) : Py unit :=
  o <- attr (fun o => o) ;;
  let s := service_check_payload o check_name status tags timestamp hostname message in
  tel <- attr (fun o => _telemetry (cfg o)) ;;
  (if tel then incr_service_checks_count else ret tt) ;;
  send s.

(* ------------------------------------------------------------------ *)
(** ** Vocabulary of the statements *)

(** The system with further effects appended to its trace. *)
Definition logged (es : list effect) (s : Sys) : Sys :=
  {| self := self s;
     world := {| net := net (world s); clock := clock (world s);
                 dice := dice (world s); next_fd := next_fd (world s);
                 trace := trace (world s) ++ es |} |}.

(** The system with its client object replaced. *)
Definition with_self (o : DogStatsd) (s : Sys) : Sys :=
  {| self := o; world := world s |}.

(** Size the buffer accounts for: every packet and one separator each. *)
Fixpoint encoded_size (packets : list str) : Z :=
  match packets with
  | [] => 0
  | p :: rest => (len p + 1) + encoded_size rest
  end.

(** The buffer after one more packet, and after a reset. *)
Definition appended (packet : str) (s : Sys) : Sys :=
  with_self
    (with_buf {| _buffer := _buffer (buf (self s)) ++ [packet];
                 _current_buffer_total_size :=
                   _current_buffer_total_size (buf (self s)) + (len packet + 1) |}
       (self s)) s.

Definition emptied (s : Sys) : Sys :=
  with_self (with_buf {| _buffer := []; _current_buffer_total_size := 0 |} (self s)) s.

(** The counter agrees with the content of the buffer. *)
Definition buffer_wf (o : DogStatsd) : Prop :=
  _current_buffer_total_size (buf o) = encoded_size (_buffer (buf o)).

(** A method that always comes back with a value. *)
Definition returns {A} (m : Py A) : Prop :=
  forall s, exists a, fst (m s) = Return a.

(** A method that leaves a part of the object as it found it, however it
    ends. *)
Definition keeps {A X} (proj : DogStatsd -> X) (m : Py A) : Prop :=
  forall s, proj (self (snd (m s))) = proj (self s).

(** A method that keeps an invariant of the object, however it ends. *)
Definition maintains {A} (I : DogStatsd -> Prop) (m : Py A) : Prop :=
  forall s, I (self s) -> I (self (snd (m s))).

(** A method that leaves a part of the outside world as it found it. *)
Definition spares {A X} (proj : World -> X) (m : Py A) : Prop :=
  forall s, proj (world (snd (m s))) = proj (world s).

(** The socket a transmission uses. *)
Definition chosen_socket (o : DogStatsd) (is_telemetry : bool) : option sock :=
  if is_telemetry && _dedicated_telemetry_destination o
  then telemetry_socket (conn o)
  else socket (conn o).

(** The endpoint [get_socket] connects to. *)
Definition chosen_endpoint (o : DogStatsd) (is_telemetry : bool) : endpoint :=
  if is_telemetry && _dedicated_telemetry_destination o
  then match telemetry_socket_path (cfg o) with
       | Some sp => UDS sp
       | None => UDP (telemetry_host (cfg o)) (telemetry_port (cfg o))
       end
  else match socket_path (cfg o) with
       | Some sp => UDS sp
       | None => UDP (host (cfg o)) (port (cfg o))
       end.

(** The socket the coming transmission will hand the packet to, when it
    gets that far: the cached one, or the one about to be created. *)
Definition socket_in_use (s : Sys) (is_telemetry : bool) : sock :=
  match chosen_socket (self s) is_telemetry with
  | Some k => k
  | None => {| fd := next_fd (world s); peer := chosen_endpoint (self s) is_telemetry |}
  end.

(** The coming [send] on the socket raises [e]: with a cached socket it is
    the next scripted result; without one the connection is scripted to
    succeed first. *)
Definition send_fails_with (s : Sys) (is_telemetry : bool) (e : exn) : Prop :=
  match chosen_socket (self s) is_telemetry with
  | Some _ => hd None (net (world s)) = Some e
  | None => hd None (net (world s)) = None /\ hd None (tl (net (world s))) = Some e
  end.

(** Failures after which the connection is kept, and those after which it is
    closed. *)
Definition transient (e : exn) : bool :=
  match e with
  | socket_timeout => true
  | socket_error EAGAIN | socket_error ENOBUFS | socket_error EMSGSIZE => true
  | _ => false
  end.

Definition fatal (e : exn) : bool :=
  match e with
  | socket_herror | socket_gaierror => true
  | socket_error (errno_other _) => true
  | _ => false
  end.

(** The system after [close_socket]: both cached sockets are closed and
    forgotten. *)
Definition close_effects (c : Transport) : list effect :=
  Acquire _socket_lock
    :: match socket c with Some k => [Close k] | None => [] end
    ++ match telemetry_socket c with Some k => [Close k] | None => [] end
    ++ [Release _socket_lock].

Definition closed (s : Sys) : Sys :=
  logged (close_effects (conn (self s)))
    (with_self (with_conn {| socket := None; telemetry_socket := None |} (self s)) s).

(** The system right after a transmission whose [send] raised [e]: the
    socket was taken from the cache, or created, connected and cached, and
    the packet was handed to it. *)
Definition attempted (s : Sys) (is_telemetry : bool) (packet : str) (e : exn) : Sys :=
  let w := world s in
  match chosen_socket (self s) is_telemetry with
  | Some k =>
      {| self := self s;
         world := {| net := tl (net w); clock := clock w; dice := dice w;
                     next_fd := next_fd w;
                     trace := trace w ++ [Send k packet (Some e)] |} |}
  | None =>
      let k := socket_in_use s is_telemetry in
      {| self :=
           with_conn
             (if is_telemetry && _dedicated_telemetry_destination (self s)
              then set_telemetry_socket (Some k) (conn (self s))
              else set_socket (Some k) (conn (self s)))
             (self s);
         world := {| net := tl (tl (net w)); clock := clock w; dice := dice w;
                     next_fd := S (next_fd w);
                     trace := trace w
                              ++ [Acquire _socket_lock; Connect (peer k) None;
                                  Release _socket_lock; Send k packet (Some e)] |} |}
  end.

(** The drop accounting at the end of [_xmit_packet]. *)
Definition dropped (packet : str) (is_telemetry : bool) (s : Sys) : Sys :=
  if negb is_telemetry && _telemetry (cfg (self s))
  then with_self
         (with_tele
            (set_packets_dropped (packets_dropped (tele (self s)) + 1)
               (set_bytes_dropped (bytes_dropped (tele (self s)) + len packet)
                  (tele (self s))))
            (self s)) s
  else s.

(** *** Transmissions that go through

    The coming transmission finds its socket (cached, or connected without
    error) and the [send] is scripted to succeed. *)
Definition send_succeeds (s : Sys) (is_telemetry : bool) : Prop :=
  match chosen_socket (self s) is_telemetry with
  | Some _ => hd None (net (world s)) = None
  | None => hd None (net (world s)) = None /\ hd None (tl (net (world s))) = None
  end.

(** The connection cannot be made: nothing is cached and [connect] is
    scripted to raise [e]. *)
Definition connect_fails_with (s : Sys) (is_telemetry : bool) (e : exn) : Prop :=
  chosen_socket (self s) is_telemetry = None /\ hd None (net (world s)) = Some e.

(** The system once [_xmit_packet] holds its socket: as it was when the
    socket was cached; otherwise with the new socket connected and cached. *)
Definition connected (s : Sys) (is_telemetry : bool) : Sys :=
  let w := world s in
  match chosen_socket (self s) is_telemetry with
  | Some _ => s
  | None =>
      let k := socket_in_use s is_telemetry in
      {| self :=
           with_conn
             (if is_telemetry && _dedicated_telemetry_destination (self s)
              then set_telemetry_socket (Some k) (conn (self s))
              else set_socket (Some k) (conn (self s)))
             (self s);
         world := {| net := tl (net w); clock := clock w; dice := dice w;
                     next_fd := S (next_fd w);
                     trace := trace w
                              ++ [Acquire _socket_lock; Connect (peer k) None;
                                  Release _socket_lock] |} |}
  end.

(** The system after a [connect] that raised [e]. *)
Definition refused (s : Sys) (is_telemetry : bool) (e : exn) : Sys :=
  let w := world s in
  {| self := self s;
     world := {| net := tl (net w); clock := clock w; dice := dice w;
                 next_fd := next_fd w;
                 trace := trace w
                          ++ [Acquire _socket_lock;
                              Connect (chosen_endpoint (self s) is_telemetry) (Some e);
                              Release _socket_lock] |} |}.

(** A failure of the transport: the connection cannot be made, or it is
    there and the [send] raises. *)
Definition transport_fails_with (s : Sys) (is_telemetry : bool) (e : exn) : Prop :=
  connect_fails_with s is_telemetry e \/ send_fails_with s is_telemetry e.

(** The system right after the operation that raised: the refused
    connection, or the [send] that failed. *)
Definition after_failure (s : Sys) (is_telemetry : bool) (packet : str) (e : exn)
  : Sys :=
  match chosen_socket (self s) is_telemetry, hd None (net (world s)) with
  | None, Some _ => refused s is_telemetry e
  | _, _ => attempted s is_telemetry packet e
  end.

(** The system after [k.send(packet)] answered [r]. *)
Definition after_send (k : sock) (packet : str) (r : option exn) (s : Sys) : Sys :=
  let w := world s in
  {| self := self s;
     world := {| net := tl (net w); clock := clock w; dice := dice w;
                 next_fd := next_fd w;
                 trace := trace w ++ [Send k packet r] |} |}.

(** The accounting of a packet that went out. *)
Definition counted_sent (packet : str) (is_telemetry : bool) (s : Sys) : Sys :=
  if negb is_telemetry && _telemetry (cfg (self s))
  then with_self
         (with_tele
            (set_bytes_sent (bytes_sent (tele (self s)) + len packet)
               (set_packets_sent (packets_sent (tele (self s)) + 1)
                  (tele (self s))))
            (self s)) s
  else s.

(** *** Callers *)

(** Packets submitted one after the other through [self._send]. *)
Fixpoint send_all (packets : list str) : Py unit :=
  match packets with
  | [] => ret tt
  | p :: rest => send p ;; send_all rest
  end.

(** The lock events of that many appends to the buffer. *)
Fixpoint append_locks (n : nat) : list effect :=
  match n with
  | O => []
  | S n' => Acquire _buffer_lock :: Release _buffer_lock :: append_locks n'
  end.

(** *** The buffering toggle and batches *)

(** The system [disable_buffering]'s setter works on once it holds the
    toggle lock and has assigned the flag and the send path. *)
Definition toggled (d : bool) (s : Sys) : Sys :=
  logged [Acquire _buffering_toggle_lock]
    (with_self
       (with_mode
          {| _disable_buffering := d;
             _send := if d then via_server else via_buffer;
             _flush_thread := _flush_thread (mode (self s));
             _flush_thread_stop := _flush_thread_stop (mode (self s)) |}
          (self s)) s).

(** The system after [open_buffer]. *)
Definition opened (s : Sys) : Sys :=
  logged [Acquire _buffering_toggle_lock; Acquire _buffer_lock; Release _buffer_lock]
    (emptied (with_self (with_mode (set_send via_buffer (mode (self s))) (self s)) s)).

(** *** Optional arguments

    An optional argument as the payload builders see it: an empty string, a
    zero or an empty list is no argument. *)
Definition given (v : option str) : option str :=
  if truthy_opt v then v else None.

Definition given_int (v : option Z) : option Z :=
  match v with
  | Some n => if n =? 0 then None else Some n
  | None => None
  end.

Definition given_tags (tags : option (list str)) : option (list str) :=
  if truthy_tags tags then tags else None.

(** *** Escaping, character by character *)

Definition escape_newline (c : codepoint) : str :=
  if codepoint_eqb c LF then [BACKSLASH; 110%N] else [c].

(** [pat in s] *)
Fixpoint occurs (pat s : str) : bool :=
  match strip_prefix pat s with
  | Some _ => true
  | None =>
      match s with
      | [] => false
      | _ :: s' => occurs pat s'
      end
  end.

(** *** Sample clients

    A UDP client with telemetry switched on, as [__init__] leaves it, for
    the concrete runs below. *)

Definition sample_config (capacity : Z) (flush_interval : Q) : Config :=
  {| _enabled := true;
     _max_payload_size := capacity;
     socket_path := None;
     host := Some (u "localhost");
     port := Some 8125;
     telemetry_socket_path := None;
     telemetry_host := None;
     telemetry_port := None;
     constant_tags := [];
     namespace := None;
     default_sample_rate := PyInt 1;
     _container_id := None;
     _client_tags := [u "client:py"; u "client_version:0.0"; u "client_transport:udp"];
     _telemetry_flush_interval := 10%Q;
     _telemetry := true;
     _flush_interval := flush_interval |}.

Definition sample_world (script : list (option exn)) (times : list Q) : World :=
  {| net := script; clock := times; dice := []; next_fd := 3%nat; trace := [] |}.

(** A client built with [disable_buffering=False]. *)
Definition buffered_client (capacity : Z) (flush_interval : Q)
    (script : list (option exn)) (times : list Q) : Sys :=
  snd (__init__ (sample_config capacity flush_interval) false
         (sample_world script (0%Q :: 0%Q :: times))).

(** A client built with the default [disable_buffering=True]. *)
Definition direct_client (script : list (option exn)) (times : list Q) : Sys :=
  snd (__init__ (sample_config UDP_OPTIMAL_PAYLOAD_LENGTH (3 # 10)) true
         (sample_world script (0%Q :: 0%Q :: times))).

(** A client with a namespace, global tags and a container id. *)
Definition tagged_config (ns : option str) (constant : list str)
    (cid : option str) : Config :=
  {| _enabled := true;
     _max_payload_size := UDP_OPTIMAL_PAYLOAD_LENGTH;
     socket_path := None;
     host := Some (u "localhost");
     port := Some 8125;
     telemetry_socket_path := None;
     telemetry_host := None;
     telemetry_port := None;
     constant_tags := constant;
     namespace := ns;
     default_sample_rate := PyInt 1;
     _container_id := cid;
     _client_tags := [u "client:py"; u "client_version:0.0"; u "client_transport:udp"];
     _telemetry_flush_interval := 10%Q;
     _telemetry := true;
     _flush_interval := 3 # 10 |}.

Definition tagged_client (ns : option str) (constant : list str)
    (cid : option str) (script : list (option exn)) : Sys :=
  snd (__init__ (tagged_config ns constant cid) true
         (sample_world script [0%Q; 0%Q])).

(** A client that [DD_DOGSTATSD_DISABLE] switched off. *)
Definition disabled_client : Sys :=
  snd (__init__
         {| _enabled := false;
            _max_payload_size := UDP_OPTIMAL_PAYLOAD_LENGTH;
            socket_path := None;
            host := Some (u "localhost");
            port := Some 8125;
            telemetry_socket_path := None;
            telemetry_host := None;
            telemetry_port := None;
            constant_tags := [];
            namespace := None;
            default_sample_rate := PyInt 1;
            _container_id := None;
            _client_tags := [u "client:py"; u "client_version:0.0";
                             u "client_transport:udp"];
            _telemetry_flush_interval := 10%Q;
            _telemetry := true;
            _flush_interval := 3 # 10 |} true
         (sample_world [] [0%Q; 0%Q])).

(* ------------------------------------------------------------------ *)
(** ** Reasoning about methods *)

Lemma returns_ret {A} (a : A) : returns (ret a).
Proof. intros s. exists a. reflexivity. Qed.

Lemma returns_bind {A B} (m : Py A) (k : A -> Py B) :
  returns m -> (forall a, returns (k a)) -> returns (bind m k).
Proof.
  intros Hm Hk s. unfold bind.
  destruct (Hm s) as [a Ha]. destruct (m s) as [r s']. simpl in Ha. subst r.
  apply Hk.
Qed.

Lemma returns_try {A} (m : Py A) (h : exn -> Py A) :
  (forall e, returns (h e)) -> returns (try_except m h).
Proof.
  intros Hh s. unfold try_except.
  destruct (m s) as [[a|e] s'].
  - exists a. reflexivity.
  - apply Hh.
Qed.

Lemma returns_with_lock {A} (l : lock) (m : Py A) :
  returns m -> returns (with_lock l m).
Proof.
  intros Hm s. unfold with_lock. simpl.
  destruct (Hm (logged [Acquire l] s)) as [a Ha].
  unfold logged in Ha.
  destruct (m _) as [r s']. simpl in *. eauto.
Qed.

Lemma returns_attr {A} (f : DogStatsd -> A) : returns (attr f).
Proof. intros s. eexists. reflexivity. Qed.

Lemma returns_assign f : returns (assign f).
Proof. intros s. eexists. reflexivity. Qed.

Lemma returns_emit e : returns (emit e).
Proof. intros s. eexists. reflexivity. Qed.

Lemma returns_time : returns time_time.
Proof. intros s. eexists. reflexivity. Qed.

Lemma returns_random : returns random.
Proof. intros s. eexists. reflexivity. Qed.

Lemma keeps_ret {A X} (proj : DogStatsd -> X) (a : A) : keeps proj (ret a).
Proof. intros s. reflexivity. Qed.

Lemma keeps_raise {A X} (proj : DogStatsd -> X) e : keeps proj (@raise A e).
Proof. intros s. reflexivity. Qed.

Lemma keeps_bind {A B X} (proj : DogStatsd -> X) (m : Py A) (k : A -> Py B) :
  keeps proj m -> (forall a, keeps proj (k a)) -> keeps proj (bind m k).
Proof.
  intros Hm Hk s. unfold bind. specialize (Hm s).
  destruct (m s) as [[a|e] s']; simpl in *.
  - rewrite Hk. exact Hm.
  - exact Hm.
Qed.

Lemma keeps_try {A X} (proj : DogStatsd -> X) (m : Py A) (h : exn -> Py A) :
  keeps proj m -> (forall e, keeps proj (h e)) -> keeps proj (try_except m h).
Proof.
  intros Hm Hh s. unfold try_except. specialize (Hm s).
  destruct (m s) as [[a|e] s']; simpl in *.
  - exact Hm.
  - rewrite Hh. exact Hm.
Qed.

Lemma keeps_with_lock {A X} (proj : DogStatsd -> X) l (m : Py A) :
  keeps proj m -> keeps proj (with_lock l m).
Proof.
  intros Hm s. unfold with_lock. simpl.
  specialize (Hm (logged [Acquire l] s)). unfold logged in Hm.
  destruct (m _) as [r s']. simpl in *. exact Hm.
Qed.

Lemma keeps_attr {A X} (proj : DogStatsd -> X) (f : DogStatsd -> A) :
  keeps proj (attr f).
Proof. intros s. reflexivity. Qed.

Lemma keeps_assign {X} (proj : DogStatsd -> X) f :
  (forall o, proj (f o) = proj o) -> keeps proj (assign f).
Proof. intros H s. simpl. apply H. Qed.

Lemma keeps_emit {X} (proj : DogStatsd -> X) e : keeps proj (emit e).
Proof. intros s. reflexivity. Qed.

Lemma keeps_time {X} (proj : DogStatsd -> X) : keeps proj time_time.
Proof. intros s. reflexivity. Qed.

Lemma keeps_random {X} (proj : DogStatsd -> X) : keeps proj random.
Proof. intros s. reflexivity. Qed.

Lemma keeps_open_socket {X} (proj : DogStatsd -> X) e : keeps proj (open_socket e).
Proof. intros s. unfold open_socket. destruct (hd None (net (world s))); reflexivity. Qed.

Lemma keeps_socket_send {X} (proj : DogStatsd -> X) k p : keeps proj (socket_send k p).
Proof. intros s. unfold socket_send. destruct (utf8_len p); reflexivity. Qed.

Create HintDb py discriminated.

#[local] Hint Resolve returns_ret returns_attr returns_assign returns_emit
  returns_time returns_random : py.
#[local] Hint Resolve keeps_ret keeps_raise keeps_attr keeps_emit keeps_time
  keeps_random keeps_open_socket keeps_socket_send : py.

(** Walks through the binds, branches and locks of a method body. *)
Ltac py_walk :=
  repeat first
    [ solve [eauto with py]
    | apply returns_bind; [ | intro ]
    | apply returns_try; intro
    | apply returns_with_lock
    | apply keeps_bind; [ | intro ]
    | apply keeps_try; [ | intro ]
    | apply keeps_with_lock
    | apply keeps_assign; intro; reflexivity
    | match goal with
      | |- returns (match ?x with _ => _ end) => destruct x
      | |- keeps _ (match ?x with _ => _ end) => destruct x
      end ].

(** *** Frame and termination facts of the transport *)

Lemma get_socket_keeps_cfg t : keeps cfg (get_socket t).
Proof. unfold get_socket, _get_uds_socket, _get_udp_socket. py_walk. Qed.

Lemma get_socket_keeps_buf t : keeps buf (get_socket t).
Proof. unfold get_socket, _get_uds_socket, _get_udp_socket. py_walk. Qed.

Lemma get_socket_keeps_mode t : keeps mode (get_socket t).
Proof. unfold get_socket, _get_uds_socket, _get_udp_socket. py_walk. Qed.

Lemma get_socket_keeps_tele t : keeps tele (get_socket t).
Proof. unfold get_socket, _get_uds_socket, _get_udp_socket. py_walk. Qed.

Lemma close_socket_returns : returns close_socket.
Proof. unfold close_socket. py_walk. Qed.

Lemma close_socket_keeps_cfg : keeps cfg close_socket.
Proof. unfold close_socket. py_walk. Qed.

Lemma close_socket_keeps_buf : keeps buf close_socket.
Proof. unfold close_socket. py_walk. Qed.

Lemma close_socket_keeps_mode : keeps mode close_socket.
Proof. unfold close_socket. py_walk. Qed.

Lemma close_socket_keeps_tele : keeps tele close_socket.
Proof. unfold close_socket. py_walk. Qed.

#[local] Hint Resolve get_socket_keeps_cfg get_socket_keeps_buf get_socket_keeps_mode
  get_socket_keeps_tele close_socket_returns close_socket_keeps_cfg
  close_socket_keeps_buf close_socket_keeps_mode close_socket_keeps_tele : py.

Lemma on_send_error_returns e : returns (on_send_error e).
Proof. unfold on_send_error. destruct e as [ | | | [ | | | c] | | | | ]; py_walk. Qed.

#[local] Hint Resolve on_send_error_returns : py.

(** No failure of the transport leaves [_xmit_packet] as an exception. *)
Lemma _xmit_packet_returns packet is_telemetry :
  returns (_xmit_packet packet is_telemetry).
Proof.
  unfold _xmit_packet.
  apply returns_bind; [ apply returns_try; intro; auto with py | intro sent ].
  destruct sent; py_walk.
Qed.

Lemma _xmit_packet_keeps_cfg packet is_telemetry :
  keeps cfg (_xmit_packet packet is_telemetry).
Proof.
  unfold _xmit_packet, on_send_error, add_bytes_dropped, add_packets_dropped,
    add_bytes_sent, add_packets_sent.
  py_walk.
Qed.

Lemma _xmit_packet_keeps_buf packet is_telemetry :
  keeps buf (_xmit_packet packet is_telemetry).
Proof.
  unfold _xmit_packet, on_send_error, add_bytes_dropped, add_packets_dropped,
    add_bytes_sent, add_packets_sent.
  py_walk.
Qed.

Lemma _xmit_packet_keeps_mode packet is_telemetry :
  keeps mode (_xmit_packet packet is_telemetry).
Proof.
  unfold _xmit_packet, on_send_error, add_bytes_dropped, add_packets_dropped,
    add_bytes_sent, add_packets_sent.
  py_walk.
Qed.

(** Sending the telemetry packet itself does not touch the counters. *)
Lemma _xmit_telemetry_keeps_tele packet : keeps tele (_xmit_packet packet true).
Proof.
  unfold _xmit_packet, on_send_error. simpl negb. simpl andb.
  py_walk.
Qed.

#[local] Hint Resolve _xmit_packet_returns _xmit_packet_keeps_cfg
  _xmit_packet_keeps_buf _xmit_packet_keeps_mode : py.

Lemma _is_telemetry_flush_time_returns : returns _is_telemetry_flush_time.
Proof. unfold _is_telemetry_flush_time. py_walk. Qed.

#[local] Hint Resolve _is_telemetry_flush_time_returns : py.

Lemma _send_to_server_returns packet : returns (_send_to_server packet).
Proof.
  unfold _send_to_server, _reset_telemetry, add_bytes_dropped, add_packets_dropped,
    add_bytes_sent, add_packets_sent.
  py_walk.
Qed.

Lemma _send_to_server_keeps_cfg packet : keeps cfg (_send_to_server packet).
Proof.
  unfold _send_to_server, _is_telemetry_flush_time, _reset_telemetry,
    add_bytes_dropped, add_packets_dropped, add_bytes_sent, add_packets_sent.
  py_walk.
Qed.

Lemma _send_to_server_keeps_buf packet : keeps buf (_send_to_server packet).
Proof.
  unfold _send_to_server, _is_telemetry_flush_time, _reset_telemetry,
    add_bytes_dropped, add_packets_dropped, add_bytes_sent, add_packets_sent.
  py_walk.
Qed.

Lemma _send_to_server_keeps_mode packet : keeps mode (_send_to_server packet).
Proof.
  unfold _send_to_server, _is_telemetry_flush_time, _reset_telemetry,
    add_bytes_dropped, add_packets_dropped, add_bytes_sent, add_packets_sent.
  py_walk.
Qed.

#[local] Hint Resolve _send_to_server_returns _send_to_server_keeps_cfg
  _send_to_server_keeps_buf _send_to_server_keeps_mode : py.

(** *** The buffer *)

Lemma emit_logged e s : emit e s = (Return tt, logged [e] s).
Proof. reflexivity. Qed.

Lemma _reset_buffer_spec s :
  _reset_buffer s
  = (Return tt, logged [Acquire _buffer_lock; Release _buffer_lock] (emptied s)).
Proof.
  unfold _reset_buffer, with_lock, assign, emptied, logged, with_self. simpl.
  rewrite <- app_assoc. reflexivity.
Qed.

(** [flush]: nothing but the lock is touched when the buffer is empty;
    otherwise the packets, joined by newlines, go to [_send_to_server] as one
    payload and the buffer is emptied. *)
Lemma flush_spec s :
  flush s =
  match _buffer (buf (self s)) with
  | [] => (Return tt, logged [Acquire _buffer_lock; Release _buffer_lock] s)
  | p :: rest =>
      let s3 := snd (_send_to_server (join [LF] (p :: rest))
                       (logged [Acquire _buffer_lock] s)) in
      (Return tt,
       logged [Acquire _buffer_lock; Release _buffer_lock; Release _buffer_lock]
         (emptied s3))
  end.
Proof.
  unfold flush, with_lock. rewrite emit_logged.
  unfold bind at 1. unfold attr at 1. cbn [self logged].
  destruct (_buffer (buf (self s))) as [|p rest] eqn:Hb.
  - cbn. unfold logged. cbn. rewrite <- app_assoc. reflexivity.
  - unfold bind.
    destruct (_send_to_server_returns (join [LF] (p :: rest))
                (logged [Acquire _buffer_lock] s)) as [[] Hr].
    destruct (_send_to_server _ _) as [r s3]. cbn in Hr. subst r. cbn [snd].
    rewrite _reset_buffer_spec. cbn.
    unfold logged, emptied, with_self. cbn. rewrite <- !app_assoc. reflexivity.
Qed.

Lemma buffer_wf_empty o : _buffer (buf o) = [] -> buffer_wf o ->
  _current_buffer_total_size (buf o) = 0.
Proof. unfold buffer_wf. intros -> ->. reflexivity. Qed.

Lemma flush_returns s : fst (flush s) = Return tt.
Proof. rewrite flush_spec. destruct (_buffer (buf (self s))); reflexivity. Qed.

Lemma _send_to_buffer_eq s packet :
  _send_to_buffer packet s
  = (Return tt,
     logged [Release _buffer_lock]
       (appended packet
          (if _should_flush (self s) (len packet)
           then snd (flush (logged [Acquire _buffer_lock] s))
           else logged [Acquire _buffer_lock] s))).
Proof.
  unfold _send_to_buffer, with_lock. rewrite emit_logged.
  unfold bind at 1. unfold attr at 1. cbn [self logged].
  destruct (_should_flush (self s) (len packet)).
  - unfold bind at 1.
    pose proof (flush_returns (logged [Acquire _buffer_lock] s)) as Hr.
    unfold logged in *. cbn [self world] in *.
    destruct (flush _) as [r s2]. cbn in Hr. subst r. reflexivity.
  - reflexivity.
Qed.

(** C1. Appending through the buffered path: when the size so far plus the
    packet's length plus 1 exceeds [_max_payload_size], [flush] runs exactly
    once before the append: the buffered packets, joined by newlines, go to
    [_send_to_server] as one payload and the buffer is reset (a flush of an
    empty buffer sends nothing), and the packet is then the only content,
    with total size its length plus 1.  Otherwise nothing is flushed and the
    packet is appended, the total size growing by its length plus 1. *)
Theorem send_to_buffer_flushes_once_before_append (s : Sys) (packet : str) :
  buffer_wf (self s) ->
  let b := _buffer (buf (self s)) in
  let n := _current_buffer_total_size (buf (self s)) in
  if _max_payload_size (cfg (self s)) <? n + len packet + 1 then
    (let flushed :=
       match b with
       | [] => logged [Acquire _buffer_lock; Acquire _buffer_lock;
                       Release _buffer_lock] s
       | _ :: _ =>
           logged [Acquire _buffer_lock; Release _buffer_lock; Release _buffer_lock]
             (emptied
                (snd (_send_to_server (join [LF] b)
                        (logged [Acquire _buffer_lock; Acquire _buffer_lock] s))))
       end in
     _send_to_buffer packet s
       = (Return tt, logged [Release _buffer_lock] (appended packet flushed))
     /\ buf (self flushed) = {| _buffer := []; _current_buffer_total_size := 0 |})
    /\ buf (self (snd (_send_to_buffer packet s)))
       = {| _buffer := [packet]; _current_buffer_total_size := len packet + 1 |}
  else
    _send_to_buffer packet s
      = (Return tt,
         logged [Release _buffer_lock] (appended packet (logged [Acquire _buffer_lock] s)))
    /\ buf (self (snd (_send_to_buffer packet s)))
       = {| _buffer := b ++ [packet];
            _current_buffer_total_size := n + (len packet + 1) |}
    /\ trace (world (snd (_send_to_buffer packet s)))
       = trace (world s) ++ [Acquire _buffer_lock; Release _buffer_lock].
Proof.
  destruct s as [[c t [bl tot] cn m] w]. unfold buffer_wf.
  cbn [self buf _buffer _current_buffer_total_size cfg]. intros Hwf.
  rewrite _send_to_buffer_eq. unfold _should_flush.
  cbn [self buf _buffer _current_buffer_total_size cfg].
  destruct (_max_payload_size c <? tot + len packet + 1) eqn:Hfull.
  - rewrite flush_spec. cbn [self logged buf _buffer].
    destruct bl as [|p rest].
    + cbn in Hwf. subst tot.
      repeat split; unfold logged, appended, with_self; cbn;
        rewrite <- ?app_assoc; reflexivity.
    + repeat split; unfold logged, appended, emptied, with_self; cbn;
        rewrite <- ?app_assoc; reflexivity.
  - repeat split. cbn. rewrite <- app_assoc. reflexivity.
Qed.

Lemma send_to_buffer_flushes_once_before_append_witness :
  let s := snd (_send_to_buffer (u "a:1|c") (buffered_client 10 (3 # 10) [] [])) in
  buffer_wf (self s)
  /\ buf (self (snd (_send_to_buffer (u "bb:22|g") s)))
     = {| _buffer := [u "bb:22|g"]; _current_buffer_total_size := 8 |}.
Proof.
  split; [ reflexivity | ].
  pose proof (send_to_buffer_flushes_once_before_append
                (snd (_send_to_buffer (u "a:1|c") (buffered_client 10 (3 # 10) [] [])))
                (u "bb:22|g") eq_refl) as H.
  vm_compute in H. vm_compute. exact (proj2 H).
Defined.

Lemma encoded_size_nonneg packets : 0 <= encoded_size packets.
Proof.
  induction packets as [|p rest IH]; cbn [encoded_size]; unfold len in *; lia.
Qed.

Lemma encoded_size_snoc packets packet :
  encoded_size (packets ++ [packet]) = encoded_size packets + (len packet + 1).
Proof.
  induction packets as [|p rest IH]; cbn [encoded_size app].
  - lia.
  - rewrite IH. lia.
Qed.

(** C2, as the code has it.  After an append the size counter still agrees
    with the content of the buffer; it does not exceed [_max_payload_size]
    when the packet's length plus 1 fits in it; a packet whose length plus 1
    is larger is, after the flush, the only content of the buffer, whose
    total size is then that length plus 1. *)
Theorem append_within_capacity_when_packet_fits (s : Sys) (packet : str) :
  buffer_wf (self s) ->
  let s' := snd (_send_to_buffer packet s) in
  let capacity := _max_payload_size (cfg (self s)) in
  buffer_wf (self s')
  /\ (len packet + 1 <= capacity ->
      _current_buffer_total_size (buf (self s')) <= capacity)
  /\ (capacity < len packet + 1 ->
      buf (self s')
      = {| _buffer := [packet]; _current_buffer_total_size := len packet + 1 |}).
Proof.
  destruct s as [[c t [bl tot] cn m] w]. unfold buffer_wf.
  cbn [self buf _buffer _current_buffer_total_size cfg]. intros Hwf.
  rewrite _send_to_buffer_eq. unfold _should_flush.
  cbn [self buf _buffer _current_buffer_total_size cfg snd].
  pose proof (encoded_size_nonneg bl) as Hpos. rewrite <- Hwf in Hpos.
  destruct (_max_payload_size c <? tot + len packet + 1) eqn:Hfull.
  - rewrite flush_spec. cbn [self logged buf _buffer].
    destruct bl as [|p rest]; cbn -[Z.add]; repeat split; intros; try lia.
    all: cbn in Hwf; subst tot; try reflexivity; lia.
  - apply Z.ltb_ge in Hfull. cbn -[Z.add]. repeat split; intros; try lia.
    rewrite encoded_size_snoc. lia.
Qed.

Lemma append_within_capacity_when_packet_fits_witness :
  let s := buffered_client 10 (3 # 10) [] [] in
  buffer_wf (self s)
  /\ _current_buffer_total_size (buf (self (snd (_send_to_buffer (u "a:1|c") s)))) <= 10.
Proof.
  split; [ reflexivity | ].
  apply (append_within_capacity_when_packet_fits
           (buffered_client 10 (3 # 10) [] []) (u "a:1|c") eq_refl).
  vm_compute. discriminate.
Defined.

(** C2 as stated fails: one packet of 15 characters appended to the empty
    buffer of a client of capacity 10 leaves a total size of 16. *)
Lemma oversized_packet_exceeds_capacity :
  let s := buffered_client 10 (3 # 10) [] [] in
  let s' := snd (_send_to_buffer (u "page.views:1|c|") s) in
  buffer_wf (self s)
  /\ _current_buffer_total_size (buf (self s')) = 16
  /\ ~ _current_buffer_total_size (buf (self s')) <= _max_payload_size (cfg (self s')).
Proof.
  cbv zeta.
  assert (Hsize : _current_buffer_total_size
                    (buf (self (snd (_send_to_buffer (u "page.views:1|c|")
                                       (buffered_client 10 (3 # 10) [] []))))) = 16)
    by (vm_compute; reflexivity).
  split; [ reflexivity | ]. split; [ exact Hsize | ].
  rewrite Hsize. replace (_max_payload_size _) with 10 by reflexivity. lia.
Qed.

(** *** Telemetry *)

Lemma bind_run {A B} (m : Py A) (k : A -> Py B) s a :
  fst (m s) = Return a -> bind m k s = k a (snd (m s)).
Proof. unfold bind. destruct (m s) as [r s']. cbn. intros ->. reflexivity. Qed.

Lemma _is_telemetry_flush_time_self s :
  self (snd (_is_telemetry_flush_time s)) = self s.
Proof.
  unfold _is_telemetry_flush_time, bind, attr. cbn.
  destruct (_telemetry (cfg (self s))); reflexivity.
Qed.

(** C3, as the code has it.  When telemetry is due after the main packet:
    a successful transmission of the telemetry packet resets the counters
    and sets [_last_flush_time] to the current time, and then counts the
    telemetry packet itself, so that [packets_sent] is 1 and [bytes_sent] is
    the length of the telemetry packet while the other five counters are 0;
    a failed one resets nothing, sets [_last_flush_time] to the current time
    all the same, adds the length of the telemetry packet to [bytes_dropped]
    and 1 to [packets_dropped]. *)
Theorem telemetry_flush_outcome (s : Sys) (packet : str) :
  let s1 := snd (_xmit_packet (packet ++ [LF]) false s) in
  let s2 := snd (_is_telemetry_flush_time s1) in
  let telemetry := _flush_telemetry (self s1) in
  let r := _xmit_packet telemetry true s2 in
  let now := hd 0%Q (clock (world (snd r))) in
  let before := tele (self s1) in
  let final := snd (_send_to_server packet s) in
  fst (_is_telemetry_flush_time s1) = Return true ->
  (fst r = Return true ->
   tele (self final)
   = {| metrics_count := 0; events_count := 0; service_checks_count := 0;
        bytes_sent := len telemetry; bytes_dropped := 0;
        packets_sent := 1; packets_dropped := 0;
        _last_flush_time := now |})
  /\ (fst r = Return false ->
      tele (self final)
      = {| metrics_count := metrics_count before;
           events_count := events_count before;
           service_checks_count := service_checks_count before;
           bytes_sent := bytes_sent before;
           bytes_dropped := bytes_dropped before + len telemetry;
           packets_sent := packets_sent before;
           packets_dropped := packets_dropped before + 1;
           _last_flush_time := now |}).
Proof.
  intros s1 s2 telemetry r now before final Hdue.
  assert (Hfinal : final
                   = snd ((if match fst r with Return b => b | Raise _ => false end
                           then _reset_telemetry ;; add_packets_sent 1 ;;
                                add_bytes_sent (len telemetry)
                           else t <- time_time ;;
                                assign (fun o => with_tele (set_last_flush_time t (tele o)) o) ;;
                                add_bytes_dropped (len telemetry) ;;
                                add_packets_dropped 1) (snd r))).
  { subst final. unfold _send_to_server.
    destruct (_xmit_packet_returns (packet ++ [LF]) false s) as [b Hb].
    rewrite (bind_run _ _ _ _ Hb). fold s1.
    rewrite (bind_run _ _ _ _ Hdue). fold s2.
    unfold bind at 1. unfold attr at 1.
    replace (_flush_telemetry (self s2)) with telemetry
      by (subst telemetry s2; rewrite _is_telemetry_flush_time_self; reflexivity).
    destruct (_xmit_packet_returns telemetry true s2) as [ok Hok].
    rewrite (bind_run _ _ _ _ Hok). fold r in Hok |- *. rewrite Hok. reflexivity. }
  assert (Hkeep : tele (self (snd r)) = before).
  { subst r before. rewrite _xmit_telemetry_keeps_tele.
    subst s2. rewrite _is_telemetry_flush_time_self. reflexivity. }
  split; intros Hr; rewrite Hfinal, Hr; cbn; fold now.
  - reflexivity.
  - rewrite Hkeep. reflexivity.
Qed.

Lemma telemetry_flush_outcome_witness :
  let s := direct_client [] [11; 12]%Q in
  let final := snd (_send_to_server (u "a:1|c") s) in
  packets_sent (tele (self final)) = 1
  /\ metrics_count (tele (self final)) = 0
  /\ _last_flush_time (tele (self final)) = 12%Q.
Proof.
  pose proof (telemetry_flush_outcome (direct_client [] [11; 12]%Q) (u "a:1|c")
                eq_refl) as H.
  cbv zeta in H. destruct H as [H _].
  cbv zeta. rewrite (H eq_refl). repeat split.
Defined.

(** C3 as stated fails: right after a successful telemetry transmission the
    counters of sent packets and bytes are not zero, the telemetry packet
    having been counted. *)
Lemma sent_counters_not_zero_after_telemetry_flush :
  let s := direct_client [] [11; 12]%Q in
  let s1 := snd (_xmit_packet (u "a:1|c" ++ [LF]) false s) in
  let final := snd (_send_to_server (u "a:1|c") s) in
  fst (_is_telemetry_flush_time s1) = Return true
  /\ fst (_xmit_packet (_flush_telemetry (self s1)) true
            (snd (_is_telemetry_flush_time s1))) = Return true
  /\ packets_sent (tele (self final)) = 1
  /\ bytes_sent (tele (self final)) = len (_flush_telemetry (self s1))
  /\ bytes_sent (tele (self final)) <> 0.
Proof.
  cbv zeta. repeat split; try (vm_compute; reflexivity).
  vm_compute. discriminate.
Qed.

(** *** Transmission failures *)

Lemma ascii_not_surrogate c : N.ltb c 128 = true -> is_surrogate c = false.
Proof.
  intros Hc. apply N.ltb_lt in Hc. unfold is_surrogate.
  destruct (N.leb_spec 55296 c) as [H|H]; [ lia | reflexivity ].
Qed.

Lemma is_ascii_utf8_len (s : str) :
  is_ascii s = true -> utf8_len s = Some (len s).
Proof.
  intros Hs. unfold utf8_len.
  assert (H1 : existsb is_surrogate s = false).
  { induction s as [|c s IH]; [ reflexivity | ].
    cbn in Hs |- *. apply andb_prop in Hs. destruct Hs as [Hc Hs].
    rewrite (ascii_not_surrogate c Hc), (IH Hs). reflexivity. }
  rewrite H1. f_equal.
  induction s as [|c s IH]; [ reflexivity | ].
  cbn in Hs, H1. apply andb_prop in Hs. destruct Hs as [Hc Hs].
  apply orb_false_elim in H1. destruct H1 as [H1 H2].
  unfold utf8_len_replace in *. cbn [fold_right]. rewrite (IH Hs H2), H1.
  unfold utf8_width. rewrite Hc. unfold len. cbn [List.length]. lia.
Qed.

Ltac break_sys s :=
  destruct s as [[c t b [ms ts] m] [nt ck dc fd tr]].

Lemma close_socket_spec s : close_socket s = (Return tt, closed s).
Proof.
  break_sys s. unfold close_socket, closed, close_effects, with_lock, logged, with_self.
  destruct ms as [k1|], ts as [k2|]; cbn; rewrite <- ?app_assoc; reflexivity.
Qed.

Lemma on_send_error_spec e s :
  on_send_error e s = (Return false, if fatal e then closed s else s).
Proof.
  destruct e as [ | | | [ | | | code] | | | | ]; cbn [on_send_error fatal];
    try reflexivity; unfold bind; rewrite close_socket_spec; reflexivity.
Qed.

Lemma drop_accounting_spec packet is_telemetry s :
  (tel <- attr (fun o => _telemetry (cfg o)) ;;
   (if negb is_telemetry && tel
    then add_bytes_dropped (len packet) ;; add_packets_dropped 1
    else ret tt) ;;
   ret false) s
  = (Return false, dropped packet is_telemetry s).
Proof.
  break_sys s. unfold dropped. cbn.
  destruct (negb is_telemetry && _telemetry c); reflexivity.
Qed.

(** A transmission whose [send] raises: the whole effect of [_xmit_packet]. *)
Lemma _xmit_packet_failure s packet is_telemetry e n :
  utf8_len packet = Some n ->
  send_fails_with s is_telemetry e ->
  _xmit_packet packet is_telemetry s
  = (Return false,
     dropped packet is_telemetry
       (if fatal e then closed (attempted s is_telemetry packet e)
        else attempted s is_telemetry packet e)).
Proof.
  break_sys s. destruct c. intros Hn.
  unfold send_fails_with, attempted, socket_in_use, chosen_endpoint, chosen_socket,
    _dedicated_telemetry_destination, _xmit_packet, get_socket, _get_uds_socket,
    _get_udp_socket, open_socket, socket_send.
  cbn [self world conn cfg socket telemetry_socket net telemetry_socket_path
         telemetry_host].
  unfold bind at 1. unfold try_except.
  rewrite Hn.
  destruct is_telemetry;
    destruct telemetry_socket_path0 as [[|x1 sp1]|];
    destruct telemetry_host0 as [[|x2 h2]|];
    destruct ms as [k1|]; destruct ts as [k2|];
    cbn [andb orb truthy_opt truthy_str]; intros H.
  all: lazymatch type of H with
    | _ /\ _ =>
        destruct H as [Hc Hnet]; destruct socket_path0 as [sp|];
        destruct nt as [|[x|] [|[y|] nt]]; cbn in Hc, Hnet; try discriminate;
        injection Hnet as ->
    | _ => destruct nt as [|[x|] nt]; cbn in H; try discriminate; injection H as ->
    end.
  all: unfold bind, with_lock, attr, assign, emit, ret; cbn.
  all: rewrite on_send_error_spec;
    unfold dropped, closed, close_effects, logged, with_self; destruct (fatal e).
  all: cbn; try destruct _telemetry0; cbn; rewrite <- ?app_assoc; try reflexivity.
Qed.

Lemma dropped_tele packet is_telemetry s :
  tele (self (dropped packet is_telemetry s))
  = if negb is_telemetry && _telemetry (cfg (self s))
    then set_packets_dropped (packets_dropped (tele (self s)) + 1)
           (set_bytes_dropped (bytes_dropped (tele (self s)) + len packet)
              (tele (self s)))
    else tele (self s).
Proof.
  unfold dropped. destruct (negb is_telemetry && _telemetry (cfg (self s)));
    [ destruct s as [[c t b k m] w] | ]; reflexivity.
Qed.

Lemma dropped_conn packet is_telemetry s :
  conn (self (dropped packet is_telemetry s)) = conn (self s).
Proof.
  unfold dropped. destruct (negb is_telemetry && _telemetry (cfg (self s)));
    [ destruct s as [[c t b k m] w] | ]; reflexivity.
Qed.

Lemma dropped_world packet is_telemetry s :
  world (dropped packet is_telemetry s) = world s.
Proof.
  unfold dropped. destruct (negb is_telemetry && _telemetry (cfg (self s)));
    reflexivity.
Qed.

Lemma attempted_frame s is_telemetry packet e :
  cfg (self (attempted s is_telemetry packet e)) = cfg (self s)
  /\ tele (self (attempted s is_telemetry packet e)) = tele (self s).
Proof.
  unfold attempted. destruct (chosen_socket (self s) is_telemetry);
    [ split; reflexivity | ].
  destruct s as [[c t b k m] w]. split; reflexivity.
Qed.

Lemma attempted_chosen_socket s is_telemetry packet e :
  chosen_socket (self (attempted s is_telemetry packet e)) is_telemetry
  = Some (socket_in_use s is_telemetry).
Proof.
  unfold attempted, socket_in_use.
  destruct (chosen_socket (self s) is_telemetry) as [k|] eqn:Hk;
    [ exact Hk | ].
  destruct s as [[c t b [ms ts] m] w].
  unfold chosen_socket, chosen_endpoint, _dedicated_telemetry_destination in *.
  cbn in *.
  destruct (is_telemetry
            && (truthy_opt (telemetry_socket_path c)
                || truthy_opt (telemetry_host c)))%bool;
    reflexivity.
Qed.

Lemma attempted_cached s is_telemetry packet e :
  chosen_socket (self s) is_telemetry <> None ->
  conn (self (attempted s is_telemetry packet e)) = conn (self s).
Proof.
  unfold attempted. destruct (chosen_socket (self s) is_telemetry);
    [ reflexivity | congruence ].
Qed.

Lemma closed_frame s :
  cfg (self (closed s)) = cfg (self s)
  /\ tele (self (closed s)) = tele (self s)
  /\ conn (self (closed s)) = {| socket := None; telemetry_socket := None |}
  /\ trace (world (closed s)) = trace (world s) ++ close_effects (conn (self s)).
Proof. destruct s as [[c t b k m] w]. repeat split. Qed.

(** C4 as stated fails: [EAGAIN] is an I/O error other than [EMSGSIZE] and
    a resolution failure, and the connection is neither closed nor
    discarded after it. *)
Lemma would_block_keeps_connection :
  let s := direct_client [None; Some (socket_error EAGAIN)] [] in
  let k := {| fd := 3; peer := UDP (Some (u "localhost")) (Some 8125) |} in
  let r := _xmit_packet (u "a:1|c") false s in
  send_fails_with s false (socket_error EAGAIN)
  /\ fst r = Return false
  /\ conn (self (snd r)) = {| socket := Some k; telemetry_socket := None |}
  /\ trace (world (snd r))
     = trace (world s)
       ++ [Acquire _socket_lock; Connect (peer k) None; Release _socket_lock;
           Send k (u "a:1|c") (Some (socket_error EAGAIN))].
Proof. cbv zeta. repeat split; vm_compute; reflexivity. Qed.

(** The drop counter counts characters: a packet with one character of two
    bytes adds 5 to [bytes_dropped], and 6 bytes were handed to the socket. *)
Example bytes_dropped_counts_characters :
  let packet := [233%N] ++ u ":1|c" in
  let s := direct_client [None; Some (socket_error EMSGSIZE)] [] in
  let s' := snd (_xmit_packet packet false s) in
  utf8_len packet = Some 6
  /\ bytes_dropped (tele (self s')) = bytes_dropped (tele (self s)) + 5.
Proof. cbv zeta. split; vm_compute; reflexivity. Qed.

(* ------------------------------------------------------------------ *)
(** ** Connections *)

(** Splits a system into every case [get_socket] and [_xmit_packet]
    distinguish: destination of the telemetry, cached sockets. *)
Ltac socket_cases s is_telemetry :=
  break_sys s;
  match goal with
  | c : Config |- _ =>
      destruct c as [en cap sp hst prt tsp thst tprt ctags ns rate cid cltags tfi tel fi]
  end;
  unfold send_succeeds, connect_fails_with, connected, refused, after_send,
    counted_sent, dropped, socket_in_use, chosen_endpoint, chosen_socket,
    _dedicated_telemetry_destination, _xmit_packet, get_socket,
    _get_uds_socket, _get_udp_socket, open_socket, socket_send;
  cbn [self world conn cfg socket telemetry_socket net telemetry_socket_path
         telemetry_host];
  destruct is_telemetry;
  repeat match goal with
    | |- context [truthy_opt ?x] =>
        is_var x; destruct x as [[|? ?]|]; cbn [truthy_opt truthy_str orb andb]
    end;
  cbn [andb orb];
  repeat match goal with
    | x : option sock |- _ => destruct x
    end.

Lemma get_socket_cached s is_telemetry k :
  chosen_socket (self s) is_telemetry = Some k ->
  get_socket is_telemetry s
  = (Return k, logged [Acquire _socket_lock; Release _socket_lock] s).
Proof.
  socket_cases s is_telemetry; intros H; try discriminate; injection H as ->;
    unfold with_lock, logged; cbn; rewrite <- ?app_assoc; reflexivity.
Qed.

Lemma get_socket_connects s is_telemetry :
  chosen_socket (self s) is_telemetry = None ->
  hd None (net (world s)) = None ->
  get_socket is_telemetry s
  = (Return (socket_in_use s is_telemetry), connected s is_telemetry).
Proof.
  socket_cases s is_telemetry; intros H Hnet; try discriminate;
    unfold with_lock, bind, attr, assign, emit, ret; cbn -[hd tl];
    repeat match goal with
      | |- context [match ?x with Some _ => _ | None => _ end] =>
          is_var x; destruct x
      end;
    cbn -[hd tl]; rewrite ?Hnet; cbn -[hd tl]; rewrite <- ?app_assoc; reflexivity.
Qed.

Lemma get_socket_refused s is_telemetry e :
  connect_fails_with s is_telemetry e ->
  get_socket is_telemetry s = (Raise e, refused s is_telemetry e).
Proof.
  socket_cases s is_telemetry; intros [H Hnet]; try discriminate;
    unfold with_lock, bind, attr, assign, emit, ret; cbn -[hd tl];
    repeat match goal with
      | |- context [match ?x with Some _ => _ | None => _ end] =>
          is_var x; destruct x
      end;
    cbn -[hd tl]; rewrite ?Hnet; cbn -[hd tl]; rewrite <- ?app_assoc; reflexivity.
Qed.

Lemma connected_chosen_socket s is_telemetry :
  chosen_socket (self (connected s is_telemetry)) is_telemetry
  = Some (socket_in_use s is_telemetry).
Proof.
  unfold connected, socket_in_use.
  destruct (chosen_socket (self s) is_telemetry) as [k|] eqn:Hk;
    [ exact Hk | ].
  destruct s as [[c t b [ms ts] m] w].
  unfold chosen_socket, chosen_endpoint, _dedicated_telemetry_destination in *.
  cbn in *.
  destruct (is_telemetry
            && (truthy_opt (telemetry_socket_path c)
                || truthy_opt (telemetry_host c)))%bool;
    reflexivity.
Qed.

Lemma connected_frame s is_telemetry :
  cfg (self (connected s is_telemetry)) = cfg (self s)
  /\ tele (self (connected s is_telemetry)) = tele (self s)
  /\ buf (self (connected s is_telemetry)) = buf (self s)
  /\ mode (self (connected s is_telemetry)) = mode (self s).
Proof.
  unfold connected. destruct (chosen_socket (self s) is_telemetry);
    [ repeat split | ].
  destruct s as [[c t b k m] w]. repeat split.
Qed.

(** [get_socket] connects once.  With nothing cached and a connection
    that succeeds it answers a new socket to the endpoint of the
    configuration (the telemetry destination for telemetry, when there is a
    dedicated one) and caches it; called again it answers the same socket
    and touches nothing but its lock: no second connection, no use of the
    network. *)
Theorem get_socket_connects_once (s : Sys) (is_telemetry : bool) :
  chosen_socket (self s) is_telemetry = None ->
  hd None (net (world s)) = None ->
  let k := {| fd := next_fd (world s);
              peer := chosen_endpoint (self s) is_telemetry |} in
  let s1 := snd (get_socket is_telemetry s) in
  fst (get_socket is_telemetry s) = Return k
  /\ chosen_socket (self s1) is_telemetry = Some k
  /\ trace (world s1)
     = trace (world s)
       ++ [Acquire _socket_lock; Connect (peer k) None; Release _socket_lock]
  /\ get_socket is_telemetry s1
     = (Return k, logged [Acquire _socket_lock; Release _socket_lock] s1).
Proof.
  intros Hnone Hnet k s1.
  assert (Hk : socket_in_use s is_telemetry = k)
    by (unfold socket_in_use; rewrite Hnone; reflexivity).
  assert (Hcached : chosen_socket (self s1) is_telemetry = Some k).
  { subst s1. rewrite (get_socket_connects s is_telemetry Hnone Hnet). cbn [snd].
    rewrite connected_chosen_socket, Hk. reflexivity. }
  split; [ | split; [ exact Hcached | split ] ].
  - rewrite (get_socket_connects s is_telemetry Hnone Hnet), Hk. reflexivity.
  - subst s1. rewrite (get_socket_connects s is_telemetry Hnone Hnet). cbn [snd].
    unfold connected. rewrite Hnone, Hk. reflexivity.
  - apply get_socket_cached, Hcached.
Qed.

Lemma get_socket_connects_once_witness :
  let s := direct_client [] [] in
  let k := {| fd := 3; peer := UDP (Some (u "localhost")) (Some 8125) |} in
  fst (get_socket false s) = Return k
  /\ fst (get_socket false (snd (get_socket false s))) = Return k.
Proof.
  pose proof (get_socket_connects_once (direct_client [] []) false
                eq_refl eq_refl) as H.
  cbv zeta in H. destruct H as (H1 & _ & _ & H4).
  cbv zeta. split; [ exact H1 | ]. rewrite H4. reflexivity.
Defined.

(** A connection that cannot be made: [get_socket] lets the exception of
    [connect] through, caches nothing, and its lock is released. *)
Theorem get_socket_failure_caches_nothing
    (s : Sys) (is_telemetry : bool) (e : exn) :
  chosen_socket (self s) is_telemetry = None ->
  hd None (net (world s)) = Some e ->
  let s1 := snd (get_socket is_telemetry s) in
  fst (get_socket is_telemetry s) = Raise e
  /\ self s1 = self s
  /\ trace (world s1)
     = trace (world s)
       ++ [Acquire _socket_lock;
           Connect (chosen_endpoint (self s) is_telemetry) (Some e);
           Release _socket_lock].
Proof.
  intros Hnone Hnet s1. subst s1.
  rewrite (get_socket_refused s is_telemetry e (conj Hnone Hnet)).
  repeat split.
Qed.

Lemma get_socket_failure_caches_nothing_witness :
  let s := direct_client [Some socket_gaierror] [] in
  fst (get_socket false s) = Raise socket_gaierror
  /\ conn (self (snd (get_socket false s)))
     = {| socket := None; telemetry_socket := None |}.
Proof.
  pose proof (get_socket_failure_caches_nothing
                (direct_client [Some socket_gaierror] []) false socket_gaierror
                eq_refl eq_refl) as H.
  cbv zeta in H. destruct H as (H1 & H2 & _).
  cbv zeta. split; [ exact H1 | ]. rewrite H2. reflexivity.
Defined.

(** [close_socket] closes each cached socket once and forgets both; the
    rest of the client and the network script are left alone.  Called
    again it finds nothing to close. *)
Theorem close_socket_closes_once (s : Sys) :
  let s1 := snd (close_socket s) in
  let cached :=
    match socket (conn (self s)) with Some k => [k] | None => [] end
    ++ match telemetry_socket (conn (self s)) with Some k => [k] | None => [] end in
  fst (close_socket s) = Return tt
  /\ conn (self s1) = {| socket := None; telemetry_socket := None |}
  /\ trace (world s1)
     = trace (world s)
       ++ [Acquire _socket_lock] ++ map Close cached ++ [Release _socket_lock]
  /\ (cfg (self s1), tele (self s1), buf (self s1), mode (self s1))
     = (cfg (self s), tele (self s), buf (self s), mode (self s))
  /\ net (world s1) = net (world s)
  /\ close_socket s1
     = (Return tt, logged [Acquire _socket_lock; Release _socket_lock] s1).
Proof.
  cbv zeta. rewrite (close_socket_spec s). cbn [fst snd].
  rewrite (close_socket_spec (closed s)).
  destruct s as [[c t b [[k1|] [k2|]] m] w]; repeat split.
Qed.

(* ------------------------------------------------------------------ *)
(** ** Transmissions *)

Ltac run_body :=
  unfold bind, try_except, with_lock, attr, assign, emit, ret; cbn;
  rewrite ?on_send_error_spec;
  unfold closed, close_effects, logged, with_self; cbn;
  repeat match goal with
    | |- context [if ?b then _ else _] => is_var b; destruct b; cbn
    end;
  rewrite <- ?app_assoc; try reflexivity.

(** A transmission that goes through: the whole effect of [_xmit_packet]. *)
Lemma _xmit_packet_success s packet is_telemetry n :
  utf8_len packet = Some n ->
  send_succeeds s is_telemetry ->
  _xmit_packet packet is_telemetry s
  = (Return true,
     counted_sent packet is_telemetry
       (after_send (socket_in_use s is_telemetry) packet None
          (connected s is_telemetry))).
Proof.
  intros Hn. socket_cases s is_telemetry; rewrite Hn; intros H.
  all: lazymatch type of H with
    | _ /\ _ =>
        destruct H as [Hc Hnet];
        destruct sp;
        destruct nt as [|[x|] [|[y|] nt]]; cbn in Hc, Hnet; try discriminate
    | _ => destruct nt as [|[x|] nt]; cbn in H; try discriminate
    end.
  all: run_body.
Qed.

(** A packet with a lone surrogate has no UTF-8 encoding: nothing reaches
    the socket. *)
Lemma _xmit_packet_unencodable s packet is_telemetry :
  utf8_len packet = None ->
  (chosen_socket (self s) is_telemetry = None -> hd None (net (world s)) = None) ->
  _xmit_packet packet is_telemetry s
  = (Return false, dropped packet is_telemetry (connected s is_telemetry)).
Proof.
  intros Hn. socket_cases s is_telemetry; rewrite Hn; intros H.
  all: try (specialize (H eq_refl);
            destruct sp;
            destruct nt as [|[x|] nt]; cbn in H; try discriminate).
  all: run_body.
Qed.

(** The connection cannot be made. *)
Lemma _xmit_packet_refused s packet is_telemetry e :
  connect_fails_with s is_telemetry e ->
  _xmit_packet packet is_telemetry s
  = (Return false,
     dropped packet is_telemetry
       (if fatal e then closed (refused s is_telemetry e)
        else refused s is_telemetry e)).
Proof.
  socket_cases s is_telemetry; intros [Hc Hnet]; try discriminate.
  all: destruct sp;
    destruct nt as [|[x|] nt]; cbn in Hnet; try discriminate;
    injection Hnet as ->.
  all: unfold bind, try_except, with_lock, attr, assign, emit, ret; cbn;
    rewrite on_send_error_spec;
    unfold closed, close_effects, logged, with_self; destruct (fatal e); cbn;
    repeat match goal with
      | |- context [if ?b then _ else _] => is_var b; destruct b; cbn
      end;
    rewrite <- ?app_assoc; reflexivity.
Qed.

Lemma dropped_frame packet is_telemetry s :
  cfg (self (dropped packet is_telemetry s)) = cfg (self s)
  /\ buf (self (dropped packet is_telemetry s)) = buf (self s)
  /\ mode (self (dropped packet is_telemetry s)) = mode (self s).
Proof.
  unfold dropped. destruct (negb is_telemetry && _telemetry (cfg (self s)));
    [ destruct s as [[c t b k m] w] | ]; repeat split.
Qed.

Lemma counted_sent_tele packet is_telemetry s :
  tele (self (counted_sent packet is_telemetry s))
  = if negb is_telemetry && _telemetry (cfg (self s))
    then set_bytes_sent (bytes_sent (tele (self s)) + len packet)
           (set_packets_sent (packets_sent (tele (self s)) + 1) (tele (self s)))
    else tele (self s).
Proof.
  unfold counted_sent. destruct (negb is_telemetry && _telemetry (cfg (self s)));
    [ destruct s as [[c t b k m] w] | ]; reflexivity.
Qed.

Lemma counted_sent_frame packet is_telemetry s :
  cfg (self (counted_sent packet is_telemetry s)) = cfg (self s)
  /\ buf (self (counted_sent packet is_telemetry s)) = buf (self s)
  /\ mode (self (counted_sent packet is_telemetry s)) = mode (self s)
  /\ conn (self (counted_sent packet is_telemetry s)) = conn (self s)
  /\ world (counted_sent packet is_telemetry s) = world s.
Proof.
  unfold counted_sent. destruct (negb is_telemetry && _telemetry (cfg (self s)));
    [ destruct s as [[c t b k m] w] | ]; repeat split.
Qed.

Lemma connected_cached s is_telemetry :
  chosen_socket (self s) is_telemetry <> None -> connected s is_telemetry = s.
Proof.
  unfold connected. destruct (chosen_socket (self s) is_telemetry);
    [ reflexivity | congruence ].
Qed.

Lemma after_failure_send s is_telemetry packet e :
  send_fails_with s is_telemetry e ->
  after_failure s is_telemetry packet e = attempted s is_telemetry packet e.
Proof.
  unfold send_fails_with, after_failure.
  destruct (chosen_socket (self s) is_telemetry); [ reflexivity | ].
  intros [-> _]. reflexivity.
Qed.

Lemma after_failure_connect s is_telemetry packet e :
  connect_fails_with s is_telemetry e ->
  after_failure s is_telemetry packet e = refused s is_telemetry e.
Proof. unfold after_failure. intros [-> ->]. reflexivity. Qed.

(** A transport failure, at the connection or at the [send]: the whole
    effect of [_xmit_packet]. *)
Lemma _xmit_packet_transport_failure s packet is_telemetry e n :
  utf8_len packet = Some n ->
  transport_fails_with s is_telemetry e ->
  _xmit_packet packet is_telemetry s
  = (Return false,
     dropped packet is_telemetry
       (if fatal e then closed (after_failure s is_telemetry packet e)
        else after_failure s is_telemetry packet e)).
Proof.
  intros Hn [Hc|Hs].
  - rewrite (after_failure_connect s is_telemetry packet e Hc).
    apply _xmit_packet_refused, Hc.
  - rewrite (after_failure_send s is_telemetry packet e Hs).
    apply (_xmit_packet_failure s packet is_telemetry e n Hn Hs).
Qed.

Lemma after_failure_frame s is_telemetry packet e :
  cfg (self (after_failure s is_telemetry packet e)) = cfg (self s)
  /\ tele (self (after_failure s is_telemetry packet e)) = tele (self s).
Proof.
  unfold after_failure.
  destruct (chosen_socket (self s) is_telemetry);
    [ | destruct (hd None (net (world s))) ];
    try apply attempted_frame; split; reflexivity.
Qed.

Lemma fatal_iff e :
  fatal e = true
  <-> e = socket_herror \/ e = socket_gaierror
      \/ exists code, e = socket_error (errno_other code).
Proof.
  split.
  - destruct e as [ | | | [ | | | code] | | | | ]; cbn; try discriminate; intros _.
    + left. reflexivity.
    + right. left. reflexivity.
    + right. right. exists code. reflexivity.
  - intros [-> | [-> | [code ->]]]; reflexivity.
Qed.

(** C4, as the code has it.  [_xmit_packet] never raises.  When the
    transport fails with [e] - at the connection, where resolution
    failures arise, or at the [send] - on a packet that encodes, the call
    answers [False]; if telemetry is on and the packet is not the telemetry
    packet, [packets_dropped] grows by one and, for a packet of ASCII
    characters, [bytes_dropped] grows by the byte length of the packet;
    the other counters stay.  After [socket.herror], [socket.gaierror] or
    a [socket.error] whose errno is not [EAGAIN], [ENOBUFS] or [EMSGSIZE]
    (the [fatal] failures) both cached sockets are closed and forgotten.
    After any other failure - [EMSGSIZE], and also [EAGAIN], [ENOBUFS] and a
    timeout - nothing is closed: the connection is as the failed operation
    left it, the socket of a failed [send] stays cached for the next send,
    and a socket that was cached before is still the one cached. *)
Theorem xmit_packet_failure_policy
    (s : Sys) (packet : str) (is_telemetry : bool) (e : exn) (n : Z) :
  let r := _xmit_packet packet is_telemetry s in
  let s' := snd r in
  let failed := after_failure s is_telemetry packet e in
  let counted := negb is_telemetry && _telemetry (cfg (self s)) in
  let before := tele (self s) in
  (exists sent, fst r = Return sent)
  /\ (fatal e = true
      <-> e = socket_herror \/ e = socket_gaierror
          \/ exists code, e = socket_error (errno_other code))
  /\ (utf8_len packet = Some n ->
      transport_fails_with s is_telemetry e ->
      fst r = Return false
      /\ packets_dropped (tele (self s'))
         = packets_dropped before + (if counted then 1 else 0)
      /\ (is_ascii packet = true ->
          bytes_dropped (tele (self s'))
          = bytes_dropped before + (if counted then n else 0))
      /\ (metrics_count (tele (self s')), events_count (tele (self s')),
          service_checks_count (tele (self s')), bytes_sent (tele (self s')),
          packets_sent (tele (self s')), _last_flush_time (tele (self s')))
         = (metrics_count before, events_count before,
            service_checks_count before, bytes_sent before,
            packets_sent before, _last_flush_time before)
      /\ (fatal e = false ->
          trace (world s') = trace (world failed)
          /\ conn (self s') = conn (self failed)
          /\ (send_fails_with s is_telemetry e ->
              chosen_socket (self s') is_telemetry
              = Some (socket_in_use s is_telemetry))
          /\ (chosen_socket (self s) is_telemetry <> None ->
              conn (self s') = conn (self s))
          /\ (connect_fails_with s is_telemetry e ->
              conn (self s') = conn (self s)))
      /\ (fatal e = true ->
          conn (self s') = {| socket := None; telemetry_socket := None |}
          /\ trace (world s')
             = trace (world failed) ++ close_effects (conn (self failed)))).
Proof.
  intros r s' failed counted before.
  split; [ exact (_xmit_packet_returns packet is_telemetry s) | ].
  split; [ apply fatal_iff | ].
  intros Hn Hfail.
  pose proof (_xmit_packet_transport_failure s packet is_telemetry e n Hn Hfail)
    as Hrun.
  fold r failed in Hrun.
  destruct (after_failure_frame s is_telemetry packet e) as [Hcfg Htele].
  fold failed in Hcfg, Htele.
  destruct (closed_frame failed) as (Hcfg' & Htele' & Hconn' & Htrace').
  assert (Htel : tele (self s')
                 = (if counted
                    then set_packets_dropped (packets_dropped before + 1)
                           (set_bytes_dropped (bytes_dropped before + len packet)
                              before)
                    else before)).
  { subst s'. rewrite Hrun. cbn [snd]. rewrite dropped_tele.
    destruct (fatal e); rewrite ?Hcfg', ?Htele', Hcfg, Htele; reflexivity. }
  subst s'. rewrite Hrun in Htel |- *. cbn [fst snd] in Htel |- *.
  split; [ reflexivity | ].
  split; [ rewrite Htel; destruct counted; cbn; lia | ].
  split.
  { intros Hascii.
    assert (Hlen : len packet = n)
      by (pose proof (is_ascii_utf8_len packet Hascii); congruence).
    rewrite Htel, <- Hlen. destruct counted; cbn; lia. }
  split; [ rewrite Htel; destruct counted; reflexivity | ].
  split; intros Hfatal; rewrite Hfatal, dropped_conn, dropped_world.
  - split; [ reflexivity | ]. split; [ reflexivity | ].
    split; [ | split ].
    + intros Hs. unfold chosen_socket. rewrite dropped_conn.
      assert (Hd : _dedicated_telemetry_destination
                     (self (dropped packet is_telemetry failed))
                   = _dedicated_telemetry_destination (self failed)).
      { unfold dropped.
        destruct (negb is_telemetry && _telemetry (cfg (self failed)));
          [ destruct failed as [[c t b k m] w] | ]; reflexivity. }
      rewrite Hd. subst failed.
      rewrite (after_failure_send s is_telemetry packet e Hs).
      apply attempted_chosen_socket.
    + intros Hcached. subst failed. unfold after_failure.
      destruct (chosen_socket (self s) is_telemetry) eqn:Hsock; [ | congruence ].
      apply attempted_cached. rewrite Hsock. discriminate.
    + intros Hc. subst failed.
      rewrite (after_failure_connect s is_telemetry packet e Hc). reflexivity.
  - split; [ exact Hconn' | exact Htrace' ].
Qed.

Lemma xmit_packet_failure_policy_witness :
  let s := direct_client [None; Some (socket_error EMSGSIZE)] [] in
  let s' := snd (_xmit_packet (u "a:1|c") false s) in
  let t := direct_client [Some socket_gaierror] [] in
  let t' := snd (_xmit_packet (u "a:1|c") false t) in
  (fst (_xmit_packet (u "a:1|c") false s) = Return false
   /\ bytes_dropped (tele (self s')) = bytes_dropped (tele (self s)) + 5
   /\ packets_dropped (tele (self s')) = packets_dropped (tele (self s)) + 1
   /\ chosen_socket (self s') false = Some (socket_in_use s false))
  /\ (fst (_xmit_packet (u "a:1|c") false t) = Return false
      /\ conn (self t') = {| socket := None; telemetry_socket := None |}
      /\ packets_dropped (tele (self t')) = packets_dropped (tele (self t)) + 1).
Proof.
  cbv zeta. split.
  - pose proof (xmit_packet_failure_policy
                  (direct_client [None; Some (socket_error EMSGSIZE)] [])
                  (u "a:1|c") false (socket_error EMSGSIZE) 5) as H.
    cbv zeta in H. destruct H as (_ & _ & H).
    assert (Hfail : transport_fails_with
                      (direct_client [None; Some (socket_error EMSGSIZE)] [])
                      false (socket_error EMSGSIZE))
      by (right; vm_compute; split; reflexivity).
    destruct (H eq_refl Hfail) as (Hret & Hpk & Hby & _ & Hkeep & _).
    destruct (Hkeep eq_refl) as (_ & _ & Hsock & _).
    split; [ exact Hret | ].
    split; [ exact (Hby eq_refl) | ].
    split; [ exact Hpk | ].
    apply Hsock. vm_compute. split; reflexivity.
  - pose proof (xmit_packet_failure_policy
                  (direct_client [Some socket_gaierror] [])
                  (u "a:1|c") false socket_gaierror 5) as H.
    cbv zeta in H. destruct H as (_ & _ & H).
    assert (Hfail : transport_fails_with
                      (direct_client [Some socket_gaierror] [])
                      false socket_gaierror)
      by (left; vm_compute; split; reflexivity).
    destruct (H eq_refl Hfail) as (Hret & Hpk & _ & _ & _ & Hclose).
    destruct (Hclose eq_refl) as (Hconn & _).
    split; [ exact Hret | ]. split; [ exact Hconn | exact Hpk ].
Defined.

(** A packet that goes out.  When the socket is there (cached, or connected
    without error) and [send] succeeds on a packet that encodes,
    [_xmit_packet] answers [True]; when telemetry is on and the packet is
    not the telemetry packet, [packets_sent] grows by one and [bytes_sent]
    by [len(packet)], and no other counter moves; the socket is cached; the
    packet is handed to the socket once, as it is, after the connection if
    one had to be made.  With a cached socket that [send] is all that
    happens outside. *)
Theorem xmit_packet_delivery (s : Sys) (packet : str) (is_telemetry : bool) :
  utf8_len packet <> None ->
  send_succeeds s is_telemetry ->
  let r := _xmit_packet packet is_telemetry s in
  let s' := snd r in
  let k := socket_in_use s is_telemetry in
  let counted := negb is_telemetry && _telemetry (cfg (self s)) in
  let before := tele (self s) in
  fst r = Return true
  /\ tele (self s')
     = (if counted
        then set_bytes_sent (bytes_sent before + len packet)
               (set_packets_sent (packets_sent before + 1) before)
        else before)
  /\ chosen_socket (self s') is_telemetry = Some k
  /\ trace (world s')
     = trace (world (connected s is_telemetry)) ++ [Send k packet None]
  /\ (chosen_socket (self s) is_telemetry <> None ->
      conn (self s') = conn (self s)
      /\ trace (world s') = trace (world s) ++ [Send k packet None])
  /\ (cfg (self s'), buf (self s'), mode (self s'))
     = (cfg (self s), buf (self s), mode (self s)).
Proof.
  intros Henc Hok r s' k counted before.
  destruct (utf8_len packet) as [n|] eqn:Hn; [ clear Henc | congruence ].
  pose proof (_xmit_packet_success s packet is_telemetry n Hn Hok) as Hrun.
  fold r k in Hrun.
  destruct (connected_frame s is_telemetry) as (Hcfg & Htele & Hbuf & Hmode).
  set (s1 := after_send k packet None (connected s is_telemetry)) in *.
  destruct (counted_sent_frame packet is_telemetry s1)
    as (Hcfg' & Hbuf' & Hmode' & Hconn' & Hworld').
  subst s'. rewrite Hrun. cbn [fst snd].
  split; [ reflexivity | ].
  split.
  { rewrite counted_sent_tele. subst s1. cbn [after_send self].
    rewrite Hcfg, Htele. reflexivity. }
  split.
  { unfold chosen_socket. rewrite Hconn'.
    replace (_dedicated_telemetry_destination (self (counted_sent packet is_telemetry s1)))
      with (_dedicated_telemetry_destination (self (connected s is_telemetry)))
      by (unfold _dedicated_telemetry_destination; rewrite Hcfg'; reflexivity).
    apply connected_chosen_socket. }
  split; [ rewrite Hworld'; reflexivity | ].
  split.
  { intros Hcached. rewrite Hconn', Hworld'. subst s1.
    rewrite (connected_cached s is_telemetry Hcached). split; reflexivity. }
  rewrite Hcfg', Hbuf', Hmode'. subst s1. cbn [after_send self].
  rewrite Hcfg, Hbuf, Hmode. reflexivity.
Qed.

Lemma xmit_packet_delivery_witness :
  let s := direct_client [] [] in
  let k := {| fd := 3; peer := UDP (Some (u "localhost")) (Some 8125) |} in
  let s' := snd (_xmit_packet (u "a:1|c") false s) in
  fst (_xmit_packet (u "a:1|c") false s) = Return true
  /\ (packets_sent (tele (self s')), bytes_sent (tele (self s'))) = (1, 5)
  /\ chosen_socket (self s') false = Some k.
Proof.
  assert (Henc : utf8_len (u "a:1|c") <> None) by (vm_compute; discriminate).
  assert (Hok : send_succeeds (direct_client [] []) false)
    by (vm_compute; split; reflexivity).
  pose proof (xmit_packet_delivery (direct_client [] []) (u "a:1|c") false
                Henc Hok) as H.
  cbv zeta in H. destruct H as (H1 & H2 & H3 & _).
  cbv zeta. rewrite H2. split; [ exact H1 | split; [ reflexivity | exact H3 ] ].
Defined.

(** A packet that cannot be encoded (it holds a lone surrogate) never
    reaches the socket: [_xmit_packet] answers [False] without raising, no
    [send] is made and the network script is not consumed by one, the socket
    stays cached, and the packet is counted as dropped (by its number of
    characters) when telemetry is on and it is not the telemetry packet. *)
Theorem xmit_packet_unencodable_is_dropped
    (s : Sys) (packet : str) (is_telemetry : bool) :
  utf8_len packet = None ->
  (chosen_socket (self s) is_telemetry = None -> hd None (net (world s)) = None) ->
  let r := _xmit_packet packet is_telemetry s in
  let s' := snd r in
  let counted := negb is_telemetry && _telemetry (cfg (self s)) in
  let before := tele (self s) in
  fst r = Return false
  /\ world s' = world (connected s is_telemetry)
  /\ (chosen_socket (self s) is_telemetry <> None -> world s' = world s)
  /\ chosen_socket (self s') is_telemetry = Some (socket_in_use s is_telemetry)
  /\ tele (self s')
     = (if counted
        then set_packets_dropped (packets_dropped before + 1)
               (set_bytes_dropped (bytes_dropped before + len packet) before)
        else before).
Proof.
  intros Hn Hsock r s' counted before.
  pose proof (_xmit_packet_unencodable s packet is_telemetry Hn Hsock) as Hrun.
  fold r in Hrun.
  destruct (connected_frame s is_telemetry) as (Hcfg & Htele & Hbuf & Hmode).
  destruct (dropped_frame packet is_telemetry (connected s is_telemetry))
    as (Hcfg' & _ & _).
  subst s'. rewrite Hrun. cbn [fst snd].
  split; [ reflexivity | ].
  split; [ apply dropped_world | ].
  split.
  { intros Hcached. rewrite dropped_world, (connected_cached s is_telemetry Hcached).
    reflexivity. }
  split.
  { unfold chosen_socket. rewrite dropped_conn.
    replace (_dedicated_telemetry_destination
               (self (dropped packet is_telemetry (connected s is_telemetry))))
      with (_dedicated_telemetry_destination (self (connected s is_telemetry)))
      by (unfold _dedicated_telemetry_destination; rewrite Hcfg'; reflexivity).
    apply connected_chosen_socket. }
  rewrite dropped_tele, Hcfg, Htele. reflexivity.
Qed.

Lemma xmit_packet_unencodable_is_dropped_witness :
  let s := direct_client [] [] in
  let packet := u "a:" ++ [55357%N] in
  let s' := snd (_xmit_packet packet false s) in
  fst (_xmit_packet packet false s) = Return false
  /\ (packets_dropped (tele (self s')), bytes_dropped (tele (self s'))) = (1, 3).
Proof.
  pose proof (xmit_packet_unencodable_is_dropped (direct_client [] [])
                (u "a:" ++ [55357%N]) false eq_refl (fun _ => eq_refl)) as H.
  cbv zeta in H. destruct H as (H1 & _ & _ & _ & H5).
  cbv zeta. rewrite H5. split; [ exact H1 | reflexivity ].
Defined.

(** A connection that cannot be made: [_xmit_packet] answers [False]
    without raising, no [send] is attempted, no socket is cached for this
    destination, and the packet is counted as dropped when telemetry is on
    and it is not the telemetry packet.  After [socket.herror],
    [socket.gaierror] or a [socket.error] with an errno other than [EAGAIN],
    [ENOBUFS], [EMSGSIZE], the socket of the other destination, if one is
    cached, is closed and forgotten as well; after any other failure it is
    kept. *)
Theorem xmit_packet_connection_refused
    (s : Sys) (packet : str) (is_telemetry : bool) (e : exn) :
  chosen_socket (self s) is_telemetry = None ->
  hd None (net (world s)) = Some e ->
  let r := _xmit_packet packet is_telemetry s in
  let s' := snd r in
  let counted := negb is_telemetry && _telemetry (cfg (self s)) in
  let before := tele (self s) in
  fst r = Return false
  /\ chosen_socket (self s') is_telemetry = None
  /\ conn (self s')
     = (if fatal e then {| socket := None; telemetry_socket := None |}
        else conn (self s))
  /\ trace (world s')
     = trace (world s)
       ++ [Acquire _socket_lock;
           Connect (chosen_endpoint (self s) is_telemetry) (Some e);
           Release _socket_lock]
       ++ (if fatal e then close_effects (conn (self s)) else [])
  /\ tele (self s')
     = (if counted
        then set_packets_dropped (packets_dropped before + 1)
               (set_bytes_dropped (bytes_dropped before + len packet) before)
        else before).
Proof.
  intros Hnone Hnet r s' counted before.
  pose proof (_xmit_packet_refused s packet is_telemetry e (conj Hnone Hnet))
    as Hrun.
  fold r in Hrun. subst s'. rewrite Hrun. cbn [fst snd].
  destruct (closed_frame (refused s is_telemetry e))
    as (Hcfg' & Htele' & Hconn' & Htrace').
  split; [ reflexivity | ].
  assert (Hconn : conn (self (dropped packet is_telemetry
                                (if fatal e then closed (refused s is_telemetry e)
                                 else refused s is_telemetry e)))
                  = (if fatal e then {| socket := None; telemetry_socket := None |}
                     else conn (self s))).
  { rewrite dropped_conn. destruct (fatal e); [ exact Hconn' | reflexivity ]. }
  split.
  { unfold chosen_socket in *. rewrite Hconn.
    destruct (dropped_frame packet is_telemetry
                (if fatal e then closed (refused s is_telemetry e)
                 else refused s is_telemetry e)) as (Hc & _ & _).
    unfold _dedicated_telemetry_destination in *. rewrite Hc.
    destruct (fatal e); rewrite ?Hcfg'; cbn [refused self].
    - destruct (is_telemetry && _); reflexivity.
    - exact Hnone. }
  split; [ exact Hconn | ].
  split.
  { rewrite dropped_world. destruct (fatal e).
    - rewrite Htrace'. cbn [refused self world trace].
      rewrite <- app_assoc. reflexivity.
    - cbn [refused self world trace]. rewrite app_nil_r. reflexivity. }
  rewrite dropped_tele.
  destruct (fatal e); rewrite ?Hcfg', ?Htele'; reflexivity.
Qed.

Lemma xmit_packet_connection_refused_witness :
  let s := direct_client [Some socket_gaierror] [] in
  let s' := snd (_xmit_packet (u "a:1|c") false s) in
  fst (_xmit_packet (u "a:1|c") false s) = Return false
  /\ chosen_socket (self s') false = None
  /\ packets_dropped (tele (self s')) = 1.
Proof.
  pose proof (xmit_packet_connection_refused
                (direct_client [Some socket_gaierror] []) (u "a:1|c") false
                socket_gaierror eq_refl eq_refl) as H.
  cbv zeta in H. destruct H as (H1 & H2 & _ & _ & H5).
  cbv zeta. rewrite H5. split; [ exact H1 | split; [ exact H2 | reflexivity ] ].
Defined.

(* ------------------------------------------------------------------ *)
(** ** What a method leaves alone outside *)

Section Spares.

Context {X : Type} (proj : World -> X).

(** The projection does not look at the trace. *)
Hypothesis proj_trace :
  forall w es,
    proj {| net := net w; clock := clock w; dice := dice w;
            next_fd := next_fd w; trace := es |} = proj w.

Lemma spares_ret {A} (a : A) : spares proj (ret a).
Proof. intros s. reflexivity. Qed.

Lemma spares_raise {A} e : spares proj (@raise A e).
Proof. intros s. reflexivity. Qed.

Lemma spares_attr {A} (f : DogStatsd -> A) : spares proj (attr f).
Proof. intros s. reflexivity. Qed.

Lemma spares_assign f : spares proj (assign f).
Proof. intros s. reflexivity. Qed.

Lemma spares_emit e : spares proj (emit e).
Proof. intros s. unfold emit. cbn. apply proj_trace. Qed.

Lemma spares_bind {A B} (m : Py A) (k : A -> Py B) :
  spares proj m -> (forall a, spares proj (k a)) -> spares proj (bind m k).
Proof.
  intros Hm Hk s. unfold bind. specialize (Hm s).
  destruct (m s) as [[a|e] s1]; cbn in *; [ | exact Hm ].
  rewrite (Hk a s1). exact Hm.
Qed.

Lemma spares_try {A} (m : Py A) (h : exn -> Py A) :
  spares proj m -> (forall e, spares proj (h e)) -> spares proj (try_except m h).
Proof.
  intros Hm Hh s. unfold try_except. specialize (Hm s).
  destruct (m s) as [[a|e] s1]; cbn in *; [ exact Hm | ].
  rewrite (Hh e s1). exact Hm.
Qed.

Lemma spares_finally {A} (m : Py A) (f : Py unit) :
  spares proj m -> spares proj f -> spares proj (try_finally m f).
Proof.
  intros Hm Hf s. unfold try_finally. specialize (Hm s).
  destruct (m s) as [r s1]. specialize (Hf s1).
  destruct (f s1) as [[[]|e] s2]; cbn in *; congruence.
Qed.

Lemma spares_with_lock {A} l (m : Py A) :
  spares proj m -> spares proj (with_lock l m).
Proof.
  intros Hm s. unfold with_lock.
  pose proof (spares_emit (Acquire l) s) as H1.
  destruct (emit (Acquire l) s) as [r1 s1]. cbn in H1.
  specialize (Hm s1). destruct (m s1) as [r2 s2]. cbn [fst snd] in *.
  pose proof (spares_emit (Release l) s2) as H3. congruence.
Qed.

End Spares.

Lemma clock_trace w es :
  clock {| net := net w; clock := clock w; dice := dice w;
           next_fd := next_fd w; trace := es |} = clock w.
Proof. reflexivity. Qed.

Lemma dice_trace w es :
  dice {| net := net w; clock := clock w; dice := dice w;
          next_fd := next_fd w; trace := es |} = dice w.
Proof. reflexivity. Qed.

Lemma net_trace w es :
  net {| net := net w; clock := clock w; dice := dice w;
         next_fd := next_fd w; trace := es |} = net w.
Proof. reflexivity. Qed.

Lemma spares_clock_open_socket e : spares clock (open_socket e).
Proof. intros s. unfold open_socket. destruct (hd None (net (world s))); reflexivity. Qed.

Lemma spares_clock_socket_send k p : spares clock (socket_send k p).
Proof. intros s. unfold socket_send. destruct (utf8_len p); reflexivity. Qed.

Lemma spares_clock_random : spares clock random.
Proof. intros s. reflexivity. Qed.

Lemma spares_dice_open_socket e : spares dice (open_socket e).
Proof. intros s. unfold open_socket. destruct (hd None (net (world s))); reflexivity. Qed.

Lemma spares_dice_socket_send k p : spares dice (socket_send k p).
Proof. intros s. unfold socket_send. destruct (utf8_len p); reflexivity. Qed.

Lemma spares_dice_time : spares dice time_time.
Proof. intros s. reflexivity. Qed.

Lemma spares_net_time : spares net time_time.
Proof. intros s. reflexivity. Qed.

Lemma spares_net_random : spares net random.
Proof. intros s. reflexivity. Qed.

Create HintDb world discriminated.

#[local] Hint Resolve spares_clock_open_socket spares_clock_socket_send
  spares_clock_random spares_dice_open_socket spares_dice_socket_send
  spares_dice_time spares_net_time spares_net_random
  clock_trace dice_trace net_trace : world.

(** Walks through a method body for a [spares] goal. *)
Ltac world_walk :=
  repeat first
    [ solve [eauto with world]
    | apply spares_ret
    | apply spares_raise
    | apply spares_attr
    | apply spares_assign
    | apply spares_emit; solve [eauto with world]
    | apply spares_bind; [ | intro ]
    | apply spares_try; [ | intro ]
    | apply spares_finally
    | apply spares_with_lock; [ solve [eauto with world] | ]
    | match goal with
      | |- spares _ (match ?x with _ => _ end) => destruct x
      end ].

Ltac unfold_transport :=
  unfold _send_to_server, _is_telemetry_flush_time, _reset_telemetry,
    _xmit_packet, on_send_error, close_socket, get_socket, _get_uds_socket,
    _get_udp_socket, add_bytes_dropped, add_packets_dropped, add_bytes_sent,
    add_packets_sent.

Lemma _xmit_packet_spares_clock packet is_telemetry :
  spares clock (_xmit_packet packet is_telemetry).
Proof. unfold_transport. world_walk. Qed.

Lemma _xmit_packet_spares_dice packet is_telemetry :
  spares dice (_xmit_packet packet is_telemetry).
Proof. unfold_transport. world_walk. Qed.

Lemma _send_to_server_spares_dice packet : spares dice (_send_to_server packet).
Proof. unfold_transport. world_walk. Qed.

Lemma flush_spares_dice : spares dice flush.
Proof.
  unfold flush, _reset_buffer.
  apply spares_with_lock; [ apply dice_trace | ].
  apply spares_bind; [ apply spares_attr | intros [|p b] ];
    [ apply spares_ret | ].
  apply spares_bind; [ apply _send_to_server_spares_dice | intros _ ].
  world_walk.
Qed.

Lemma send_spares_dice packet : spares dice (send packet).
Proof.
  unfold send, _send_to_buffer.
  apply spares_bind; [ apply spares_attr | intros [|] ];
    [ | apply _send_to_server_spares_dice ].
  apply spares_with_lock; [ apply dice_trace | ].
  apply spares_bind; [ apply spares_attr | intros [|] ];
    (apply spares_bind; [ | intros _; apply spares_assign ]);
    [ apply flush_spares_dice | apply spares_ret ].
Qed.

(* ------------------------------------------------------------------ *)
(** ** Accounting of transmissions *)

Lemma closed_if_frame (b : bool) s :
  cfg (self (if b then closed s else s)) = cfg (self s)
  /\ tele (self (if b then closed s else s)) = tele (self s).
Proof. destruct b; [ | split; reflexivity ]. destruct (closed_frame s) as (H1 & H2 & _). split; assumption. Qed.

(** Every call of [_xmit_packet] comes back with a verdict, and the packet
    is counted once, on the side of the verdict: as sent when the answer is
    [True], as dropped when it is [False], by one packet and [len(packet)]
    bytes; nothing is counted for the telemetry packet or when telemetry is
    off. *)
Theorem xmit_packet_counts_each_packet_once
    (s : Sys) (packet : str) (is_telemetry : bool) :
  let r := _xmit_packet packet is_telemetry s in
  let before := tele (self s) in
  let counted := negb is_telemetry && _telemetry (cfg (self s)) in
  exists ok : bool,
    fst r = Return ok
    /\ tele (self (snd r))
       = (if counted
          then if ok
               then set_bytes_sent (bytes_sent before + len packet)
                      (set_packets_sent (packets_sent before + 1) before)
               else set_packets_dropped (packets_dropped before + 1)
                      (set_bytes_dropped (bytes_dropped before + len packet) before)
          else before).
Proof.
  cbv zeta.
  destruct (connected_frame s is_telemetry) as (Hcfg & Htele & _ & _).
  destruct (chosen_socket (self s) is_telemetry) as [k|] eqn:Hsock.
  - (* a cached socket *)
    destruct (utf8_len packet) as [n|] eqn:Hn.
    + destruct (hd None (net (world s))) as [e|] eqn:Hnet.
      * assert (Hf : send_fails_with s is_telemetry e)
          by (unfold send_fails_with; rewrite Hsock; exact Hnet).
        rewrite (_xmit_packet_failure s packet is_telemetry e n Hn Hf).
        exists false. split; [ reflexivity | ]. cbn [snd].
        rewrite dropped_tele.
        destruct (closed_if_frame (fatal e) (attempted s is_telemetry packet e))
          as [H1 H2].
        destruct (attempted_frame s is_telemetry packet e) as [H3 H4].
        rewrite H1, H2, H3, H4. reflexivity.
      * assert (Hok : send_succeeds s is_telemetry)
          by (unfold send_succeeds; rewrite Hsock; exact Hnet).
        rewrite (_xmit_packet_success s packet is_telemetry n Hn Hok).
        exists true. split; [ reflexivity | ]. cbn [snd].
        rewrite counted_sent_tele. cbn [after_send self].
        rewrite Hcfg, Htele. reflexivity.
    + rewrite (_xmit_packet_unencodable s packet is_telemetry Hn)
        by (intros H; congruence).
      exists false. split; [ reflexivity | ]. cbn [snd].
      rewrite dropped_tele, Hcfg, Htele. reflexivity.
  - (* a connection to make *)
    destruct (hd None (net (world s))) as [e|] eqn:Hnet.
    + rewrite (_xmit_packet_refused s packet is_telemetry e (conj Hsock Hnet)).
      exists false. split; [ reflexivity | ]. cbn [snd].
      rewrite dropped_tele.
      destruct (closed_if_frame (fatal e) (refused s is_telemetry e)) as [H1 H2].
      rewrite H1, H2. reflexivity.
    + destruct (utf8_len packet) as [n|] eqn:Hn.
      * destruct (hd None (tl (net (world s)))) as [e|] eqn:Hnet2.
        -- assert (Hf : send_fails_with s is_telemetry e)
             by (unfold send_fails_with; rewrite Hsock; split; assumption).
           rewrite (_xmit_packet_failure s packet is_telemetry e n Hn Hf).
           exists false. split; [ reflexivity | ]. cbn [snd].
           rewrite dropped_tele.
           destruct (closed_if_frame (fatal e) (attempted s is_telemetry packet e))
             as [H1 H2].
           destruct (attempted_frame s is_telemetry packet e) as [H3 H4].
           rewrite H1, H2, H3, H4. reflexivity.
        -- assert (Hok : send_succeeds s is_telemetry)
             by (unfold send_succeeds; rewrite Hsock; split; assumption).
           rewrite (_xmit_packet_success s packet is_telemetry n Hn Hok).
           exists true. split; [ reflexivity | ]. cbn [snd].
           rewrite counted_sent_tele. cbn [after_send self].
           rewrite Hcfg, Htele. reflexivity.
      * rewrite (_xmit_packet_unencodable s packet is_telemetry Hn)
          by (intros _; exact Hnet).
        exists false. split; [ reflexivity | ]. cbn [snd].
        rewrite dropped_tele, Hcfg, Htele. reflexivity.
Qed.

Lemma _xmit_packet_tele_off s packet is_telemetry :
  _telemetry (cfg (self s)) = false ->
  tele (self (snd (_xmit_packet packet is_telemetry s))) = tele (self s).
Proof.
  intros Hoff.
  destruct (connected_frame s is_telemetry) as (Hcfg & Htele & _ & _).
  destruct (chosen_socket (self s) is_telemetry) as [k|] eqn:Hsock;
    destruct (utf8_len packet) as [n|] eqn:Hn;
    destruct (hd None (net (world s))) as [e|] eqn:Hnet;
    try destruct (hd None (tl (net (world s)))) as [e2|] eqn:Hnet2.
  all: first
    [ rewrite (_xmit_packet_refused s packet is_telemetry _ (conj Hsock Hnet));
      cbn [snd]; rewrite dropped_tele;
      destruct (closed_if_frame (fatal e) (refused s is_telemetry e)) as [H1 H2];
      rewrite H1, H2; cbn [refused self]; rewrite Hoff, andb_false_r; reflexivity
    | rewrite (_xmit_packet_unencodable s packet is_telemetry Hn)
        by (intros; congruence);
      cbn [snd]; rewrite dropped_tele, Hcfg, Htele, Hoff, andb_false_r;
      reflexivity
    | match goal with
      | He : _ = Some ?x |- _ =>
          assert (Hf : send_fails_with s is_telemetry x)
            by (unfold send_fails_with; rewrite Hsock; repeat split; assumption);
          rewrite (_xmit_packet_failure s packet is_telemetry x n Hn Hf);
          cbn [snd]; rewrite dropped_tele;
          destruct (closed_if_frame (fatal x) (attempted s is_telemetry packet x))
            as [H1 H2];
          destruct (attempted_frame s is_telemetry packet x) as [H3 H4];
          rewrite H1, H2, H3, H4, Hoff, andb_false_r; reflexivity
      end
    | assert (Hs : send_succeeds s is_telemetry)
        by (unfold send_succeeds; rewrite Hsock; repeat split; assumption);
      rewrite (_xmit_packet_success s packet is_telemetry n Hn Hs);
      cbn [snd]; rewrite counted_sent_tele; cbn [after_send self];
      rewrite Hcfg, Htele, Hoff, andb_false_r; reflexivity ].
Qed.

Lemma _send_to_server_telemetry_off s packet :
  _telemetry (cfg (self s)) = false ->
  _send_to_server packet s
  = (Return tt, snd (_xmit_packet (packet ++ [LF]) false s)).
Proof.
  intros Hoff. unfold _send_to_server.
  destruct (_xmit_packet_returns (packet ++ [LF]) false s) as [b Hb].
  rewrite (bind_run _ _ _ _ Hb).
  set (s1 := snd (_xmit_packet (packet ++ [LF]) false s)).
  assert (H1 : _telemetry (cfg (self s1)) = false)
    by (subst s1; rewrite _xmit_packet_keeps_cfg; exact Hoff).
  unfold _is_telemetry_flush_time. unfold bind at 1. unfold bind at 1.
  unfold attr at 1. rewrite H1. reflexivity.
Qed.

(** With telemetry off nothing is counted and nothing is sent besides the
    packet: [_send_to_server] is the one transmission of the packet with
    its newline, the counters stay as they were, and the clock is not
    read. *)
Theorem telemetry_off_is_silent (s : Sys) (packet : str) :
  _telemetry (cfg (self s)) = false ->
  let s' := snd (_send_to_server packet s) in
  _send_to_server packet s
  = (Return tt, snd (_xmit_packet (packet ++ [LF]) false s))
  /\ tele (self s') = tele (self s)
  /\ clock (world s') = clock (world s).
Proof.
  intros Hoff s'. subst s'.
  rewrite (_send_to_server_telemetry_off s packet Hoff). cbn [snd].
  split; [ reflexivity | split ].
  - apply _xmit_packet_tele_off, Hoff.
  - apply _xmit_packet_spares_clock.
Qed.

Lemma telemetry_off_is_silent_witness :
  let s := snd (disable_telemetry (direct_client [] [11; 12]%Q)) in
  let s' := snd (_send_to_server (u "a:1|c") s) in
  tele (self s') = tele (self s) /\ clock (world s') = [11; 12]%Q.
Proof.
  pose proof (telemetry_off_is_silent
                (snd (disable_telemetry (direct_client [] [11; 12]%Q)))
                (u "a:1|c") eq_refl) as H.
  cbv zeta in H. destruct H as (_ & H2 & H3).
  cbv zeta. split; [ exact H2 | rewrite H3; reflexivity ].
Defined.

(* ------------------------------------------------------------------ *)
(** ** The buffer, over several calls *)

(** [flush] leaves an empty buffer behind, and a second [flush] has nothing
    to send: it takes and releases the lock.  The same holds for a first
    [flush] of an empty buffer. *)
Theorem flush_empties_the_buffer (s : Sys) :
  buffer_wf (self s) ->
  let s1 := snd (flush s) in
  fst (flush s) = Return tt
  /\ buf (self s1) = {| _buffer := []; _current_buffer_total_size := 0 |}
  /\ (_buffer (buf (self s)) = [] ->
      s1 = logged [Acquire _buffer_lock; Release _buffer_lock] s)
  /\ flush s1
     = (Return tt, logged [Acquire _buffer_lock; Release _buffer_lock] s1).
Proof.
  intros Hwf s1.
  assert (Hempty : buf (self s1)
                   = {| _buffer := []; _current_buffer_total_size := 0 |}).
  { subst s1. rewrite flush_spec.
    destruct s as [[c t [bl tot] k m] w]. unfold buffer_wf in Hwf. cbn in Hwf |- *.
    destruct bl as [|p rest]; [ cbn in Hwf; subst tot | ]; reflexivity. }
  split; [ apply flush_returns | ].
  split; [ exact Hempty | ].
  split.
  - intros Hb. subst s1. rewrite flush_spec, Hb. reflexivity.
  - rewrite flush_spec, Hempty. reflexivity.
Qed.

Lemma flush_empties_the_buffer_witness :
  let s := snd (_send_to_buffer (u "a:1|c") (buffered_client 100 (3 # 10) [] [])) in
  buffer_wf (self s)
  /\ _buffer (buf (self s)) = [u "a:1|c"]
  /\ buf (self (snd (flush s)))
     = {| _buffer := []; _current_buffer_total_size := 0 |}.
Proof.
  pose proof (flush_empties_the_buffer
                (snd (_send_to_buffer (u "a:1|c")
                        (buffered_client 100 (3 # 10) [] []))) eq_refl) as H.
  cbv zeta in H. destruct H as (_ & H2 & _).
  cbv zeta. split; [ reflexivity | split; [ reflexivity | exact H2 ] ].
Defined.

Lemma append_locks_app n m :
  append_locks (n + m) = append_locks n ++ append_locks m.
Proof. induction n as [|n IH]; [ reflexivity | ]. cbn. rewrite IH. reflexivity. Qed.

(** Packets that fit are only appended: nothing leaves the client. *)
Lemma send_all_into_buffer packets : forall s,
  _send (mode (self s)) = via_buffer ->
  _current_buffer_total_size (buf (self s)) + encoded_size packets
  <= _max_payload_size (cfg (self s)) ->
  send_all packets s
  = (Return tt,
     logged (append_locks (List.length packets))
       (with_self
          (with_buf
             {| _buffer := _buffer (buf (self s)) ++ packets;
                _current_buffer_total_size :=
                  _current_buffer_total_size (buf (self s)) + encoded_size packets |}
             (self s)) s)).
Proof.
  induction packets as [|p rest IH]; intros s Hmode Hfit.
  - destruct s as [[c t [bl tot] k m] [nt ck dc fd tr]].
    unfold logged, with_self, with_buf, ret. cbn.
    rewrite !app_nil_r, Z.add_0_r. reflexivity.
  - cbn [send_all encoded_size] in *.
    pose proof (encoded_size_nonneg rest) as Hrest.
    assert (Hsend : send p s
                    = (Return tt,
                       logged [Release _buffer_lock]
                         (appended p (logged [Acquire _buffer_lock] s)))).
    { unfold send, bind, attr. rewrite Hmode. rewrite _send_to_buffer_eq.
      unfold _should_flush.
      replace (_max_payload_size (cfg (self s))
               <? _current_buffer_total_size (buf (self s)) + len p + 1)
        with false by (symmetry; apply Z.ltb_ge; lia).
      reflexivity. }
    unfold bind at 1. rewrite Hsend.
    rewrite IH.
    + destruct s as [[c t [bl tot] k m] [nt ck dc fd tr]].
      unfold logged, appended, with_self, with_buf. cbn.
      rewrite <- !app_assoc. cbn.
      replace (tot + (len p + 1) + encoded_size rest)
        with (tot + (len p + 1 + encoded_size rest)) by lia.
      reflexivity.
    + destruct s as [[c t [bl tot] k m] w]. exact Hmode.
    + destruct s as [[c t [bl tot] k m] w]. cbn in *. lia.
Qed.

(** A batch that fits.  On the buffered path, from an empty buffer, packets
    whose sizes (length plus one each) add up to no more than
    [_max_payload_size] are kept in their order of arrival and nothing is
    sent and the network is not touched; the next [flush] hands them all,
    joined by newlines, to [_send_to_server] as one payload and empties the
    buffer. *)
Theorem buffered_packets_leave_as_one_payload (s : Sys) (packets : list str) :
  _send (mode (self s)) = via_buffer ->
  buf (self s) = {| _buffer := []; _current_buffer_total_size := 0 |} ->
  packets <> [] ->
  encoded_size packets <= _max_payload_size (cfg (self s)) ->
  let s1 := snd (send_all packets s) in
  fst (send_all packets s) = Return tt
  /\ buf (self s1)
     = {| _buffer := packets; _current_buffer_total_size := encoded_size packets |}
  /\ net (world s1) = net (world s)
  /\ trace (world s1) = trace (world s) ++ append_locks (List.length packets)
  /\ flush s1
     = (Return tt,
        logged [Acquire _buffer_lock; Release _buffer_lock; Release _buffer_lock]
          (emptied
             (snd (_send_to_server (join [LF] packets)
                     (logged [Acquire _buffer_lock] s1))))).
Proof.
  intros Hmode Hbuf Hne Hfit s1.
  assert (Hrun := send_all_into_buffer packets s Hmode).
  rewrite Hbuf in Hrun. cbn [_buffer _current_buffer_total_size app] in Hrun.
  specialize (Hrun Hfit). subst s1. rewrite Hrun. cbn [fst snd].
  split; [ reflexivity | ].
  split; [ reflexivity | ].
  split; [ reflexivity | ].
  split; [ reflexivity | ].
  rewrite flush_spec. cbn [logged with_self with_buf self buf _buffer].
  destruct packets as [|p rest]; [ congruence | reflexivity ].
Qed.

Lemma buffered_packets_leave_as_one_payload_witness :
  let s := buffered_client 100 (3 # 10) [] [] in
  let k := {| fd := 3; peer := UDP (Some (u "localhost")) (Some 8125) |} in
  let s1 := snd (send_all [u "a:1|c"; u "b:2|g"] s) in
  _buffer (buf (self s1)) = [u "a:1|c"; u "b:2|g"]
  /\ trace (world (snd (flush s1)))
     = trace (world s1)
       ++ [Acquire _buffer_lock; Acquire _socket_lock; Connect (peer k) None;
           Release _socket_lock;
           Send k (u "a:1|c" ++ [LF] ++ u "b:2|g" ++ [LF]) None;
           Acquire _buffer_lock; Release _buffer_lock; Release _buffer_lock].
Proof.
  assert (Hne : [u "a:1|c"; u "b:2|g"] <> []) by discriminate.
  assert (Hfit : encoded_size [u "a:1|c"; u "b:2|g"]
                 <= _max_payload_size
                      (cfg (self (buffered_client 100 (3 # 10) [] []))))
    by (vm_compute; discriminate).
  pose proof (buffered_packets_leave_as_one_payload
                (buffered_client 100 (3 # 10) [] []) [u "a:1|c"; u "b:2|g"]
                eq_refl eq_refl Hne Hfit) as H.
  cbv zeta in H. destruct H as (_ & H2 & _ & _ & H5).
  cbv zeta. split; [ rewrite H2; reflexivity | ].
  rewrite H5. vm_compute. reflexivity.
Defined.

(* ------------------------------------------------------------------ *)
(** ** The size the buffer accounts for *)

Section Maintains.

Context (I : DogStatsd -> Prop).

Lemma maintains_ret {A} (a : A) : maintains I (ret a).
Proof. intros s H. exact H. Qed.

Lemma maintains_raise {A} e : maintains I (@raise A e).
Proof. intros s H. exact H. Qed.

Lemma maintains_attr {A} (f : DogStatsd -> A) : maintains I (attr f).
Proof. intros s H. exact H. Qed.

Lemma maintains_emit e : maintains I (emit e).
Proof. intros s H. exact H. Qed.

Lemma maintains_assign f : (forall o, I o -> I (f o)) -> maintains I (assign f).
Proof. intros Hf s H. apply Hf, H. Qed.

Lemma maintains_bind {A B} (m : Py A) (k : A -> Py B) :
  maintains I m -> (forall a, maintains I (k a)) -> maintains I (bind m k).
Proof.
  intros Hm Hk s H. unfold bind. specialize (Hm s H).
  destruct (m s) as [[a|e] s1]; cbn in *; [ apply Hk, Hm | exact Hm ].
Qed.

Lemma maintains_finally {A} (m : Py A) (f : Py unit) :
  maintains I m -> maintains I f -> maintains I (try_finally m f).
Proof.
  intros Hm Hf s H. unfold try_finally. specialize (Hm s H).
  destruct (m s) as [r s1]. specialize (Hf s1 Hm).
  destruct (f s1) as [[[]|e] s2]; exact Hf.
Qed.

Lemma maintains_with_lock {A} l (m : Py A) :
  maintains I m -> maintains I (with_lock l m).
Proof.
  intros Hm s H. unfold with_lock. cbn.
  specialize (Hm (snd (emit (Acquire l) s)) H).
  destruct (m _) as [r s2]. exact Hm.
Qed.

(** What leaves the buffer alone keeps every invariant of the buffer. *)
Lemma maintains_keeps_buf {A} (m : Py A) :
  (forall o o', buf o = buf o' -> I o -> I o') ->
  keeps buf m -> maintains I m.
Proof. intros Hbuf Hm s H. apply (Hbuf (self s)); [ symmetry; apply Hm | exact H ]. Qed.

End Maintains.

Lemma buffer_wf_buf o o' : buf o = buf o' -> buffer_wf o -> buffer_wf o'.
Proof. unfold buffer_wf. intros ->. exact (fun H => H). Qed.

Lemma buffer_wf_with_tele t o : buffer_wf o -> buffer_wf (with_tele t o).
Proof. exact (fun H => H). Qed.

Lemma buffer_wf_with_mode m o : buffer_wf o -> buffer_wf (with_mode m o).
Proof. exact (fun H => H). Qed.

Lemma _send_to_server_wf packet : maintains buffer_wf (_send_to_server packet).
Proof.
  apply maintains_keeps_buf; [ exact buffer_wf_buf | apply _send_to_server_keeps_buf ].
Qed.

Lemma _reset_buffer_wf : maintains buffer_wf _reset_buffer.
Proof. intros s _. rewrite _reset_buffer_spec. reflexivity. Qed.

Lemma flush_wf : maintains buffer_wf flush.
Proof.
  unfold flush. apply maintains_with_lock.
  apply maintains_bind; [ apply maintains_attr | intros [|p b] ].
  - apply maintains_ret.
  - apply maintains_bind; [ apply _send_to_server_wf | intros _; apply _reset_buffer_wf ].
Qed.

Lemma _send_to_buffer_wf packet : maintains buffer_wf (_send_to_buffer packet).
Proof.
  unfold _send_to_buffer. apply maintains_with_lock.
  apply maintains_bind; [ apply maintains_attr | intros full ].
  apply maintains_bind.
  - destruct full; [ apply flush_wf | apply maintains_ret ].
  - intros _. apply maintains_assign. intros o. unfold buffer_wf. cbn.
    intros ->. rewrite encoded_size_snoc. reflexivity.
Qed.

Lemma send_wf packet : maintains buffer_wf (send packet).
Proof.
  unfold send. apply maintains_bind; [ apply maintains_attr | intros [|] ];
    [ apply _send_to_buffer_wf | apply _send_to_server_wf ].
Qed.

Lemma _stop_flush_thread_wf : maintains buffer_wf _stop_flush_thread.
Proof.
  unfold _stop_flush_thread.
  apply maintains_bind; [ apply maintains_attr | intros [| |q] ];
    [ apply maintains_raise | apply maintains_ret | ].
  apply maintains_bind; [ apply flush_wf | intros _ ].
  repeat first
    [ apply maintains_emit
    | apply maintains_bind; [ | intros _ ]
    | apply maintains_assign; intros o; apply buffer_wf_with_mode ].
Qed.

Lemma _start_flush_thread_wf q : maintains buffer_wf (_start_flush_thread q).
Proof.
  unfold _start_flush_thread.
  apply maintains_bind; [ apply maintains_attr | intros d ].
  apply maintains_bind; [ apply maintains_attr | intros i ].
  destruct (d || Qle_bool i MIN_FLUSH_INTERVAL); [ apply maintains_ret | ].
  apply maintains_bind; [ | intros _; apply maintains_emit ].
  apply maintains_assign; intros o; apply buffer_wf_with_mode.
Qed.

Lemma set_disable_buffering_property_wf d :
  maintains buffer_wf (set_disable_buffering_property d).
Proof.
  unfold set_disable_buffering_property. apply maintains_with_lock.
  apply maintains_bind; [ apply maintains_attr | intros cur ].
  destruct (Bool.eqb cur d); [ apply maintains_ret | ].
  apply maintains_bind;
    [ apply maintains_assign; intros o; apply buffer_wf_with_mode | intros _ ].
  destruct d.
  - apply maintains_bind;
      [ apply maintains_assign; intros o; apply buffer_wf_with_mode
      | intros _; apply _stop_flush_thread_wf ].
  - apply maintains_bind;
      [ apply maintains_assign; intros o; apply buffer_wf_with_mode | intros _ ].
    apply maintains_bind; [ apply maintains_attr | intros q ].
    apply _start_flush_thread_wf.
Qed.

Lemma open_buffer_wf size : maintains buffer_wf (open_buffer size).
Proof.
  unfold open_buffer.
  apply maintains_bind; [ apply maintains_emit | intros _ ].
  apply maintains_bind;
    [ apply maintains_assign; intros o; apply buffer_wf_with_mode
    | intros _; apply _reset_buffer_wf ].
Qed.

Lemma close_buffer_wf : maintains buffer_wf close_buffer.
Proof.
  unfold close_buffer. apply maintains_finally; [ apply flush_wf | ].
  apply maintains_bind; [ apply maintains_attr | intros d ].
  apply maintains_bind; [ | intros _; apply maintains_emit ].
  destruct d; [ | apply maintains_ret ].
  apply maintains_assign; intros o; apply buffer_wf_with_mode.
Qed.

Lemma init_wf c d w : buffer_wf (self (snd (__init__ c d w))).
Proof.
  unfold __init__.
  set (s0 := {| self := blank c d; world := w |}).
  assert (H0 : buffer_wf (self s0)) by reflexivity.
  revert H0. generalize s0. clear s0.
  change (maintains buffer_wf
            (_reset_telemetry ;;
             now <- time_time ;;
             assign (fun o => with_tele (set_last_flush_time now (tele o)) o) ;;
             _reset_buffer ;; _start_flush_thread (_flush_interval c))).
  unfold _reset_telemetry.
  apply maintains_bind; [ | intros _ ].
  { apply maintains_bind; [ intros s H; exact H | intros now ].
    apply maintains_assign. intros o. apply buffer_wf_with_tele. }
  apply maintains_bind; [ intros s H; exact H | intros now ].
  apply maintains_bind; [ | intros _ ].
  { apply maintains_assign. intros o. apply buffer_wf_with_tele. }
  apply maintains_bind; [ apply _reset_buffer_wf | intros _ ].
  apply _start_flush_thread_wf.
Qed.

(** The invariant of the buffer.  [_current_buffer_total_size] is the sum,
    over the packets in [_buffer], of their lengths plus one: [__init__]
    makes it so, and sending on either path, flushing, opening and closing a
    batch, and toggling buffering (also when the toggle raises) keep it
    so. *)
Theorem buffer_size_is_sum_of_packets :
  (forall c d w, buffer_wf (self (snd (__init__ c d w))))
  /\ (forall packet, maintains buffer_wf (send packet))
  /\ (forall packet, maintains buffer_wf (_send_to_buffer packet))
  /\ (forall packet, maintains buffer_wf (_send_to_server packet))
  /\ maintains buffer_wf flush
  /\ (forall size, maintains buffer_wf (open_buffer size))
  /\ maintains buffer_wf close_buffer
  /\ (forall d, maintains buffer_wf (set_disable_buffering_property d)).
Proof.
  split; [ exact init_wf | ].
  split; [ exact send_wf | ].
  split; [ exact _send_to_buffer_wf | ].
  split; [ exact _send_to_server_wf | ].
  split; [ exact flush_wf | ].
  split; [ exact open_buffer_wf | ].
  split; [ exact close_buffer_wf | exact set_disable_buffering_property_wf ].
Qed.

Lemma buffer_size_is_sum_of_packets_witness :
  let s := buffered_client 12 (3 # 10) [] [] in
  let s1 := snd (send (u "a:1|c") s) in
  let s2 := snd (send (u "bb:22|g") s1) in
  buffer_wf (self s2)
  /\ buf (self s2) = {| _buffer := [u "bb:22|g"]; _current_buffer_total_size := 8 |}.
Proof.
  destruct buffer_size_is_sum_of_packets as (Hinit & Hsend & _).
  cbv zeta. split; [ | vm_compute; reflexivity ].
  apply Hsend, Hsend. unfold buffered_client. apply Hinit.
Defined.

(* ------------------------------------------------------------------ *)
(** ** Construction, the buffering toggle and batches *)

Lemma _start_flush_thread_spec q s :
  _start_flush_thread q s
  = (Return tt,
     if _disable_buffering (mode (self s))
        || Qle_bool (_flush_interval (cfg (self s))) MIN_FLUSH_INTERVAL
     then s
     else logged [ThreadStart q]
            (with_self
               (with_mode (set_flush_thread (attr_Thread q) (mode (self s))) (self s))
               s)).
Proof.
  unfold _start_flush_thread, bind, attr.
  destruct (_disable_buffering (mode (self s))
            || Qle_bool (_flush_interval (cfg (self s))) MIN_FLUSH_INTERVAL);
    reflexivity.
Qed.

(** The client [__init__] leaves behind.  The constructor returns; the
    counters are zero and [_last_flush_time] is its second reading of the
    clock; the buffer is empty; no socket exists and the network was not
    used (the connection is made by the first transmission); the send path
    is the direct one exactly when buffering is disabled; the flush thread
    is created and started exactly when buffering is enabled and the flush
    interval is above [MIN_FLUSH_INTERVAL], and otherwise the attribute
    [_flush_thread] does not exist. *)
Theorem init_leaves_a_fresh_client (c : Config) (d : bool) (w : World) :
  let r := __init__ c d w in
  let s := snd r in
  let threaded := negb d && negb (Qle_bool (_flush_interval c) MIN_FLUSH_INTERVAL) in
  fst r = Return tt
  /\ cfg (self s) = c
  /\ tele (self s)
     = {| metrics_count := 0; events_count := 0; service_checks_count := 0;
          bytes_sent := 0; bytes_dropped := 0;
          packets_sent := 0; packets_dropped := 0;
          _last_flush_time := hd 0%Q (tl (clock w)) |}
  /\ buf (self s) = {| _buffer := []; _current_buffer_total_size := 0 |}
  /\ conn (self s) = {| socket := None; telemetry_socket := None |}
  /\ mode (self s)
     = {| _disable_buffering := d;
          _send := if d then via_server else via_buffer;
          _flush_thread := if threaded then attr_Thread (_flush_interval c)
                           else attr_missing;
          _flush_thread_stop := false |}
  /\ net (world s) = net w
  /\ trace (world s)
     = trace w ++ [Acquire _buffer_lock; Release _buffer_lock]
       ++ (if threaded then [ThreadStart (_flush_interval c)] else []).
Proof.
  cbv zeta. unfold __init__, _reset_telemetry, _reset_buffer.
  unfold bind, with_lock, time_time, assign, emit.
  cbn -[Qle_bool _start_flush_thread].
  rewrite _start_flush_thread_spec. cbn -[Qle_bool].
  destruct d; cbn -[Qle_bool].
  - rewrite <- !app_assoc. repeat split.
  - destruct (Qle_bool (_flush_interval c) MIN_FLUSH_INTERVAL);
      cbn; rewrite <- ?app_assoc; repeat split.
Qed.

(** Assigning [disable_buffering] the value it has changes nothing and
    starts or stops no thread: the toggle lock is taken and released.  The
    getter answers the flag under the same lock. *)
Theorem buffering_toggle_same_value_is_noop (s : Sys) :
  set_disable_buffering_property (_disable_buffering (mode (self s))) s
  = (Return tt,
     logged [Acquire _buffering_toggle_lock; Release _buffering_toggle_lock] s)
  /\ get_disable_buffering s
     = (Return (_disable_buffering (mode (self s))),
        logged [Acquire _buffering_toggle_lock; Release _buffering_toggle_lock] s).
Proof.
  unfold set_disable_buffering_property, get_disable_buffering, with_lock,
    bind, attr.
  cbn. rewrite Bool.eqb_reflx. unfold logged. cbn.
  rewrite <- !app_assoc. split; reflexivity.
Qed.


Lemma flush_keeps_mode : keeps mode flush.
Proof. unfold flush, _reset_buffer. py_walk. Qed.

Lemma flush_keeps_cfg : keeps cfg flush.
Proof. unfold flush, _reset_buffer. py_walk. Qed.

Lemma flush_run s : flush s = (Return tt, snd (flush s)).
Proof.
  pose proof (flush_returns s) as H. destruct (flush s) as [r s1].
  cbn in *. subst r. reflexivity.
Qed.

Lemma flush_leaves_empty s :
  buffer_wf (self s) ->
  buf (self (snd (flush s))) = {| _buffer := []; _current_buffer_total_size := 0 |}
  /\ (_buffer (buf (self s)) = [] ->
      snd (flush s) = logged [Acquire _buffer_lock; Release _buffer_lock] s).
Proof.
  intros Hwf. rewrite flush_spec. split.
  - destruct s as [[c t [bl tot] k m] w]. unfold buffer_wf in Hwf. cbn in Hwf |- *.
    destruct bl as [|p rest]; [ cbn in Hwf; subst tot | ]; reflexivity.
  - intros ->. reflexivity.
Qed.

(** Disabling buffering while the flush thread runs.  The setter returns;
    under the toggle lock it assigns the flag and the direct send path, does
    one last [flush] of what is pending, sets the stop event, joins the
    thread, forgets it, and clears the event so that a thread can be started
    again; the buffer is left empty. *)
Theorem disabling_buffering_flushes_and_stops_the_thread (s : Sys) (q : Q) :
  _disable_buffering (mode (self s)) = false ->
  _flush_thread (mode (self s)) = attr_Thread q ->
  buffer_wf (self s) ->
  let flushed := snd (flush (toggled true s)) in
  let r := set_disable_buffering_property true s in
  fst r = Return tt
  /\ mode (self (snd r))
     = {| _disable_buffering := true; _send := via_server;
          _flush_thread := attr_None; _flush_thread_stop := false |}
  /\ buf (self (snd r)) = {| _buffer := []; _current_buffer_total_size := 0 |}
  /\ world (snd r)
     = world (logged [EventSet; ThreadJoin; EventClear;
                      Release _buffering_toggle_lock] flushed)
  /\ (_buffer (buf (self s)) = [] ->
      trace (world (snd r))
      = trace (world s)
        ++ [Acquire _buffering_toggle_lock;
            Acquire _buffer_lock; Release _buffer_lock;
            EventSet; ThreadJoin; EventClear;
            Release _buffering_toggle_lock]).
Proof.
  intros Hd Ht Hwf flushed r.
  assert (Hrun : r = (Return tt,
                      logged [EventSet; ThreadJoin; EventClear;
                              Release _buffering_toggle_lock]
                        (with_self
                           (with_mode
                              {| _disable_buffering := true; _send := via_server;
                                 _flush_thread := attr_None;
                                 _flush_thread_stop := false |}
                              (self flushed)) flushed))).
  { subst r. unfold set_disable_buffering_property, with_lock.
    rewrite emit_logged. unfold bind at 1. unfold attr at 1.
    cbn [logged self]. rewrite Hd. cbn [Bool.eqb].
    unfold bind at 1. unfold assign at 1. unfold bind at 1. unfold assign at 1.
    cbn [self world logged].
    unfold _stop_flush_thread. unfold bind at 1. unfold attr at 1.
    cbn [self mode with_mode set_send set_disable_buffering _flush_thread].
    rewrite Ht.
    assert (Hsame : {| self :=
                         with_mode
                           (set_send via_server
                              (set_disable_buffering true (mode (self s))))
                           (with_mode (set_disable_buffering true (mode (self s)))
                              (self s));
                       world := world (logged [Acquire _buffering_toggle_lock] s) |}
                    = toggled true s).
    { destruct s as [[c t b k [d sd th st]] w]. reflexivity. }
    cbn [logged world] in Hsame |- *. rewrite Hsame.
    unfold bind at 1. rewrite (flush_run (toggled true s)). fold flushed.
    pose proof (flush_keeps_mode (toggled true s)) as Hmode. fold flushed in Hmode.
    destruct flushed as [[c t b k m] [nt ck dc fd tr]].
    cbn in Hmode. subst m.
    destruct s as [[c0 t0 b0 k0 [d0 sd0 th0 st0]] w0].
    unfold bind, assign, emit, logged, with_self. cbn.
    rewrite <- !app_assoc. reflexivity. }
  destruct (flush_leaves_empty (toggled true s)) as [Hbuf Hnil].
  { destruct s as [[c t b k m] w]. exact Hwf. }
  fold flushed in Hbuf, Hnil.
  rewrite Hrun. cbn [fst snd].
  split; [ reflexivity | ].
  split; [ reflexivity | ].
  split; [ exact Hbuf | ].
  split; [ reflexivity | ].
  intros Hb. cbn [logged with_self world trace].
  rewrite Hnil by (destruct s as [[c t b k m] w]; exact Hb).
  destruct s as [[c t b k m] [nt ck dc fd tr]]. cbn.
  rewrite <- !app_assoc. reflexivity.
Qed.

Lemma disabling_buffering_flushes_and_stops_the_thread_witness :
  let s := snd (send (u "a:1|c") (buffered_client 100 (3 # 10) [] [])) in
  let k := {| fd := 3; peer := UDP (Some (u "localhost")) (Some 8125) |} in
  let r := set_disable_buffering_property true s in
  _buffer (buf (self s)) = [u "a:1|c"]
  /\ fst r = Return tt
  /\ buf (self (snd r)) = {| _buffer := []; _current_buffer_total_size := 0 |}
  /\ trace (world (snd r))
     = trace (world s)
       ++ [Acquire _buffering_toggle_lock; Acquire _buffer_lock;
           Acquire _socket_lock; Connect (peer k) None; Release _socket_lock;
           Send k (u "a:1|c" ++ [LF]) None;
           Acquire _buffer_lock; Release _buffer_lock; Release _buffer_lock;
           EventSet; ThreadJoin; EventClear; Release _buffering_toggle_lock].
Proof.
  pose proof (disabling_buffering_flushes_and_stops_the_thread
                (snd (send (u "a:1|c") (buffered_client 100 (3 # 10) [] [])))
                (3 # 10) eq_refl eq_refl eq_refl) as H.
  cbv zeta in H. destruct H as (H1 & _ & H3 & H4 & _).
  cbv zeta. split; [ reflexivity | ].
  split; [ exact H1 | ]. split; [ exact H3 | ].
  rewrite H4. vm_compute. reflexivity.
Defined.

(** Disabling buffering when no flush thread was ever started.  The
    attribute [_flush_thread] is first assigned by [_start_flush_thread]
    when it starts a thread; a client built with buffering enabled and a
    flush interval of at most [MIN_FLUSH_INTERVAL] has no such attribute,
    and assigning [disable_buffering = True] raises [AttributeError] from
    [_stop_flush_thread].  By then the flag and the send path have been
    assigned; what is pending in the buffer is neither sent nor removed; the
    toggle lock is released. *)
Theorem disabling_buffering_without_thread_raises (s : Sys) :
  _disable_buffering (mode (self s)) = false ->
  _flush_thread (mode (self s)) = attr_missing ->
  let r := set_disable_buffering_property true s in
  fst r = Raise (AttributeError (u "_flush_thread"))
  /\ mode (self (snd r))
     = {| _disable_buffering := true; _send := via_server;
          _flush_thread := attr_missing;
          _flush_thread_stop := _flush_thread_stop (mode (self s)) |}
  /\ (cfg (self (snd r)), tele (self (snd r)), buf (self (snd r)), conn (self (snd r)))
     = (cfg (self s), tele (self s), buf (self s), conn (self s))
  /\ net (world (snd r)) = net (world s)
  /\ trace (world (snd r))
     = trace (world s)
       ++ [Acquire _buffering_toggle_lock; Release _buffering_toggle_lock].
Proof.
  intros Hd Ht r. subst r.
  destruct s as [[c t b k [d sd th st]] [nt ck dc fd tr]].
  cbn in Hd, Ht. subst d th.
  unfold set_disable_buffering_property, _stop_flush_thread, with_lock, bind,
    attr, assign, emit, raise.
  cbn. rewrite <- app_assoc. repeat split.
Qed.

Lemma disabling_buffering_without_thread_raises_witness :
  let s := snd (send (u "a:1|c") (buffered_client 100 0 [] [])) in
  let r := set_disable_buffering_property true s in
  fst r = Raise (AttributeError (u "_flush_thread"))
  /\ _buffer (buf (self (snd r))) = [u "a:1|c"]
  /\ _send (mode (self (snd r))) = via_server.
Proof.
  pose proof (disabling_buffering_without_thread_raises
                (snd (send (u "a:1|c") (buffered_client 100 0 [] [])))
                eq_refl eq_refl) as H.
  cbv zeta in H. destruct H as (H1 & H2 & H3 & _).
  cbv zeta. split; [ exact H1 | ].
  split; [ | rewrite H2; reflexivity ].
  pose proof (f_equal (fun p => snd (fst p)) H3) as Hb. cbn [fst snd] in Hb.
  rewrite Hb. reflexivity.
Defined.

(** Enabling buffering.  The setter returns; under the toggle lock it
    assigns the flag and the buffered send path and starts a flush thread
    exactly when [_flush_interval] is above [MIN_FLUSH_INTERVAL].  Nothing
    is sent, and the buffer keeps whatever it held. *)
Theorem enabling_buffering_starts_the_thread (s : Sys) :
  _disable_buffering (mode (self s)) = true ->
  let q := _flush_interval (cfg (self s)) in
  let threaded := negb (Qle_bool q MIN_FLUSH_INTERVAL) in
  let r := set_disable_buffering_property false s in
  fst r = Return tt
  /\ mode (self (snd r))
     = {| _disable_buffering := false; _send := via_buffer;
          _flush_thread := if threaded then attr_Thread q
                           else _flush_thread (mode (self s));
          _flush_thread_stop := _flush_thread_stop (mode (self s)) |}
  /\ (cfg (self (snd r)), tele (self (snd r)), buf (self (snd r)), conn (self (snd r)))
     = (cfg (self s), tele (self s), buf (self s), conn (self s))
  /\ net (world (snd r)) = net (world s)
  /\ trace (world (snd r))
     = trace (world s)
       ++ [Acquire _buffering_toggle_lock]
       ++ (if threaded then [ThreadStart q] else [])
       ++ [Release _buffering_toggle_lock].
Proof.
  intros Hd q threaded r. subst r threaded q.
  destruct s as [[c t b k [d sd th st]] [nt ck dc fd tr]].
  cbn in Hd. subst d.
  unfold set_disable_buffering_property, with_lock. rewrite emit_logged.
  unfold bind at 1. unfold attr at 1. cbn [logged self mode _disable_buffering Bool.eqb].
  unfold bind at 1. unfold assign at 1. unfold bind at 1. unfold assign at 1.
  unfold bind at 1. unfold attr at 1.
  rewrite _start_flush_thread_spec.
  cbn -[Qle_bool].
  destruct (Qle_bool (_flush_interval c) MIN_FLUSH_INTERVAL);
    cbn; rewrite <- ?app_assoc; repeat split.
Qed.

Lemma enabling_buffering_starts_the_thread_witness :
  let s := direct_client [] [] in
  let r := set_disable_buffering_property false s in
  fst r = Return tt
  /\ _flush_thread (mode (self (snd r))) = attr_Thread (3 # 10)
  /\ _send (mode (self (snd r))) = via_buffer.
Proof.
  pose proof (enabling_buffering_starts_the_thread (direct_client [] []) eq_refl)
    as H.
  cbv zeta in H. destruct H as (H1 & H2 & _).
  cbv zeta. split; [ exact H1 | ]. rewrite H2. split; reflexivity.
Defined.

(* ------------------------------------------------------------------ *)
(** ** Batches *)

Lemma open_buffer_spec size s : open_buffer size s = (Return tt, opened s).
Proof.
  unfold open_buffer, opened. unfold bind at 1. rewrite emit_logged.
  unfold bind, assign. cbn [logged self world].
  rewrite _reset_buffer_spec.
  destruct s as [[c t b k m] [nt ck dc fd tr]].
  unfold logged, emptied, with_self. cbn. rewrite <- !app_assoc. reflexivity.
Qed.

Lemma close_buffer_spec s :
  close_buffer s
  = (Return tt,
     let f := snd (flush s) in
     logged [Release _buffering_toggle_lock]
       (if _disable_buffering (mode (self s))
        then with_self (with_mode (set_send via_server (mode (self f))) (self f)) f
        else f)).
Proof.
  unfold close_buffer, try_finally. rewrite (flush_run s). cbv zeta.
  pose proof (flush_keeps_mode s) as Hmode.
  set (f := snd (flush s)) in *.
  unfold bind at 1. unfold attr at 1. rewrite Hmode.
  destruct (_disable_buffering (mode (self s))); reflexivity.
Qed.

(** A batch under [with].  On a client with buffering disabled, the
    packets submitted inside the block - when their sizes, length plus one
    each, fit in [_max_payload_size] - are only buffered while the block
    runs; leaving the block hands them all, joined by newlines, to
    [_send_to_server] as one payload, empties the buffer, sets the send path
    back to the direct one and releases the toggle lock taken on entry. *)
Theorem batch_leaves_as_one_payload_on_exit (s : Sys) (packets : list str) :
  _disable_buffering (mode (self s)) = true ->
  packets <> [] ->
  encoded_size packets <= _max_payload_size (cfg (self s)) ->
  let filled := snd (send_all packets (opened s)) in
  let r := with_statement (send_all packets) s in
  buf (self filled)
  = {| _buffer := packets; _current_buffer_total_size := encoded_size packets |}
  /\ world filled = world (logged (append_locks (List.length packets)) (opened s))
  /\ fst r = Return tt
  /\ _send (mode (self (snd r))) = via_server
  /\ buf (self (snd r)) = {| _buffer := []; _current_buffer_total_size := 0 |}
  /\ world (snd r)
     = world (logged [Acquire _buffer_lock; Release _buffer_lock;
                      Release _buffer_lock; Release _buffering_toggle_lock]
                (snd (_send_to_server (join [LF] packets)
                        (logged [Acquire _buffer_lock] filled)))).
Proof.
  intros Hd Hne Hfit filled r.
  assert (Hfill : send_all packets (opened s)
                  = (Return tt,
                     logged (append_locks (List.length packets))
                       (with_self
                          (with_buf
                             {| _buffer := packets;
                                _current_buffer_total_size := encoded_size packets |}
                             (self (opened s))) (opened s)))).
  { rewrite send_all_into_buffer.
    - destruct s as [[c t b k m] w]. reflexivity.
    - destruct s as [[c t b k m] w]. reflexivity.
    - destruct s as [[c t b k m] w]. exact Hfit. }
  assert (Hfilled : filled
                    = logged (append_locks (List.length packets))
                        (with_self
                           (with_buf
                              {| _buffer := packets;
                                 _current_buffer_total_size := encoded_size packets |}
                              (self (opened s))) (opened s)))
    by (subst filled; rewrite Hfill; reflexivity).
  assert (Hflag : _disable_buffering (mode (self filled)) = true)
    by (rewrite Hfilled; destruct s as [[c t b k m] w]; exact Hd).
  assert (Hbuf : _buffer (buf (self filled)) = packets)
    by (rewrite Hfilled; reflexivity).
  assert (Hrun : r = (Return tt,
                      logged [Release _buffering_toggle_lock]
                        (with_self
                           (with_mode
                              (set_send via_server (mode (self (snd (flush filled)))))
                              (self (snd (flush filled))))
                           (snd (flush filled))))).
  { subst r. unfold with_statement, __enter__, __exit__.
    unfold bind at 1. rewrite open_buffer_spec.
    unfold try_finally. fold filled. rewrite Hfill. fold filled.
    rewrite <- Hfilled. rewrite close_buffer_spec. cbv zeta. rewrite Hflag.
    reflexivity. }
  split; [ rewrite Hfilled; reflexivity | ].
  split; [ rewrite Hfilled; reflexivity | ].
  rewrite Hrun. cbn [fst snd].
  split; [ reflexivity | ].
  split; [ reflexivity | ].
  rewrite flush_spec, Hbuf.
  destruct packets as [|p rest]; [ congruence | ].
  cbv zeta. cbn [snd]. split; [ reflexivity | ].
  cbn [logged with_self emptied world self net clock dice next_fd trace].
  rewrite <- !app_assoc. reflexivity.
Qed.

Lemma batch_leaves_as_one_payload_on_exit_witness :
  let s := direct_client [] [] in
  let k := {| fd := 3; peer := UDP (Some (u "localhost")) (Some 8125) |} in
  let r := with_statement (send_all [u "a:1|c"; u "b:2|g"]) s in
  fst r = Return tt
  /\ trace (world (snd r))
     = trace (world s)
       ++ [Acquire _buffering_toggle_lock; Acquire _buffer_lock; Release _buffer_lock;
           Acquire _buffer_lock; Release _buffer_lock;
           Acquire _buffer_lock; Release _buffer_lock;
           Acquire _buffer_lock;
           Acquire _socket_lock; Connect (peer k) None; Release _socket_lock;
           Send k (u "a:1|c" ++ [LF] ++ u "b:2|g" ++ [LF]) None;
           Acquire _buffer_lock; Release _buffer_lock; Release _buffer_lock;
           Release _buffering_toggle_lock].
Proof.
  assert (Hne : [u "a:1|c"; u "b:2|g"] <> []) by discriminate.
  assert (Hfit : encoded_size [u "a:1|c"; u "b:2|g"]
                 <= _max_payload_size (cfg (self (direct_client [] []))))
    by (vm_compute; discriminate).
  pose proof (batch_leaves_as_one_payload_on_exit (direct_client [] [])
                [u "a:1|c"; u "b:2|g"] eq_refl Hne Hfit) as H.
  cbv zeta in H. destruct H as (_ & _ & H3 & _ & _ & H6).
  cbv zeta. split; [ exact H3 | ]. rewrite H6. vm_compute. reflexivity.
Defined.

(** Entering a batch throws away what is pending.  [open_buffer] resets
    the buffer without sending it, so a [with] block in which nothing is
    submitted sends nothing, whatever the buffer held before: the locks are
    taken and released, the buffer is empty afterwards, and the send path
    is the direct one when buffering is disabled and the buffered one
    otherwise. *)
Theorem entering_a_batch_discards_pending_packets (s : Sys) :
  let r := with_statement (ret tt) s in
  let s' := snd r in
  fst r = Return tt
  /\ buf (self s') = {| _buffer := []; _current_buffer_total_size := 0 |}
  /\ _send (mode (self s'))
     = (if _disable_buffering (mode (self s)) then via_server else via_buffer)
  /\ net (world s') = net (world s)
  /\ trace (world s')
     = trace (world s)
       ++ [Acquire _buffering_toggle_lock; Acquire _buffer_lock; Release _buffer_lock;
           Acquire _buffer_lock; Release _buffer_lock;
           Release _buffering_toggle_lock].
Proof.
  cbv zeta. unfold with_statement, __enter__, __exit__.
  unfold bind at 1. rewrite open_buffer_spec.
  unfold try_finally, ret. rewrite close_buffer_spec. cbv zeta.
  rewrite flush_spec.
  destruct s as [[c t b k [d sd th st]] [nt ck dc fd tr]].
  cbn. destruct d; cbn; rewrite <- !app_assoc; repeat split.
Qed.

(* ------------------------------------------------------------------ *)
(** ** Metrics *)

(** The packet of a metric.  It is, in this order: the namespace and a
    dot when there is a namespace; name, colon, value, bar, type; ["|@"]
    and the sample rate exactly when the rate is not 1 (a rate of [1.0] is
    1); ["|#"] and the normalised tags, joined by commas, when there are
    tags; ["|c:"] and the container id when there is one.  With a rate of
    1 and none of the optional parts the packet is exactly
    ["<name>:<value>|<type>"].  When the caller gives tags and the client
    has constant tags, the list that is normalised is the caller's tags
    followed by the constant tags; a normalisation that works tag by tag
    keeps that order in the packet. *)
Theorem serialize_metric_format
    (normalize_tags : list str -> list str) (o : DogStatsd)
    (metric metric_type : str) (value : pyvalue)
    (tags : option (list str)) (sample_rate : pynum) :
  let packet := _serialize_metric normalize_tags o metric metric_type value in
  let plain := metric ++ u ":" ++ fmt_s value ++ u "|" ++ metric_type in
  let front :=
    match namespace (cfg o) with
    | Some (c :: ns) => (c :: ns) ++ u "."
    | _ => []
    end in
  let rate_part r := if num_ne_1 r then u "|@" ++ text r else [] in
  let tags_part l :=
    match l with
    | Some (t :: ts) => u "|#" ++ join (u ",") (normalize_tags (t :: ts))
    | _ => []
    end in
  let back :=
    match _container_id (cfg o) with
    | Some (c :: cid) => u "|c:" ++ c :: cid
    | _ => []
    end in
  packet tags sample_rate
  = front ++ plain ++ rate_part sample_rate ++ tags_part tags ++ back
  /\ (num_ne_1 sample_rate = false <-> (num_value sample_rate == 1)%Q)
  /\ (num_ne_1 sample_rate = false ->
      truthy_tags tags = false ->
      truthy_opt (namespace (cfg o)) = false ->
      truthy_opt (_container_id (cfg o)) = false ->
      packet tags sample_rate = plain)
  /\ (forall caller,
        caller <> [] -> constant_tags (cfg o) <> [] ->
        _add_constant_tags o (Some caller)
        = Some (caller ++ constant_tags (cfg o))
        /\ forall f,
             (forall l, normalize_tags l = map f l) ->
             packet (_add_constant_tags o (Some caller)) sample_rate
             = front ++ plain ++ rate_part sample_rate
               ++ (u "|#"
                     ++ join (u ",") (map f caller ++ map f (constant_tags (cfg o))))
               ++ back).
Proof.
  intros packet plain front rate_part tags_part back.
  assert (Hform : forall l r,
             packet l r = front ++ plain ++ rate_part r ++ tags_part l ++ back).
  { intros l r. subst packet plain front rate_part tags_part back.
    unfold _serialize_metric.
    destruct (namespace (cfg o)) as [[|c ns]|];
      destruct (_container_id (cfg o)) as [[|d cid]|];
      destruct l as [[|t ts]|]; cbn [truthy_opt truthy_str truthy_tags];
      rewrite <- ?app_assoc; reflexivity. }
  split; [ apply Hform | ].
  split.
  { unfold num_ne_1. rewrite negb_false_iff. apply Qeq_bool_iff. }
  split.
  { intros Hrate Htags Hns Hcid. rewrite Hform.
    subst front rate_part tags_part back. cbv beta. rewrite Hrate.
    destruct (namespace (cfg o)) as [[|c ns]|]; try discriminate;
      destruct (_container_id (cfg o)) as [[|d cid]|]; try discriminate;
      destruct tags as [[|t ts]|]; try discriminate;
      cbn [app]; rewrite ?app_nil_r; reflexivity. }
  intros caller Hcaller Hconst.
  assert (Hadd : _add_constant_tags o (Some caller)
                 = Some (caller ++ constant_tags (cfg o))).
  { unfold _add_constant_tags.
    destruct (constant_tags (cfg o)) as [|c cs]; [ congruence | ].
    destruct caller as [|t ts]; [ congruence | reflexivity ]. }
  split; [ exact Hadd | ].
  intros f Hf. rewrite Hform, Hadd. subst tags_part. cbv beta.
  destruct caller as [|t ts]; [ congruence | ].
  cbn [app]. rewrite Hf. cbn [map app].
  rewrite map_app. reflexivity.
Qed.

Lemma serialize_metric_format_witness :
  let o := self (tagged_client None [u "env:prod"] None []) in
  _serialize_metric (fun l => l) o (u "users.online") (u "g")
    (VNum (PyInt 123)) None (PyInt 1)
  = u "users.online:123|g"
  /\ _serialize_metric (fun l => l) o (u "users.online") (u "g")
       (VNum (PyInt 123)) (_add_constant_tags o (Some [u "a:b"]))
       (PyFloat (1 # 2) (u "0.5"))
     = u "users.online:123|g|@0.5|#a:b,env:prod".
Proof.
  pose proof (serialize_metric_format (fun l => l)
                (self (tagged_client None [u "env:prod"] None []))
                (u "users.online") (u "g") (VNum (PyInt 123)) None (PyInt 1))
    as H.
  cbv zeta in H. destruct H as (_ & _ & H3 & _).
  pose proof (serialize_metric_format (fun l => l)
                (self (tagged_client None [u "env:prod"] None []))
                (u "users.online") (u "g") (VNum (PyInt 123)) None
                (PyFloat (1 # 2) (u "0.5"))) as H'.
  cbv zeta in H'. destruct H' as (_ & _ & _ & H4).
  assert (Hc : [u "a:b"] <> []) by discriminate.
  assert (Hk : constant_tags
                 (cfg (self (tagged_client None [u "env:prod"] None []))) <> [])
    by discriminate.
  destruct (H4 [u "a:b"] Hc Hk) as [_ H5].
  cbv zeta. split.
  - apply H3; reflexivity.
  - rewrite (H5 (fun t => t)); [ reflexivity | ].
    intros l. symmetry. apply map_id.
Defined.

Section Reports.

Variable normalize_tags : list str -> list str.

(** Reports that do nothing.  With a value of [None], each of the seven
    reporting methods returns at once: the client and its surroundings are
    exactly as before, so nothing is serialised, buffered, sent, counted or
    drawn.  The same holds for any value on a client that is not enabled:
    not even [metrics_count] moves. *)
Theorem reports_that_do_nothing (s : Sys) (metric : str)
    (tags : option (list str)) (sample_rate : option pynum) :
  (gauge normalize_tags metric None tags sample_rate s = (Return tt, s)
   /\ increment normalize_tags metric None tags sample_rate s = (Return tt, s)
   /\ decrement normalize_tags metric None tags sample_rate s = (Return tt, s)
   /\ histogram normalize_tags metric None tags sample_rate s = (Return tt, s)
   /\ distribution normalize_tags metric None tags sample_rate s = (Return tt, s)
   /\ timing normalize_tags metric None tags sample_rate s = (Return tt, s)
   /\ set normalize_tags metric None tags sample_rate s = (Return tt, s))
  /\ (_enabled (cfg (self s)) = false ->
      forall value n,
        gauge normalize_tags metric value tags sample_rate s = (Return tt, s)
        /\ increment normalize_tags metric value tags sample_rate s = (Return tt, s)
        /\ decrement normalize_tags metric n tags sample_rate s = (Return tt, s)
        /\ histogram normalize_tags metric value tags sample_rate s = (Return tt, s)
        /\ distribution normalize_tags metric value tags sample_rate s = (Return tt, s)
        /\ timing normalize_tags metric value tags sample_rate s = (Return tt, s)
        /\ set normalize_tags metric value tags sample_rate s = (Return tt, s)).
Proof.
  split; [ repeat split | ].
  intros Hoff value n.
  assert (H : forall metric_type v,
             _report normalize_tags metric metric_type v tags sample_rate s
             = (Return tt, s)).
  { intros metric_type [v|]; [ | reflexivity ].
    unfold _report, bind, attr. rewrite Hoff. reflexivity. }
  unfold gauge, increment, decrement, histogram, distribution, timing, set.
  repeat split; apply H.
Qed.

(** [metrics_count] counts submitted metrics.  On an enabled client a
    report with a value is counted (when telemetry is on) before the
    sampling decision.  With a rate of 1 no random number is drawn and the
    packet goes to the send path.  With another rate one number is drawn:
    when it is above the rate the call returns with the metric counted and
    nothing serialised, buffered or sent; otherwise the packet goes to the
    send path.  The rate is the argument, or [default_sample_rate] when the
    argument is [None]; the tags are the caller's followed by the constant
    ones. *)
Theorem report_counts_before_sampling (s : Sys) (metric metric_type : str)
    (v : pyvalue) (tags : option (list str)) (sample_rate : option pynum) :
  _enabled (cfg (self s)) = true ->
  let rate :=
    match sample_rate with
    | Some r => r
    | None => default_sample_rate (cfg (self s))
    end in
  let counted :=
    if _telemetry (cfg (self s)) then snd (incr_metrics_count s) else s in
  let drawn := snd (random counted) in
  let payload :=
    _serialize_metric normalize_tags (self counted) metric metric_type v
      (_add_constant_tags (self s) tags) rate in
  let r := _report normalize_tags metric metric_type (Some v) tags sample_rate s in
  (metrics_count (tele (self counted))
   = metrics_count (tele (self s)) + (if _telemetry (cfg (self s)) then 1 else 0)
   /\ buf (self counted) = buf (self s) /\ world counted = world s)
  /\ (self drawn = self counted
      /\ dice (world drawn) = tl (dice (world s))
      /\ net (world drawn) = net (world s)
      /\ trace (world drawn) = trace (world s))
  /\ (num_ne_1 rate = false -> r = send payload counted)
  /\ (num_ne_1 rate = true ->
      r = if Qlt_bool (num_value rate) (hd 0%Q (dice (world s)))
          then (Return tt, drawn)
          else send payload drawn).
Proof.
  intros Hon rate counted drawn payload r.
  split.
  { subst counted. destruct s as [[c t b k m] w]. cbn.
    destruct (_telemetry c); cbn; rewrite ?Z.add_0_r; repeat split. }
  split.
  { subst drawn counted. destruct s as [[c t b k m] w]. cbn.
    destruct (_telemetry c); repeat split. }
  assert (Hrun : r = (if num_ne_1 rate
                      then if Qlt_bool (num_value rate) (hd 0%Q (dice (world s)))
                           then (Return tt, drawn)
                           else send payload drawn
                      else send payload counted)).
  { subst r payload drawn counted rate. unfold _report.
    unfold bind at 1. unfold attr at 1. rewrite Hon. cbn [negb].
    unfold bind at 1. unfold attr at 1.
    destruct s as [[c t b k m] w]. cbn [self cfg].
    destruct (_telemetry c).
    - unfold bind at 1. unfold incr_metrics_count at 1. unfold assign at 1.
      cbn [self world cfg tele].
      unfold bind at 1. unfold attr at 1. cbn [self cfg with_tele].
      destruct (num_ne_1 _) eqn:Hrate.
      + unfold bind at 1. unfold bind at 1. unfold random at 1. cbn [fst snd].
        unfold ret at 1. cbn [world dice self].
        destruct (Qlt_bool _ _); reflexivity.
      + unfold bind at 1. unfold ret at 1. reflexivity.
    - unfold bind at 1. unfold ret at 1.
      unfold bind at 1. unfold attr at 1. cbn [self cfg].
      destruct (num_ne_1 _) eqn:Hrate.
      + unfold bind at 1. unfold bind at 1. unfold random at 1. cbn [fst snd].
        unfold ret at 1. cbn [world dice self].
        destruct (Qlt_bool _ _); reflexivity.
      + unfold bind at 1. unfold ret at 1. reflexivity. }
  split; intros Hrate; rewrite Hrun, Hrate; reflexivity.
Qed.

End Reports.

Lemma report_counts_before_sampling_witness :
  let s := {| self := self (direct_client [] []);
              world := {| net := []; clock := []; dice := [9 # 10]%Q;
                          next_fd := 3; trace := [] |} |} in
  let r := gauge (fun l => l) (u "users.online") (Some (VNum (PyInt 123))) None
             (Some (PyFloat (1 # 2) (u "0.5"))) s in
  fst r = Return tt
  /\ metrics_count (tele (self (snd r))) = 1
  /\ trace (world (snd r)) = []
  /\ dice (world (snd r)) = [].
Proof.
  pose proof (report_counts_before_sampling (fun l => l)
                {| self := self (direct_client [] []);
                   world := {| net := []; clock := []; dice := [9 # 10]%Q;
                               next_fd := 3; trace := [] |} |}
                (u "users.online") (u "g") (VNum (PyInt 123)) None
                (Some (PyFloat (1 # 2) (u "0.5"))) eq_refl) as H.
  cbv zeta in H. destruct H as (_ & _ & _ & H4).
  cbv zeta. unfold gauge. rewrite (H4 eq_refl).
  repeat split.
Defined.

Lemma reports_that_do_nothing_witness :
  gauge (fun l => l) (u "users.online") (Some (VNum (PyInt 123))) None None
    disabled_client
  = (Return tt, disabled_client)
  /\ decrement (fun l => l) (u "files.remaining") (Some (PyInt 1)) None None
       disabled_client
     = (Return tt, disabled_client).
Proof.
  destruct (reports_that_do_nothing (fun l => l) disabled_client
              (u "users.online") None None) as [_ H].
  destruct (H eq_refl (Some (VNum (PyInt 123))) (Some (PyInt 1)))
    as (H1 & _).
  destruct (reports_that_do_nothing (fun l => l) disabled_client
              (u "files.remaining") None None) as [_ H'].
  destruct (H' eq_refl (Some (VNum (PyInt 123))) (Some (PyInt 1)))
    as (_ & _ & H3 & _).
  split; [ exact H1 | exact H3 ].
Defined.

Lemma Qeq_bool_inject_Z_0 z : z <> 0 -> Qeq_bool (inject_Z z) 0 = false.
Proof.
  intros Hz. unfold Qeq_bool, inject_Z. cbn.
  apply Z.eqb_neq. lia.
Qed.

(** [decrement] is [increment] of the opposite.  A value that is not zero
    is reported negated, under the counter type; zero is reported as it is;
    for an integer the text in the packet is that of the negated integer. *)
Theorem decrement_reports_the_opposite
    (normalize_tags : list str -> list str) (metric : str) (n : pynum)
    (tags : option (list str)) (sample_rate : option pynum) :
  (truthy_num n = true ->
   decrement normalize_tags metric (Some n) tags sample_rate
   = increment normalize_tags metric (Some (VNum (neg_num n))) tags sample_rate)
  /\ (truthy_num n = false ->
      decrement normalize_tags metric (Some n) tags sample_rate
      = increment normalize_tags metric (Some (VNum n)) tags sample_rate)
  /\ (forall z, n = PyInt z ->
      decrement normalize_tags metric (Some n) tags sample_rate
      = increment normalize_tags metric (Some (VNum (PyInt (- z)))) tags sample_rate
      /\ fmt_s (VNum (PyInt (- z))) = str_of_Z (- z)).
Proof.
  unfold decrement, increment.
  split; [ intros ->; reflexivity | ].
  split; [ intros ->; reflexivity | ].
  intros z ->. split; [ | reflexivity ].
  destruct (Z.eq_dec z 0) as [-> | Hz]; [ reflexivity | ].
  unfold truthy_num. cbn [num_value]. rewrite (Qeq_bool_inject_Z_0 z Hz).
  reflexivity.
Qed.

Lemma decrement_reports_the_opposite_witness :
  let s := direct_client [] [] in
  let k := {| fd := 3; peer := UDP (Some (u "localhost")) (Some 8125) |} in
  trace (world (snd (decrement (fun l => l) (u "active.connections")
                       (Some (PyInt 2)) None None s)))
  = trace (world s)
    ++ [Acquire _socket_lock; Connect (peer k) None; Release _socket_lock;
        Send k (u "active.connections:-2|c" ++ [LF]) None].
Proof.
  destruct (decrement_reports_the_opposite (fun l => l) (u "active.connections")
              (PyInt 2) None None) as (_ & _ & H).
  destruct (H 2 eq_refl) as [H1 _].
  cbv zeta. rewrite H1. vm_compute. reflexivity.
Defined.

(* ------------------------------------------------------------------ *)
(** ** What the public operations can raise *)

Lemma _send_to_buffer_returns packet : returns (_send_to_buffer packet).
Proof. intros s. exists tt. rewrite _send_to_buffer_eq. reflexivity. Qed.

Lemma send_returns packet : returns (send packet).
Proof.
  unfold send. apply returns_bind; [ apply returns_attr | intros [|] ];
    [ apply _send_to_buffer_returns | apply _send_to_server_returns ].
Qed.

Lemma _report_returns normalize_tags metric metric_type value tags sample_rate :
  returns (_report normalize_tags metric metric_type value tags sample_rate).
Proof.
  unfold _report. destruct value as [v|]; [ | apply returns_ret ].
  apply returns_bind; [ apply returns_attr | intros enabled ].
  destruct (negb enabled); [ apply returns_ret | ].
  apply returns_bind; [ apply returns_attr | intros tel ].
  apply returns_bind;
    [ destruct tel; [ apply returns_assign | apply returns_ret ] | intros _ ].
  apply returns_bind; [ apply returns_attr | intros dflt ].
  apply returns_bind.
  - destruct (num_ne_1 _); [ | apply returns_ret ].
    apply returns_bind; [ apply returns_random | intros draw; apply returns_ret ].
  - intros [|]; [ apply returns_ret | ].
    apply returns_bind; [ apply returns_attr | intros o; apply send_returns ].
Qed.

Lemma service_check_returns check_name status tags timestamp hostname message :
  returns (service_check check_name status tags timestamp hostname message).
Proof.
  unfold service_check.
  apply returns_bind; [ apply returns_attr | intros o ].
  apply returns_bind; [ apply returns_attr | intros tel ].
  apply returns_bind;
    [ destruct tel; [ apply returns_assign | apply returns_ret ] | intros _ ].
  apply send_returns.
Qed.

Lemma unit_outcome (r : outcome unit) : (exists a, r = Return a) -> r = Return tt.
Proof. intros [[] H]. exact H. Qed.

(** No failure of the transport reaches the caller.  Whatever the network
    does - whichever exceptions [connect] and [send] raise, in whatever
    order - reporting a metric, a service check, flushing and sending
    return normally; [event] either returns normally or raises [ValueError]
    for an oversized payload, and then leaves everything as it was. *)
Theorem transport_failures_never_reach_the_caller
    (normalize_tags : list str -> list str) (s : Sys) :
  (forall metric metric_type value tags sample_rate,
     fst (_report normalize_tags metric metric_type value tags sample_rate s)
     = Return tt)
  /\ (forall metric value n tags sample_rate,
        fst (gauge normalize_tags metric value tags sample_rate s) = Return tt
        /\ fst (increment normalize_tags metric value tags sample_rate s) = Return tt
        /\ fst (decrement normalize_tags metric n tags sample_rate s) = Return tt
        /\ fst (histogram normalize_tags metric value tags sample_rate s) = Return tt
        /\ fst (distribution normalize_tags metric value tags sample_rate s) = Return tt
        /\ fst (timing normalize_tags metric value tags sample_rate s) = Return tt
        /\ fst (set normalize_tags metric value tags sample_rate s) = Return tt)
  /\ (forall check_name status tags timestamp hostname message,
        fst (service_check check_name status tags timestamp hostname message s)
        = Return tt)
  /\ (forall title message alert_type aggregation_key source_type_name
             date_happened priority tags hostname,
        let r := event title message alert_type aggregation_key source_type_name
                   date_happened priority tags hostname s in
        fst r = Return tt \/ exists msg, r = (Raise (ValueError msg), s))
  /\ (forall packet, fst (send packet s) = Return tt)
  /\ fst (flush s) = Return tt.
Proof.
  assert (Hreport : forall metric metric_type value tags sample_rate,
             fst (_report normalize_tags metric metric_type value tags sample_rate s)
             = Return tt).
  { intros. apply unit_outcome, _report_returns. }
  split; [ exact Hreport | ].
  split.
  { intros. unfold gauge, increment, decrement, histogram, distribution, timing, set.
    repeat split; apply Hreport. }
  split.
  { intros. apply unit_outcome, service_check_returns. }
  split.
  { intros. subst r.
    set (payload := event_payload (self s) title message alert_type
                      aggregation_key source_type_name date_happened
                      priority tags hostname).
    assert (Hev : event title message alert_type aggregation_key
                    source_type_name date_happened priority tags hostname s
                  = (if 8 * 1024 <? len payload
                     then raise
                            (ValueError
                               (u "Event " ++ [QUOTE] ++ _escape_event_content title
                                  ++ [QUOTE]
                                  ++ u " payload is too big (>=8KB). Event discarded"))
                     else
                       tel <- attr (fun o => _telemetry (cfg o)) ;;
                       (if tel then incr_events_count else ret tt) ;;
                       send payload) s)
      by reflexivity.
    rewrite Hev. destruct (8 * 1024 <? len payload).
    - right. eexists. reflexivity.
    - left. apply unit_outcome.
      assert (H : returns
                    (tel <- attr (fun o => _telemetry (cfg o)) ;;
                     (if tel then incr_events_count else ret tt) ;;
                     send payload)).
      { apply returns_bind; [ apply returns_attr | intros tel ].
        apply returns_bind;
          [ destruct tel; [ apply returns_assign | apply returns_ret ] | intros _ ].
        apply send_returns. }
      apply H. }
  split.
  { intros. apply unit_outcome, send_returns. }
  apply flush_returns.
Qed.

(* ------------------------------------------------------------------ *)
(** ** Events *)

Lemma len_app (a b : str) : len (a ++ b) = len a + len b.
Proof. unfold len. rewrite length_app. lia. Qed.

Lemma len_nonneg (a : str) : 0 <= len a.
Proof. unfold len. lia. Qed.

Lemma opt_field_len key v s : len s <= len (opt_field key v s).
Proof.
  unfold opt_field. destruct (truthy_opt v), v as [x|]; try lia.
  rewrite !len_app. pose proof (len_nonneg key). pose proof (len_nonneg x). lia.
Qed.

Lemma opt_int_field_len key v s : len s <= len (opt_int_field key v s).
Proof.
  unfold opt_int_field. destruct v as [n|]; [ destruct (n =? 0) | ]; try lia.
  rewrite !len_app. pose proof (len_nonneg key).
  pose proof (len_nonneg (str_of_Z n)). lia.
Qed.

Lemma tags_field_len tags s : len s <= len (tags_field tags s).
Proof.
  unfold tags_field. destruct tags as [[|t ts]|]; try lia.
  rewrite len_app. pose proof (len_nonneg (u "|#" ++ join (u ",") (t :: ts))). lia.
Qed.

(** The payload holds the escaped title and message and, at least, the
    seven characters of their frame. *)
Lemma event_payload_len o title message alert_type aggregation_key
    source_type_name date_happened priority tags hostname :
  len (_escape_event_content title) + len (_escape_event_content message) + 7
  <= len (event_payload o title message alert_type aggregation_key
            source_type_name date_happened priority tags hostname).
Proof.
  unfold event_payload. cbv zeta.
  eapply Z.le_trans; [ | apply opt_field_len ].
  eapply Z.le_trans; [ | apply tags_field_len ].
  do 5 (eapply Z.le_trans; [ | apply opt_field_len ]).
  eapply Z.le_trans; [ | apply opt_int_field_len ].
  rewrite !len_app.
  pose proof (len_nonneg (str_of_Z (utf8_len_replace (_escape_event_content title)))).
  pose proof (len_nonneg (str_of_Z (utf8_len_replace (_escape_event_content message)))).
  change (len (u "_e{")) with 3. change (len (u ",")) with 1.
  change (len (u "}:")) with 2. change (len (u "|")) with 1. lia.
Qed.

(** The size limit of events.  The limit of 8192 is on the number of
    characters of the whole payload: the escaped title and message, their
    frame and every optional field.  Over the limit [event] raises
    [ValueError] and leaves the client and its surroundings as they were:
    nothing is buffered or sent and [events_count] is not incremented.
    This is the case, in particular, when the escaped title and message
    together have more than 8192 characters.  At or under the limit nothing
    is raised by the check: [events_count] is incremented when telemetry is
    on and the payload is handed to the send path.  For a payload of ASCII
    characters the number of characters is the number of bytes. *)
Theorem event_payload_limit (s : Sys) (title message : str)
    (alert_type aggregation_key source_type_name : option str)
    (date_happened : option Z) (priority : option str)
    (tags : option (list str)) (hostname : option str) :
  let payload := event_payload (self s) title message alert_type aggregation_key
                   source_type_name date_happened priority tags hostname in
  let run := event title message alert_type aggregation_key source_type_name
               date_happened priority tags hostname s in
  let counted :=
    if _telemetry (cfg (self s)) then snd (incr_events_count s) else s in
  (8 * 1024 < len payload ->
   exists msg, run = (Raise (ValueError msg), s))
  /\ (8 * 1024 < len (_escape_event_content title)
                 + len (_escape_event_content message) ->
      exists msg, run = (Raise (ValueError msg), s))
  /\ (len payload <= 8 * 1024 ->
      run = send payload counted
      /\ events_count (tele (self counted))
         = events_count (tele (self s))
           + (if _telemetry (cfg (self s)) then 1 else 0)
      /\ buf (self counted) = buf (self s)
      /\ world counted = world s)
  /\ (is_ascii payload = true -> utf8_len payload = Some (len payload)).
Proof.
  intros payload run counted.
  assert (Hover : 8 * 1024 < len payload ->
                  exists msg, run = (Raise (ValueError msg), s)).
  { intros Hbig. subst run. unfold event, bind at 1, attr at 1. fold payload.
    apply Z.ltb_lt in Hbig. rewrite Hbig. eexists. reflexivity. }
  split; [ exact Hover | ].
  split.
  { intros Hbig. apply Hover.
    pose proof (event_payload_len (self s) title message alert_type
                  aggregation_key source_type_name date_happened priority
                  tags hostname) as Hlen.
    fold payload in Hlen. lia. }
  split; [ | apply is_ascii_utf8_len ].
  intros Hfits. subst run counted.
  unfold event, bind at 1, attr at 1. fold payload.
  apply Z.ltb_ge in Hfits. rewrite Hfits.
  unfold bind at 1, attr at 1.
  destruct s as [[c t b k m] w]. cbn [self cfg].
  destruct (_telemetry c); cbn; rewrite ?Z.add_0_r; repeat split.
Qed.

Lemma event_payload_limit_witness :
  let s := direct_client [None; None] [] in
  let title := u "Man down!" in
  let message := u "This server needs assistance." in
  let payload := event_payload (self s) title message None None None None None
                   None None in
  payload = u "_e{9,29}:Man down!|This server needs assistance."
  /\ event title message None None None None None None None s
     = send payload (snd (incr_events_count s)).
Proof.
  pose proof (event_payload_limit (direct_client [None; None] [])
                (u "Man down!") (u "This server needs assistance.")
                None None None None None None None) as H.
  cbv zeta in H. destruct H as (_ & _ & H & _).
  assert (Hfits : len (event_payload (self (direct_client [None; None] []))
                         (u "Man down!") (u "This server needs assistance.")
                         None None None None None None None) <= 8 * 1024)
    by (vm_compute; discriminate).
  destruct (H Hfits) as [Hrun _].
  cbv zeta. split; [ vm_compute; reflexivity | exact Hrun ].
Defined.

(** Title and message are not all that counts: a title of 8190 ASCII
    characters with an empty message encodes to 8190 bytes, and [event]
    raises [ValueError], the payload having 8202 characters. *)
Example event_rejected_under_title_message_limit :
  let s := direct_client [] [] in
  let title := repeat 97%N (Z.to_nat 8190) in
  let run := event title [] None None None None None None None s in
  utf8_len (title ++ []) = Some 8190
  /\ len (event_payload (self s) title [] None None None None None None None)
     = 8202
  /\ fst run
     = Raise (ValueError
                (u "Event " ++ [QUOTE] ++ title ++ [QUOTE]
                   ++ u " payload is too big (>=8KB). Event discarded"))
  /\ snd run = s.
Proof.
  cbv zeta. split; [ | split; [ | split ] ]; vm_compute; reflexivity.
Qed.

(** The limit counts characters: a title of 4100 characters of two bytes
    each encodes to 8200 bytes, over 8192, and the event is sent. *)
Example event_over_byte_limit_is_sent :
  let s := direct_client [None; None] [] in
  let title := repeat 233%N (Z.to_nat 4100) in
  let payload := event_payload (self s) title [] None None None None None None
                   None in
  let run := event title [] None None None None None None None s in
  utf8_len (title ++ []) = Some 8200
  /\ len payload = 4112
  /\ fst run = Return tt
  /\ events_count (tele (self (snd run))) = 1
  /\ exists k, trace (world (snd run))
               = trace (world s)
                 ++ [Acquire _socket_lock; Connect (peer k) None;
                     Release _socket_lock; Send k (payload ++ [LF]) None].
Proof.
  cbv zeta. split; [ | split; [ | split; [ | split ] ] ];
    try (vm_compute; reflexivity).
  exists {| fd := 3; peer := UDP (Some (u "localhost")) (Some 8125) |}.
  vm_compute. reflexivity.
Qed.

(* ------------------------------------------------------------------ *)
(** ** Escaping *)

Lemma strip_prefix_app p : forall s rest,
  strip_prefix p s = Some rest -> s = p ++ rest.
Proof.
  induction p as [|x p IH]; intros s rest H; cbn in H.
  - injection H as ->. reflexivity.
  - destruct s as [|y s]; [ discriminate | ].
    unfold codepoint_eqb in H. destruct (N.eqb_spec x y) as [->|]; [ | discriminate ].
    cbn. f_equal. apply IH, H.
Qed.

Lemma strip_prefix_length p s rest :
  strip_prefix p s = Some rest ->
  List.length s = (List.length p + List.length rest)%nat.
Proof.
  intros H. rewrite (strip_prefix_app p s rest H), length_app. reflexivity.
Qed.

(** Replacing one character is a character-by-character map. *)
Lemma replace_fuel_single x new : forall fuel s,
  (List.length s <= fuel)%nat ->
  replace_fuel fuel [x] new s
  = flat_map (fun c => if codepoint_eqb c x then new else [c]) s.
Proof.
  induction fuel as [|fuel IH]; intros s Hlen.
  - destruct s; [ reflexivity | cbn in Hlen; lia ].
  - destruct s as [|c s]; [ reflexivity | ].
    cbn [replace_fuel strip_prefix flat_map]. cbn in Hlen.
    unfold codepoint_eqb. rewrite (N.eqb_sym c x).
    destruct (N.eqb x c); cbn; rewrite IH by lia; reflexivity.
Qed.

(** What a replacement can hold: characters of the text and of [new]. *)
Lemma In_replace_fuel x old new : forall fuel s,
  In x (replace_fuel fuel old new s) -> In x new \/ In x s.
Proof.
  induction fuel as [|fuel IH]; intros s H; [ right; exact H | ].
  destruct s as [|c s]; [ right; exact H | ].
  cbn [replace_fuel] in H.
  destruct (strip_prefix old (c :: s)) as [rest|] eqn:Hp.
  - apply in_app_or in H. destruct H as [H|H]; [ left; exact H | ].
    destruct (IH rest H) as [H'|H']; [ left; exact H' | right ].
    rewrite (strip_prefix_app old (c :: s) rest Hp). apply in_or_app. right. exact H'.
  - destruct H as [->|H]; [ right; left; reflexivity | ].
    destruct (IH s H) as [H'|H']; [ left; exact H' | right; right; exact H' ].
Qed.

(** A text without the pattern is left as it is. *)
Lemma replace_fuel_absent old new : forall fuel s,
  occurs old s = false -> replace_fuel fuel old new s = s.
Proof.
  induction fuel as [|fuel IH]; intros s H; [ reflexivity | ].
  destruct s as [|c s]; [ reflexivity | ].
  cbn [replace_fuel]. cbn [occurs] in H.
  destruct (strip_prefix old (c :: s)); [ discriminate | ].
  rewrite IH by exact H. reflexivity.
Qed.

Lemma occurs_single_In x s : occurs [x] s = false <-> ~ In x s.
Proof.
  induction s as [|c s IH]; [ cbn; tauto | ].
  cbn [occurs strip_prefix]. unfold codepoint_eqb.
  destruct (N.eqb_spec x c) as [->|Hne].
  - split; [ discriminate | intros H; exfalso; apply H; left; reflexivity ].
  - rewrite IH. cbn. split; [ intros H [Hc|Hin]; [ congruence | tauto ] | tauto ].
Qed.

Lemma _escape_event_content_flat_map s :
  _escape_event_content s = flat_map escape_newline s.
Proof.
  unfold _escape_event_content, replace.
  rewrite replace_fuel_single by lia. reflexivity.
Qed.

Lemma _escape_event_content_no_newline s : ~ In LF (_escape_event_content s).
Proof.
  rewrite _escape_event_content_flat_map. intros H.
  apply in_flat_map in H. destruct H as (c & _ & Hc).
  unfold escape_newline, codepoint_eqb in Hc.
  destruct (N.eqb_spec c LF) as [Heq|Hne].
  - destruct Hc as [Hc|[Hc|[]]]; discriminate.
  - destruct Hc as [Hc|[]]. congruence.
Qed.

(** [_escape_event_content] works character by character: a newline
    becomes a backslash and an [n], every other character is copied.  The
    result holds no newline, has one character more per newline of the
    text, and a text without newline is returned as it is. *)
Theorem escape_event_content_character_by_character (s : str) :
  _escape_event_content s = flat_map escape_newline s
  /\ ~ In LF (_escape_event_content s)
  /\ len (_escape_event_content s) = len s + Z.of_nat (count_occ N.eq_dec s LF)
  /\ (~ In LF s -> _escape_event_content s = s).
Proof.
  split; [ apply _escape_event_content_flat_map | ].
  split; [ apply _escape_event_content_no_newline | ].
  split.
  { rewrite _escape_event_content_flat_map. unfold len.
    induction s as [|c s IH]; [ reflexivity | ].
    cbn [flat_map count_occ]. rewrite length_app.
    unfold escape_newline at 1. unfold codepoint_eqb.
    destruct (N.eq_dec c LF) as [Heq|Hne].
    - rewrite Heq, N.eqb_refl. cbn [List.length]. lia.
    - destruct (N.eqb_spec c LF); [ congruence | ]. cbn [List.length]. lia. }
  intros Hfree. unfold _escape_event_content, replace.
  apply replace_fuel_absent, occurs_single_In, Hfree.
Qed.

Lemma escape_event_content_character_by_character_witness :
  _escape_event_content (u "line 1" ++ [LF] ++ u "line 2")
  = u "line 1" ++ [BACKSLASH; 110%N] ++ u "line 2"
  /\ _escape_event_content (u "Man down!") = u "Man down!".
Proof.
  destruct (escape_event_content_character_by_character
              (u "line 1" ++ [LF] ++ u "line 2")) as (H1 & _).
  destruct (escape_event_content_character_by_character (u "Man down!"))
    as (_ & _ & _ & H4).
  split; [ rewrite H1; reflexivity | ].
  apply H4. vm_compute. intros H.
  repeat (destruct H as [H|H]; [ discriminate | ]). exact H.
Defined.

(** The head of a text survives the escaping of ["m:"]. *)
Lemma hd_replace_m : forall fuel s,
  hd_error (replace_fuel fuel [109%N; 58%N] [109%N; BACKSLASH; 58%N] s)
  = hd_error s.
Proof.
  intros [|fuel] s; [ reflexivity | ].
  destruct s as [|c s]; [ reflexivity | ].
  cbn [replace_fuel].
  destruct (strip_prefix [109%N; 58%N] (c :: s)) as [rest|] eqn:Hp;
    [ | reflexivity ].
  apply strip_prefix_app in Hp. injection Hp as -> _. reflexivity.
Qed.

Lemma occurs_m_replace : forall fuel s,
  (List.length s <= fuel)%nat ->
  occurs [109%N; 58%N]
    (replace_fuel fuel [109%N; 58%N] [109%N; BACKSLASH; 58%N] s) = false.
Proof.
  induction fuel as [|fuel IH]; intros s Hlen.
  - destruct s; [ reflexivity | cbn in Hlen; lia ].
  - destruct s as [|c s]; [ reflexivity | ].
    cbn [replace_fuel]. cbn [List.length] in Hlen.
    destruct (strip_prefix [109%N; 58%N] (c :: s)) as [rest|] eqn:Hp.
    + pose proof (strip_prefix_length _ _ _ Hp) as Hrest. cbn in Hrest.
      specialize (IH rest ltac:(lia)).
      cbn [app occurs strip_prefix codepoint_eqb].
      change (N.eqb 109 109) with true. change (N.eqb 58 BACKSLASH) with false.
      change (N.eqb 109 BACKSLASH) with false. change (N.eqb 109 58) with false.
      cbn iota. exact IH.
    + specialize (IH s ltac:(lia)).
      cbn [occurs]. rewrite IH.
      cbn [strip_prefix]. unfold codepoint_eqb at 1.
      destruct (N.eqb_spec 109 c) as [<-|Hne]; [ | reflexivity ].
      pose proof (hd_replace_m fuel s) as Hhd.
      destruct (replace_fuel fuel [109%N; 58%N] [109%N; BACKSLASH; 58%N] s)
        as [|d out]; [ reflexivity | ].
      cbn [strip_prefix]. unfold codepoint_eqb.
      destruct (N.eqb_spec 58 d) as [<-|Hd]; [ | reflexivity ].
      destruct s as [|d' s']; [ discriminate | ].
      cbn in Hhd. injection Hhd as <-.
      cbn in Hp. discriminate.
Qed.

(** [_escape_service_check_message] leaves neither a newline nor the
    sequence ["m:"] in the message, so that the ["|m:"] that introduces the
    message in the payload is the last one; a message with neither is
    returned as it is. *)
Theorem escape_service_check_message_leaves_no_delimiter (s : str) :
  let out := _escape_service_check_message s in
  ~ In LF out
  /\ occurs (u "m:") out = false
  /\ (~ In LF s -> occurs (u "m:") s = false -> out = s).
Proof.
  cbv zeta. unfold _escape_service_check_message.
  change (u "m:") with [109%N; 58%N].
  split; [ | split ].
  - unfold replace at 1. intros H. apply In_replace_fuel in H.
    destruct H as [H|H].
    + destruct H as [H|[H|[H|[]]]]; discriminate.
    + exact (_escape_event_content_no_newline s H).
  - unfold replace at 1. apply occurs_m_replace. lia.
  - intros Hfree Hm.
    replace (replace [LF] [BACKSLASH; 110%N] s) with s.
    + unfold replace. apply replace_fuel_absent, Hm.
    + symmetry. unfold replace. apply replace_fuel_absent, occurs_single_In, Hfree.
Qed.

Lemma escape_service_check_message_leaves_no_delimiter_witness :
  _escape_service_check_message (u "from:8.8.8.8") = u "from\:8.8.8.8"
  /\ _escape_service_check_message (u "all good") = u "all good".
Proof.
  destruct (escape_service_check_message_leaves_no_delimiter (u "all good"))
    as (_ & _ & H).
  split; [ vm_compute; reflexivity | ].
  apply H; [ | vm_compute; reflexivity ].
  vm_compute. intros Hin.
  repeat (destruct Hin as [Hin|Hin]; [ discriminate | ]). exact Hin.
Defined.

(* ------------------------------------------------------------------ *)
(** ** Optional fields of events and service checks *)

Lemma opt_field_given key v s : opt_field key (given v) s = opt_field key v s.
Proof. destruct v as [[|c x]|]; reflexivity. Qed.

Lemma opt_int_field_given key v s :
  opt_int_field key (given_int v) s = opt_int_field key v s.
Proof.
  destruct v as [n|]; [ | reflexivity ]. unfold given_int, opt_int_field.
  destruct (n =? 0) eqn:Hn; [ reflexivity | rewrite Hn; reflexivity ].
Qed.

Lemma tags_field_add_given o tags s :
  tags_field (_add_constant_tags o (given_tags tags)) s
  = tags_field (_add_constant_tags o tags) s.
Proof.
  unfold _add_constant_tags, given_tags.
  destruct (constant_tags (cfg o)) as [|c cs]; destruct tags as [[|t ts]|];
    reflexivity.
Qed.

(** An argument that is given but falsy - an empty string, an empty list
    of tags, a timestamp of zero - is left out of the payload like an
    argument that is not given; so is a service-check message of [None].
    The status of a service check is always written, zero included. *)
Theorem falsy_optional_arguments_are_left_out (o : DogStatsd)
    (title message check_name : str) (status : Z)
    (alert_type aggregation_key source_type_name priority hostname
       check_message : option str)
    (date_happened timestamp : option Z) (tags : option (list str)) :
  event_payload o title message alert_type aggregation_key source_type_name
    date_happened priority tags hostname
  = event_payload o title message (given alert_type) (given aggregation_key)
      (given source_type_name) (given_int date_happened) (given priority)
      (given_tags tags) (given hostname)
  /\ service_check_payload o check_name status tags timestamp hostname
       check_message
     = service_check_payload o check_name status (given_tags tags)
         (given_int timestamp) (given hostname) (given check_message)
  /\ (constant_tags (cfg o) = [] -> _container_id (cfg o) = None ->
      event_payload o title message (Some []) (Some []) (Some []) (Some 0)
        (Some []) (Some []) (Some [])
      = u "_e{" ++ str_of_Z (utf8_len_replace (_escape_event_content title))
          ++ u "," ++ str_of_Z (utf8_len_replace (_escape_event_content message))
          ++ u "}:" ++ _escape_event_content title ++ u "|"
          ++ _escape_event_content message
      /\ service_check_payload o check_name status (Some []) (Some 0) (Some [])
           (Some [])
         = u "_sc|" ++ check_name ++ u "|" ++ str_of_Z status).
Proof.
  split; [ | split ].
  - unfold event_payload. cbv zeta.
    rewrite !opt_field_given, opt_int_field_given, tags_field_add_given.
    reflexivity.
  - unfold service_check_payload. cbv zeta.
    rewrite !opt_field_given, opt_int_field_given, tags_field_add_given.
    destruct check_message as [[|c m]|]; reflexivity.
  - intros Htags Hcid. unfold event_payload, service_check_payload,
      _add_constant_tags. cbv zeta. rewrite Htags, Hcid. split; reflexivity.
Qed.

Lemma falsy_optional_arguments_are_left_out_witness :
  let o := self (direct_client [] []) in
  event_payload o (u "t") (u "m") (Some []) (Some []) (Some []) (Some 0)
    (Some []) (Some []) (Some [])
  = u "_e{1,1}:t|m"
  /\ service_check_payload o (u "my_service.check_name") 1 (Some []) (Some 0)
       (Some []) (Some [])
     = u "_sc|my_service.check_name|1".
Proof.
  destruct (falsy_optional_arguments_are_left_out (self (direct_client [] []))
              (u "t") (u "m") (u "my_service.check_name") 1
              None None None None None None None None None) as (_ & _ & H).
  destruct (H eq_refl eq_refl) as [H1 H2].
  cbv zeta. split; [ rewrite H1 | rewrite H2 ]; reflexivity.
Defined.

(* ------------------------------------------------------------------ *)
(** ** Telemetry between two flushes *)

Lemma _xmit_packet_keeps_last_flush_time packet is_telemetry :
  keeps (fun o => _last_flush_time (tele o)) (_xmit_packet packet is_telemetry).
Proof. unfold_transport. py_walk. Qed.

Lemma _send_to_server_waiting s packet :
  _telemetry (cfg (self s)) = true ->
  Qle_bool (hd 0%Q (clock (world s)))
    (_last_flush_time (tele (self s)) + _telemetry_flush_interval (cfg (self s)))
  = true ->
  _send_to_server packet s
  = (Return tt, snd (time_time (snd (_xmit_packet (packet ++ [LF]) false s)))).
Proof.
  intros Hon Hwait. unfold _send_to_server.
  destruct (_xmit_packet_returns (packet ++ [LF]) false s) as [b Hb].
  rewrite (bind_run _ _ _ _ Hb).
  set (s1 := snd (_xmit_packet (packet ++ [LF]) false s)).
  pose proof (_xmit_packet_keeps_cfg (packet ++ [LF]) false s) as Hcfg.
  pose proof (_xmit_packet_keeps_last_flush_time (packet ++ [LF]) false s)
    as Hlast.
  pose proof (_xmit_packet_spares_clock (packet ++ [LF]) false s) as Hclock.
  fold s1 in Hcfg, Hlast, Hclock. cbv beta in Hlast.
  unfold _is_telemetry_flush_time.
  unfold bind at 1. unfold bind at 1. unfold attr at 1.
  rewrite Hcfg, Hon.
  unfold bind at 1. unfold attr at 1. unfold bind at 1. unfold attr at 1.
  unfold bind at 1. unfold time_time at 1. unfold ret at 1.
  rewrite Hlast, Hcfg, Hclock. unfold Qlt_bool. rewrite Hwait.
  cbn [negb]. unfold ret, time_time. cbn [snd]. rewrite Hclock. reflexivity.
Qed.

(** Telemetry waits for its interval.  While the clock has not passed
    [_last_flush_time] plus [_telemetry_flush_interval], [_send_to_server]
    transmits the packet and reads the clock once, and that is all: no
    telemetry packet is sent and nothing is reset. *)
Theorem telemetry_waits_for_its_interval (s : Sys) (packet : str) :
  _telemetry (cfg (self s)) = true ->
  Qle_bool (hd 0%Q (clock (world s)))
    (_last_flush_time (tele (self s)) + _telemetry_flush_interval (cfg (self s)))
  = true ->
  let s1 := snd (_xmit_packet (packet ++ [LF]) false s) in
  let s' := snd (_send_to_server packet s) in
  _send_to_server packet s = (Return tt, snd (time_time s1))
  /\ self s' = self s1
  /\ trace (world s') = trace (world s1)
  /\ net (world s') = net (world s1)
  /\ clock (world s') = tl (clock (world s)).
Proof.
  intros Hon Hwait s1 s'.
  pose proof (_send_to_server_waiting s packet Hon Hwait) as Hrun. fold s1 in Hrun.
  subst s'. rewrite Hrun. cbn [snd].
  split; [ reflexivity | ].
  pose proof (_xmit_packet_spares_clock (packet ++ [LF]) false s) as Hclock.
  fold s1 in Hclock.
  repeat split. cbn. rewrite Hclock. reflexivity.
Qed.

Lemma telemetry_waits_for_its_interval_witness :
  let s := direct_client [] [5; 6]%Q in
  let k := {| fd := 3; peer := UDP (Some (u "localhost")) (Some 8125) |} in
  let s' := snd (_send_to_server (u "a:1|c") s) in
  trace (world s')
  = trace (world s)
    ++ [Acquire _socket_lock; Connect (peer k) None; Release _socket_lock;
        Send k (u "a:1|c" ++ [LF]) None]
  /\ packets_sent (tele (self s')) = 1.
Proof.
  pose proof (telemetry_waits_for_its_interval (direct_client [] [5; 6]%Q)
                (u "a:1|c") eq_refl eq_refl) as H.
  cbv zeta in H. destruct H as (_ & H2 & H3 & _).
  cbv zeta. rewrite H2, H3. split; vm_compute; reflexivity.
Defined.

(* ------------------------------------------------------------------ *)
(** ** A flush that fails *)

Lemma time_time_self s : self (snd (time_time s)) = self s.
Proof. reflexivity. Qed.

(** Nothing is retried.  When the transmission of the buffered payload
    fails, [flush] returns normally all the same and the buffer is emptied:
    the packets are gone.  With telemetry on (and not due) the payload -
    the packets joined by newlines, with a final newline - is counted as one
    dropped packet of that many characters, and no other counter moves.  A
    flush after that sends nothing. *)
Theorem flush_drops_a_payload_that_fails (s : Sys) (e : exn) :
  _buffer (buf (self s)) <> [] ->
  let payload := join [LF] (_buffer (buf (self s))) ++ [LF] in
  utf8_len payload <> None ->
  send_fails_with s false e ->
  _telemetry (cfg (self s)) = true ->
  Qle_bool (hd 0%Q (clock (world s)))
    (_last_flush_time (tele (self s)) + _telemetry_flush_interval (cfg (self s)))
  = true ->
  let s' := snd (flush s) in
  let before := tele (self s) in
  fst (flush s) = Return tt
  /\ buf (self s') = {| _buffer := []; _current_buffer_total_size := 0 |}
  /\ tele (self s')
     = set_packets_dropped (packets_dropped before + 1)
         (set_bytes_dropped (bytes_dropped before + len payload) before)
  /\ flush s' = (Return tt, logged [Acquire _buffer_lock; Release _buffer_lock] s').
Proof.
  intros Hne payload Henc Hfail Hon Hwait s' before.
  destruct (utf8_len payload) as [n|] eqn:Hn; [ clear Henc | congruence ].
  set (s0 := logged [Acquire _buffer_lock] s).
  assert (Hfail0 : send_fails_with s0 false e)
    by (destruct s as [o w]; exact Hfail).
  assert (Hon0 : _telemetry (cfg (self s0)) = true)
    by (destruct s as [o w]; exact Hon).
  assert (Hwait0 : Qle_bool (hd 0%Q (clock (world s0)))
                     (_last_flush_time (tele (self s0))
                      + _telemetry_flush_interval (cfg (self s0))) = true)
    by (destruct s as [o w]; exact Hwait).
  destruct (_buffer (buf (self s))) as [|p rest] eqn:Hb; [ congruence | ].
  assert (Hrun : s'
                 = logged [Acquire _buffer_lock; Release _buffer_lock;
                           Release _buffer_lock]
                     (emptied
                        (snd (time_time
                                (snd (_xmit_packet payload false s0)))))).
  { subst s'. rewrite flush_spec, Hb. cbv zeta. cbn [snd]. fold s0.
    rewrite (_send_to_server_waiting s0 (join [LF] (p :: rest)) Hon0 Hwait0).
    reflexivity. }
  assert (Hempty : buf (self s')
                   = {| _buffer := []; _current_buffer_total_size := 0 |})
    by (rewrite Hrun; reflexivity).
  split; [ apply flush_returns | ].
  split; [ exact Hempty | ].
  split.
  - rewrite Hrun. cbn [logged emptied with_self with_buf self tele].
    rewrite time_time_self.
    rewrite (_xmit_packet_failure s0 payload false e n Hn Hfail0). cbn [snd].
    rewrite dropped_tele.
    destruct (closed_frame (attempted s0 false payload e)) as (H1 & H2 & _).
    destruct (attempted_frame s0 false payload e) as [H3 H4].
    destruct (fatal e); rewrite ?H1, ?H2, H3, H4, Hon0; reflexivity.
  - rewrite flush_spec, Hempty. reflexivity.
Qed.

Lemma flush_drops_a_payload_that_fails_witness :
  let s := snd (send_all [u "a:1|c"; u "b:2|g"]
                  (buffered_client 100 (3 # 10) [None; Some socket_timeout] [])) in
  let s' := snd (flush s) in
  _buffer (buf (self s)) = [u "a:1|c"; u "b:2|g"]
  /\ _buffer (buf (self s')) = []
  /\ (packets_dropped (tele (self s')), bytes_dropped (tele (self s'))) = (1, 12).
Proof.
  assert (Hne : _buffer (buf (self (snd (send_all [u "a:1|c"; u "b:2|g"]
                   (buffered_client 100 (3 # 10)
                      [None; Some socket_timeout] []))))) <> [])
    by (vm_compute; discriminate).
  assert (Henc : utf8_len
                   (join [LF]
                      (_buffer (buf (self (snd (send_all [u "a:1|c"; u "b:2|g"]
                         (buffered_client 100 (3 # 10)
                            [None; Some socket_timeout] []))))))
                    ++ [LF]) <> None)
    by (vm_compute; discriminate).
  assert (Hfail : send_fails_with
                    (snd (send_all [u "a:1|c"; u "b:2|g"]
                       (buffered_client 100 (3 # 10)
                          [None; Some socket_timeout] [])))
                    false socket_timeout)
    by (vm_compute; split; reflexivity).
  pose proof (flush_drops_a_payload_that_fails _ socket_timeout Hne Henc Hfail
                eq_refl eq_refl) as H.
  cbv zeta in H. destruct H as (_ & H2 & H3 & _).
  cbv zeta. split; [ reflexivity | ].
  rewrite H2, H3. split; reflexivity.
Defined.

(* ------------------------------------------------------------------ *)
(** ** The telemetry packet *)

Lemma is_ascii_app a b : is_ascii (a ++ b) = is_ascii a && is_ascii b.
Proof. unfold is_ascii. apply forallb_app. Qed.

Lemma is_ascii_join sep parts :
  is_ascii sep = true -> forallb is_ascii parts = true ->
  is_ascii (join sep parts) = true.
Proof.
  intros Hsep. induction parts as [|p rest IH]; intros H; [ reflexivity | ].
  cbn in H. apply andb_prop in H. destruct H as [Hp Hrest].
  destruct rest as [|q rest]; [ exact Hp | ].
  change (join sep (p :: q :: rest)) with (p ++ sep ++ join sep (q :: rest)).
  rewrite !is_ascii_app, Hp, Hsep, (IH Hrest). reflexivity.
Qed.

Lemma is_ascii_digits d :
  is_ascii (u (NilEmpty.string_of_uint d)) = true.
Proof. induction d; cbn; try exact IHd; reflexivity. Qed.

Lemma is_ascii_string_of_uint d :
  is_ascii (u (NilZero.string_of_uint d)) = true.
Proof.
  destruct d; try reflexivity;
    exact (is_ascii_digits (_ d)).
Qed.

Lemma is_ascii_str_of_Z z : is_ascii (str_of_Z z) = true.
Proof.
  unfold str_of_Z. destruct (Z.to_int z) as [d|d]; cbn.
  - apply is_ascii_string_of_uint.
  - apply is_ascii_string_of_uint.
Qed.

(** The telemetry packet of a client whose tags are ASCII is ASCII: its
    length, which is what the counters [bytes_sent] and [bytes_dropped] are
    given for it, is its number of bytes on the wire.  The packet ends with
    a newline. *)
Theorem telemetry_packet_length_is_its_size (o : DogStatsd) :
  forallb is_ascii (_client_tags (cfg o)) = true ->
  forallb is_ascii (constant_tags (cfg o)) = true ->
  is_ascii (_flush_telemetry o) = true
  /\ utf8_len (_flush_telemetry o) = Some (len (_flush_telemetry o))
  /\ exists body, _flush_telemetry o = body ++ [LF].
Proof.
  intros Hclient Hconst.
  assert (Htags : is_ascii
                    (join (u ",")
                       (match _add_constant_tags o (Some (_client_tags (cfg o))) with
                        | Some l => l
                        | None => []
                        end)) = true).
  { apply is_ascii_join; [ reflexivity | ].
    unfold _add_constant_tags.
    destruct (constant_tags (cfg o)) as [|c cs] eqn:Hc;
      destruct (_client_tags (cfg o)) as [|t ts] eqn:Ht;
      try reflexivity; try exact Hclient; try exact Hconst.
    rewrite forallb_app, Hclient, Hconst. reflexivity. }
  assert (Hascii : is_ascii (_flush_telemetry o) = true).
  { unfold _flush_telemetry. cbv zeta.
    rewrite is_ascii_app. apply andb_true_intro. split; [ | reflexivity ].
    apply is_ascii_join; [ reflexivity | ].
    cbn [TELEMETRY_NAMES combine map forallb fst snd].
    rewrite !is_ascii_app, !is_ascii_str_of_Z, Htags. reflexivity. }
  split; [ exact Hascii | ].
  split; [ apply is_ascii_utf8_len, Hascii | ].
  unfold _flush_telemetry. cbv zeta. eexists. reflexivity.
Qed.

Lemma telemetry_packet_length_is_its_size_witness :
  let o := self (tagged_client None [u "env:prod"] None []) in
  utf8_len (_flush_telemetry o) = Some (len (_flush_telemetry o))
  /\ len (_flush_telemetry o) = 707.
Proof.
  pose proof (telemetry_packet_length_is_its_size
                (self (tagged_client None [u "env:prod"] None []))
                eq_refl eq_refl) as H.
  destruct H as (_ & H2 & _).
  cbv zeta. split; [ exact H2 | vm_compute; reflexivity ].
Defined.
